(** * Hybrid retrieval pipeline of unsw_rag: a shallow embedding

    The development follows the modules under [search/]:
    - [fusion.py]        : [HybridFusion.reciprocal_rank_fusion]
    - [bm25_search.py]   : [BM25Searcher._build_tsquery], [BM25Searcher.search]
    - [reranker.py]      : [Reranker.rerank], [Reranker.rerank_with_metadata]
    - [citation.py]      : [CitationFormatter._format_citation_string]
    - [vector_search.py] : the two cosine-similarity helpers
    - [hybrid_search.py] : [HybridSearchEngine.__init__] and [search]

    Python floats are idealised: retrieval and fusion scores, which only use
    field arithmetic and comparisons, are rationals ([Q], compared with
    [==]); the reranker and the cosine helpers, which call [math.log1p] and
    [numpy.linalg.norm], work over the reals ([R]).  Python dictionaries
    whose iteration order is observable are insertion-ordered association
    lists. *)

From Stdlib Require Import List ZArith QArith Qfield Reals Lra Lia Bool Psatz.
From Stdlib Require Import String Ascii DecimalString.
From Stdlib Require Import Sorting.Sorted Sorting.Permutation.
Import ListNotations.

Set Implicit Arguments.

(* ------------------------------------------------------------------ *)
(** * Python list and dictionary primitives                            *)
(* ------------------------------------------------------------------ *)

Module Py.

(** [l[:n]]: a non-negative bound keeps the first [n] elements, a negative
    bound drops the last [-n]. *)
Definition take {A : Type} (n : Z) (l : list A) : list A :=
  if (0 <=? n)%Z then firstn (Z.to_nat n) l
  else firstn (List.length l - Z.to_nat (- n)) l.

Section StableSort.
Variables (A K : Type).
Variable ltb : K -> K -> bool.
Variable key : A -> K.

(** [list.sort(key=..., reverse=True)] and [sorted(..., reverse=True)]:
    descending in the key, and stable (elements with equal keys keep the
    order they had).  The head of the list is placed in front of every
    element of the sorted tail whose key is not strictly larger. *)
Fixpoint insert_desc (x : A) (l : list A) : list A :=
  match l with
  | [] => [x]
  | y :: l' => if ltb (key x) (key y) then y :: insert_desc x l' else x :: l
  end.

Definition sort_desc (l : list A) : list A := fold_right insert_desc [] l.

(** Two keys tie when neither is strictly below the other. *)
Definition tie (a b : K) : bool := negb (ltb a b) && negb (ltb b a).
End StableSort.

(** An insertion-ordered dictionary with string keys. *)
Definition dict (V : Type) := list (string * V).

Definition keys {V : Type} (d : dict V) : list string := map fst d.

Fixpoint get {V : Type} (d : dict V) (k : string) : option V :=
  match d with
  | [] => None
  | (k', v) :: d' => if String.eqb k' k then Some v else get d' k
  end.

Definition contains {V : Type} (d : dict V) (k : string) : bool :=
  match get d k with Some _ => true | None => false end.

(** [d[k] = v]: an existing key keeps its place, a new key goes last. *)
Fixpoint set {V : Type} (d : dict V) (k : string) (v : V) : dict V :=
  match d with
  | [] => [(k, v)]
  | (k', v') :: d' =>
      if String.eqb k' k then (k', v) :: d' else (k', v') :: set d' k v
  end.

(** [min(l)] and [max(l)] of a non-empty list, [x] being the best seen so
    far. *)
Fixpoint min_from (x : Q) (l : list Q) : Q :=
  match l with
  | [] => x
  | y :: rest => min_from (if negb (Qle_bool x y) then y else x) rest
  end.

Fixpoint max_from (x : Q) (l : list Q) : Q :=
  match l with
  | [] => x
  | y :: rest => max_from (if negb (Qle_bool y x) then y else x) rest
  end.

End Py.

(* ------------------------------------------------------------------ *)
(** * Data model                                                       *)
(* ------------------------------------------------------------------ *)

(** The keys of [chunk_metadata] the pipeline reads. *)
Record Metadata := {
  citations_count : option nat;
  is_open_access : option bool;
  pub_year : option Z
}.

(** A result dictionary as it travels through the pipeline.  A score key
    that is absent from the dictionary is [None]. *)
Record Doc := {
  chunk_id : string;
  chunk_type : string;
  content : string;
  metadata : Metadata;
  staff_profile_url : option string;
  publication_id : option Z;
  source : string;
  bm25_score : option Q;
  vector_score : option Q;
  rrf_score : option Q;
  rerank_score : option R;
  final_score : option R
}.

Definition ids (l : list Doc) : list string := map chunk_id l.

Definition Qltb (a b : Q) : bool := negb (Qle_bool b a).

(* ------------------------------------------------------------------ *)
(** * fusion.py                                                        *)
(* ------------------------------------------------------------------ *)

Module HybridFusion.

(** [rrf_scores] (a [defaultdict(float)]) and [doc_info]. *)
Record acc := {
  rrf_scores : Py.dict Q;
  doc_info : Py.dict Doc
}.

Definition empty_acc : acc := {| rrf_scores := []; doc_info := [] |}.

(** [rrf_scores[chunk_id] += rrf_score]: a missing key reads [0.0]. *)
Definition bump (t : Py.dict Q) (c : string) (s : Q) : Py.dict Q :=
  Py.set t c ((match Py.get t c with Some v => v | None => 0 end) + s)%Q.

(** [if chunk_id not in doc_info: doc_info[chunk_id] = doc]. *)
Definition remember (t : Py.dict Doc) (c : string) (d : Doc) : Py.dict Doc :=
  if Py.contains t c then t else Py.set t c d.

(** One pass of the inner loop, [rank] being the position of the head of
    [results].  [1.0 / (k + rank)] raises [ZeroDivisionError] when
    [k + rank = 0]: the result is then [None]. *)
Fixpoint scan_list (k rank : Z) (results : list Doc) (st : acc) : option acc :=
  match results with
  | [] => Some st
  | doc :: rest =>
      if (k + rank =? 0)%Z then None
      else
        let rrf_score := (1 / inject_Z (k + rank))%Q in
        scan_list k (rank + 1) rest
          {| rrf_scores := bump (rrf_scores st) (chunk_id doc) rrf_score;
             doc_info := remember (doc_info st) (chunk_id doc) doc |}
  end.

Fixpoint scan_lists (k : Z) (results_lists : list (list Doc)) (st : acc)
  : option acc :=
  match results_lists with
  | [] => Some st
  | results :: more =>
      match scan_list k 1 results st with
      | None => None
      | Some st' => scan_lists k more st'
      end
  end.

(** The copy of the stored document with [rrf_score] set and the two
    per-signal scores defaulted to [0.0] when their keys are absent. *)
Definition fused_doc (doc : Doc) (score : Q) : Doc :=
  {| chunk_id := chunk_id doc;
     chunk_type := chunk_type doc;
     content := content doc;
     metadata := metadata doc;
     staff_profile_url := staff_profile_url doc;
     publication_id := publication_id doc;
     source := source doc;
     bm25_score :=
       match bm25_score doc with Some s => Some s | None => Some 0%Q end;
     vector_score :=
       match vector_score doc with Some s => Some s | None => Some 0%Q end;
     rrf_score := Some score;
     rerank_score := rerank_score doc;
     final_score := final_score doc |}.

(** [doc_info[chunk_id]] raises [KeyError] on a missing key. *)
Fixpoint collect (info : Py.dict Doc) (items : Py.dict Q) : option (list Doc) :=
  match items with
  | [] => Some []
  | (c, score) :: rest =>
      match Py.get info c, collect info rest with
      | Some doc, Some out => Some (fused_doc doc score :: out)
      | _, _ => None
      end
  end.

(** The sort key [x["rrf_score"]]. *)
Definition rrf_key (d : Doc) : Q :=
  match rrf_score d with Some s => s | None => 0%Q end.

Definition reciprocal_rank_fusion (results_lists : list (list Doc)) (k : Z)
  : option (list Doc) :=
  match scan_lists k results_lists empty_acc with
  | None => None
  | Some st =>
      match collect (doc_info st) (rrf_scores st) with
      | None => None
      | Some fused_results => Some (Py.sort_desc Qltb rrf_key fused_results)
      end
  end.

(** The float keys of a result that the helpers below read and write by
    name: ["bm25_score"], ["vector_score"], ["rrf_score"]. *)
Inductive score_field := bm25_field | vector_field | rrf_field.

Definition get_score (f : score_field) (d : Doc) : option Q :=
  match f with
  | bm25_field => bm25_score d
  | vector_field => vector_score d
  | rrf_field => rrf_score d
  end.

Definition set_score (f : score_field) (d : Doc) (q : Q) : Doc :=
  {| chunk_id := chunk_id d;
     chunk_type := chunk_type d;
     content := content d;
     metadata := metadata d;
     staff_profile_url := staff_profile_url d;
     publication_id := publication_id d;
     source := source d;
     bm25_score :=
       match f with bm25_field => Some q | _ => bm25_score d end;
     vector_score :=
       match f with vector_field => Some q | _ => vector_score d end;
     rrf_score :=
       match f with rrf_field => Some q | _ => rrf_score d end;
     rerank_score := rerank_score d;
     final_score := final_score d |}.

(** [doc.get(score_field, 0.0)] *)
Definition score_or_zero (f : score_field) (d : Doc) : Q :=
  match get_score f d with Some q => q | None => 0%Q end.

(** [_normalize_scores]: the list after every [doc[score_field]] has been
    overwritten (the documents of one list are distinct dictionaries). *)
Definition _normalize_scores (results : list Doc) (f : score_field)
  : list Doc :=
  match map (score_or_zero f) results with
  | [] => results
  | first :: others =>
      let min_score := Py.min_from first others in
      let max_score := Py.max_from first others in
      if Qeq_bool max_score min_score then
        map (fun doc => set_score f doc 1%Q) results
      else
        map (fun doc =>
               set_score f doc
                 ((score_or_zero f doc - min_score)
                  / (max_score - min_score))%Q)
            results
  end.

(** A value of [combined]: the copied document with its extra key
    [weighted_score]. *)
Record weighted_doc := {
  merged : Doc;
  weighted_score : Q
}.

(** The entry the first loop of [weighted_fusion] stores for [doc]. *)
Definition from_bm25 (bm25_weight : Q) (doc : Doc) : weighted_doc :=
  {| merged :=
       set_score vector_field
         (set_score bm25_field doc (score_or_zero bm25_field doc)) 0%Q;
     weighted_score := (bm25_weight * score_or_zero bm25_field doc)%Q |}.

Fixpoint add_bm25 (bm25_weight : Q) (bm25_results : list Doc)
         (combined : Py.dict weighted_doc) : Py.dict weighted_doc :=
  match bm25_results with
  | [] => combined
  | doc :: rest =>
      add_bm25 bm25_weight rest
        (Py.set combined (chunk_id doc) (from_bm25 bm25_weight doc))
  end.

(** One turn of the second loop: update the entry when the chunk is
    there, create it otherwise. *)
Definition merge_vector (vector_weight : Q) (doc : Doc)
           (combined : Py.dict weighted_doc) : Py.dict weighted_doc :=
  let vector_score := score_or_zero vector_field doc in
  match Py.get combined (chunk_id doc) with
  | Some entry =>
      Py.set combined (chunk_id doc)
        {| merged := set_score vector_field (merged entry) vector_score;
           weighted_score :=
             (weighted_score entry + vector_weight * vector_score)%Q |}
  | None =>
      Py.set combined (chunk_id doc)
        {| merged :=
             set_score vector_field (set_score bm25_field doc 0%Q)
                       vector_score;
           weighted_score := (vector_weight * vector_score)%Q |}
  end.

Fixpoint add_vector (vector_weight : Q) (vector_results : list Doc)
         (combined : Py.dict weighted_doc) : Py.dict weighted_doc :=
  match vector_results with
  | [] => combined
  | doc :: rest =>
      add_vector vector_weight rest (merge_vector vector_weight doc combined)
  end.

Definition weighted_fusion (bm25_results vector_results : list Doc)
           (bm25_weight vector_weight : Q) (normalize : bool)
  : list weighted_doc :=
  let bm25_results :=
    if normalize then _normalize_scores bm25_results bm25_field
    else bm25_results in
  let vector_results :=
    if normalize then _normalize_scores vector_results vector_field
    else vector_results in
  let combined :=
    add_vector vector_weight vector_results
      (add_bm25 bm25_weight bm25_results []) in
  Py.sort_desc Qltb weighted_score (map snd combined).

(** [deduplicate]: [seen] after the loop, then its values. *)
Fixpoint dedup_scan (f : score_field) (results : list Doc)
         (seen : Py.dict Doc) : Py.dict Doc :=
  match results with
  | [] => seen
  | doc :: rest =>
      dedup_scan f rest
        (match Py.get seen (chunk_id doc) with
         | None => Py.set seen (chunk_id doc) doc
         | Some kept =>
             if Qltb (score_or_zero f kept) (score_or_zero f doc)
             then Py.set seen (chunk_id doc) doc
             else seen
         end)
  end.

Definition deduplicate (results : list Doc) (f : score_field) : list Doc :=
  map snd (dedup_scan f results []).

End HybridFusion.

(* ------------------------------------------------------------------ *)
(** * bm25_search.py                                                   *)
(* ------------------------------------------------------------------ *)

(** Python [str] methods, on strings whose characters are the code points
    0..255. *)
Module Str.

Definition between (lo hi : nat) (c : ascii) : bool :=
  let n := nat_of_ascii c in (lo <=? n)%nat && (n <=? hi)%nat.

(** [c.isspace()] *)
Definition isspace (c : ascii) : bool :=
  between 9 13 c || between 28 32 c || between 133 133 c || between 160 160 c.

(** [c.isalnum()] *)
Definition isalnum (c : ascii) : bool :=
  between 48 57 c || between 65 90 c || between 97 122 c
  || between 170 170 c || between 178 179 c || between 181 181 c
  || between 185 186 c || between 188 190 c
  || between 192 214 c || between 216 246 c || between 248 255 c.

Fixpoint lstrip (s : string) : string :=
  match s with
  | EmptyString => EmptyString
  | String c s' => if isspace c then lstrip s' else s
  end.

Definition reverse (s : string) : string :=
  string_of_list_ascii (rev (list_ascii_of_string s)).

(** [s.strip()] *)
Definition strip (s : string) : string := reverse (lstrip (reverse (lstrip s))).

(** [s.split()]: maximal runs of non-whitespace characters; [cur] is the
    run being read. *)
Fixpoint split_from (cur s : string) : list string :=
  match s with
  | EmptyString => match cur with EmptyString => [] | _ => [cur] end
  | String c s' =>
      if isspace c then
        match cur with
        | EmptyString => split_from EmptyString s'
        | _ => cur :: split_from EmptyString s'
        end
      else split_from (cur ++ String c EmptyString) s'
  end.

Definition split (s : string) : list string := split_from EmptyString s.

(** [''.join(c for c in s if keep(c))] *)
Fixpoint keep_chars (keep : ascii -> bool) (s : string) : string :=
  match s with
  | EmptyString => EmptyString
  | String c s' =>
      if keep c then String c (keep_chars keep s') else keep_chars keep s'
  end.

Definition is_empty (s : string) : bool :=
  match s with EmptyString => true | _ => false end.

(** [s[:n]] for [n >= 0]. *)
Fixpoint take (n : nat) (s : string) : string :=
  match n, s with
  | S n', String c s' => String c (take n' s')
  | _, _ => EmptyString
  end.

End Str.

Module BM25Searcher.

(** The character test of the cleaning loop:
    [c.isalnum() or c in ['-', '_']]. *)
Definition kept (c : ascii) : bool :=
  Str.isalnum c || Ascii.eqb c "-" || Ascii.eqb c "_".

Definition clean_term (term : string) : string := Str.keep_chars kept term.

Definition cleaned_terms (query : string) : list string :=
  filter (fun term => negb (Str.is_empty term))
         (map clean_term (Str.split (Str.strip query))).

Definition _build_tsquery (query : string) : string :=
  match cleaned_terms query with
  | [] => EmptyString
  | terms => String.concat " & " terms
  end.

(** A row of the [chunks] table. *)
Record ChunkRow := {
  row_chunk_id : string;
  row_chunk_type : string;
  row_content : string;
  row_chunk_metadata : Metadata;
  row_staff_profile_url : option string;
  row_publication_id : option Z
}.

Section Search.
(** The PostgreSQL side of the query: the parsed query type,
    [to_tsquery('english', _)] ([None] when the server rejects the text and
    the statement raises), the match operator [content_tsv @@ query], the
    ranking function [ts_rank_cd] and the table. *)
Variable tsquery : Type.
Variable to_tsquery : string -> option tsquery.
Variable ts_match : ChunkRow -> tsquery -> bool.
Variable ts_rank_cd : ChunkRow -> tsquery -> Q.
Variable chunks : list ChunkRow.

Definition type_allowed (chunk_types : option (list string)) (r : ChunkRow)
  : bool :=
  match chunk_types with
  | None | Some [] => true
  | Some types => existsb (String.eqb (row_chunk_type r)) types
  end.

Definition result_of_row (q : tsquery) (r : ChunkRow) : Doc :=
  {| chunk_id := row_chunk_id r;
     chunk_type := row_chunk_type r;
     content := row_content r;
     metadata := row_chunk_metadata r;
     staff_profile_url := row_staff_profile_url r;
     publication_id := row_publication_id r;
     source := "bm25";
     bm25_score := Some (ts_rank_cd r q);
     vector_score := None;
     rrf_score := None;
     rerank_score := None;
     final_score := None |}.

(** [search]: [None] when the statement raises. *)
Definition search (query : string) (limit : nat)
           (chunk_types : option (list string)) : option (list Doc) :=
  match to_tsquery (_build_tsquery query) with
  | None => None
  | Some q =>
      let hits :=
        filter (fun r => ts_match r q && type_allowed chunk_types r) chunks in
      let ordered := Py.sort_desc Qltb (fun r => ts_rank_cd r q) hits in
      Some (map (result_of_row q) (firstn limit ordered))
  end.
End Search.

End BM25Searcher.

(* ------------------------------------------------------------------ *)
(** * reranker.py                                                      *)
(* ------------------------------------------------------------------ *)

Definition Rltb (a b : R) : bool := if Rlt_dec a b then true else false.

Definition with_rerank_score (d : Doc) (s : R) : Doc :=
  {| chunk_id := chunk_id d;
     chunk_type := chunk_type d;
     content := content d;
     metadata := metadata d;
     staff_profile_url := staff_profile_url d;
     publication_id := publication_id d;
     source := source d;
     bm25_score := bm25_score d;
     vector_score := vector_score d;
     rrf_score := rrf_score d;
     rerank_score := Some s;
     final_score := final_score d |}.

Definition with_final_score (d : Doc) (s : R) : Doc :=
  {| chunk_id := chunk_id d;
     chunk_type := chunk_type d;
     content := content d;
     metadata := metadata d;
     staff_profile_url := staff_profile_url d;
     publication_id := publication_id d;
     source := source d;
     bm25_score := bm25_score d;
     vector_score := vector_score d;
     rrf_score := rrf_score d;
     rerank_score := rerank_score d;
     final_score := Some s |}.

Module Reranker.

Local Open Scope R_scope.

(** The reranker object after [__init__]: its [model_type] with what the
    initialiser stored.  [local] holds the cross-encoder, whose [predict]
    scores each (query, content) pair on its own; [cohere] holds the API
    client, whose [rerank] answers with (index, relevance_score) pairs, or
    raises ([None]) when the service cannot be reached; [openai] holds
    nothing. *)
Inductive t :=
| local (predict : string -> string -> R)
| cohere (client_rerank : string -> list string -> Z
                          -> option (list (nat * R)))
| openai.

(** The sort key [x["rerank_score"]] of [_rerank_local]. *)
Definition rerank_key (d : Doc) : R :=
  match rerank_score d with Some s => s | None => 0 end.

Definition _rerank_local (predict : string -> string -> R)
           (query : string) (documents : list Doc) (top_k : Z) : list Doc :=
  let scored :=
    map (fun doc => with_rerank_score doc (predict query (content doc)))
        documents in
  let reranked := Py.sort_desc Rltb rerank_key scored in
  Py.take top_k reranked.

(** [documents[idx]] raises [IndexError] past the end: [None]. *)
Fixpoint _rerank_cohere_results (documents : list Doc)
         (results : list (nat * R)) : option (list Doc) :=
  match results with
  | [] => Some []
  | (idx, score) :: rest =>
      match nth_error documents idx, _rerank_cohere_results documents rest with
      | Some doc, Some out => Some (with_rerank_score doc score :: out)
      | _, _ => None
      end
  end.

Definition _rerank_cohere
           (client_rerank : string -> list string -> Z
                            -> option (list (nat * R)))
           (query : string) (documents : list Doc) (top_k : Z)
  : option (list Doc) :=
  match client_rerank query (map content documents) top_k with
  | None => None
  | Some results => _rerank_cohere_results documents results
  end.

Definition _rerank_openai (documents : list Doc) (top_k : Z) : list Doc :=
  Py.take top_k documents.

Definition rerank (self : t) (query : string) (documents : list Doc)
           (top_k : Z) : option (list Doc) :=
  match documents with
  | [] => Some []
  | _ =>
      match self with
      | local predict => Some (_rerank_local predict query documents top_k)
      | cohere client => _rerank_cohere client query documents top_k
      | openai => Some (_rerank_openai documents top_k)
      end
  end.

(** [math.log1p] on a citation count. *)
Definition log1p (c : nat) : R := ln (1 + INR c).

(** The three terms added to [boost_score], each guarded by the presence of
    its key in [boost_fields]. *)
Definition citation_boost (boost_fields : Py.dict R) (m : Metadata) : R :=
  match Py.get boost_fields "citations_count" with
  | Some w =>
      let citations :=
        match citations_count m with Some c => c | None => 0%nat end in
      w * log1p citations / 10
  | None => 0
  end.

Definition open_access_boost (boost_fields : Py.dict R) (m : Metadata) : R :=
  match Py.get boost_fields "is_open_access" with
  | Some w =>
      match is_open_access m with Some true => w | _ => 0 end
  | None => 0
  end.

Definition year_score (year : Z) : R := (IZR year - 2000) / 25.

Definition year_boost (boost_fields : Py.dict R) (m : Metadata) : R :=
  match Py.get boost_fields "publication_year" with
  | Some w =>
      let year := match pub_year m with Some y => y | None => 2000%Z end in
      w * year_score year
  | None => 0
  end.

Definition boost_score (boost_fields : Py.dict R) (m : Metadata) : R :=
  0 + citation_boost boost_fields m + open_access_boost boost_fields m
    + year_boost boost_fields m.

(** [doc["final_score"] = doc.get("rerank_score", 0) + boost_score] *)
Definition apply_boost (boost_fields : Py.dict R) (doc : Doc) : Doc :=
  with_final_score doc
    (rerank_key doc + boost_score boost_fields (metadata doc)).

(** The sort key [x.get("final_score", 0)]. *)
Definition final_key (d : Doc) : R :=
  match final_score d with Some s => s | None => 0 end.

Definition rerank_with_metadata (self : t) (query : string)
           (documents : list Doc) (top_k : Z)
           (boost_fields : option (Py.dict R)) : option (list Doc) :=
  match rerank self query documents (top_k * 2) with
  | None => None
  | Some reranked =>
      match boost_fields with
      | None | Some [] => Some (Py.take top_k reranked)
      | Some fields =>
          let boosted := map (apply_boost fields) reranked in
          Some (Py.take top_k (Py.sort_desc Rltb final_key boosted))
      end
  end.

End Reranker.

(* ------------------------------------------------------------------ *)
(** * citation.py                                                      *)
(* ------------------------------------------------------------------ *)

Module CitationFormatter.

Local Open Scope string_scope.

(** A key of a dictionary: absent, present with [None], or present with a
    value. *)
Inductive entry (A : Type) :=
| missing
| null
| present (a : A).

Arguments missing {A}.
Arguments null {A}.
Arguments present {A} a.

(** The keys of the citation dictionary that [_format_citation_string]
    reads; [authors] is [None] when the key is absent or holds nothing. *)
Record citation := {
  authors : option (list string);
  title : entry string;
  year : entry Z;
  venue : entry string;
  doi : entry string
}.

(** How an f-string renders the value [citation.get(key, default)]. *)
Definition str_int (z : Z) : string := NilZero.string_of_int (Z.to_int z).

Definition render {A : Type} (show : A -> string) (default : string)
           (e : entry A) : string :=
  match e with
  | missing => default
  | null => "None"
  | present a => show a
  end.

Definition dquote : string := String "034" EmptyString.

(** The value of the local [author_str] in each branch. *)
Definition author_str_apa (authors : list string) : string :=
  match authors with
  | [] => "Unknown Author"
  | [a] => a
  | [a; b] => a ++ " & " ++ b
  | a :: _ => a ++ " et al."
  end.

Definition author_str_ieee (authors : list string) : string :=
  match authors with
  | [] => "Unknown Author"
  | [a] => a
  | a :: _ => a ++ " et al."
  end.

Definition author_str_mla (authors : list string) : string :=
  match authors with
  | [] => "Unknown Author"
  | a :: _ => a
  end.

(** [if doi:] holds for a non-empty string. *)
Definition doi_suffix (prefix : string) (d : entry string) : string :=
  match d with
  | present (String c s) => prefix ++ String c s
  | _ => EmptyString
  end.

Definition _format_citation_string (c : citation) (style : string) : string :=
  let authors := match authors c with Some l => l | None => [] end in
  let title := render (fun s => s) EmptyString (title c) in
  let year := render str_int "n.d." (year c) in
  let venue := render (fun s => s) EmptyString (venue c) in
  if String.eqb style "apa" then
    author_str_apa authors ++ " (" ++ year ++ "). " ++ title ++ ". "
      ++ venue ++ "." ++ doi_suffix " https://doi.org/" (doi c)
  else if String.eqb style "ieee" then
    author_str_ieee authors ++ ", " ++ dquote ++ title ++ "," ++ dquote
      ++ " " ++ venue ++ ", " ++ year ++ "." ++ doi_suffix " doi: " (doi c)
  else if String.eqb style "mla" then
    author_str_mla authors ++ ". " ++ dquote ++ title ++ "." ++ dquote
      ++ " " ++ venue ++ ", " ++ year ++ "."
  else
    title ++ " (" ++ year ++ ")".

(** The score block of a formatted result.  The three retrieval scores
    default to [0.0]; [final] falls back from [final_score] to
    [rerank_score] to [rrf_score] to [0.0]. *)
Record relevance_scores := {
  bm25 : Q;
  vector : Q;
  rrf : Q;
  rerank : R;
  final : R
}.

Definition or_zero (s : option Q) : Q :=
  match s with Some q => q | None => 0%Q end.

Definition scores_of (result : Doc) : relevance_scores :=
  {| bm25 := or_zero (bm25_score result);
     vector := or_zero (vector_score result);
     rrf := or_zero (rrf_score result);
     rerank := match rerank_score result with Some s => s | None => 0%R end;
     final :=
       match final_score result with
       | Some s => s
       | None =>
           match rerank_score result with
           | Some s => s
           | None => Q2R (or_zero (rrf_score result))
           end
       end |}.

(** A formatted result, without the bibliographic sub-record that
    [_create_publication_citation] and [_create_person_citation] fill from
    the database. *)
Record formatted := {
  citation_id : nat;
  cited_chunk_id : string;
  cited_chunk_type : string;
  scores : relevance_scores;
  content_full : string
}.

Definition _format_single_result (result : Doc) (idx : nat) : formatted :=
  {| citation_id := idx;
     cited_chunk_id := chunk_id result;
     cited_chunk_type := chunk_type result;
     scores := scores_of result;
     content_full := content result |}.

(** [enumerate(results, start=1)] *)
Fixpoint format_from (idx : nat) (results : list Doc) : list formatted :=
  match results with
  | [] => []
  | r :: rest => _format_single_result r idx :: format_from (S idx) rest
  end.

Definition format_results (results : list Doc) : list formatted :=
  format_from 1 results.

Record answer := {
  answer_citations : list formatted;
  answer_total_results : nat;
  shown_citations : nat
}.

Definition create_answer_with_citations (results : list Doc)
           (max_citations : Z) : answer :=
  let top_results := Py.take max_citations results in
  {| answer_citations := format_results top_results;
     answer_total_results := List.length results;
     shown_citations := List.length top_results |}.

(** The [content_preview] of a formatted result:
    [content[:500] + "..." if len(content) > 500 else content]. *)
Definition content_preview (content : string) : string :=
  if (500 <? String.length content)%nat
  then Str.take 500 content ++ "..."
  else content.

End CitationFormatter.

(* ------------------------------------------------------------------ *)
(** * vector_search.py: the cosine helpers                             *)
(* ------------------------------------------------------------------ *)

Module VectorSearcher.

Local Open Scope R_scope.

(** What a call does: it returns a float, or [numpy.dot] rejects two
    vectors of different lengths, or a division by zero is executed. *)
Inductive outcome :=
| Returns (r : R)
| ShapeMismatch
| DivisionByZero.

(** [np.dot] on two one-dimensional arrays. *)
Fixpoint dot (vec1 vec2 : list R) : option R :=
  match vec1, vec2 with
  | [], [] => Some 0
  | x :: v1, y :: v2 =>
      match dot v1 v2 with Some s => Some (x * y + s) | None => None end
  | _, _ => None
  end.

(** [np.linalg.norm] *)
Definition norm (vec : list R) : R :=
  sqrt (fold_right (fun x s => x * x + s) 0 vec).

Definition divide (a b : R) : outcome :=
  if Req_dec_T b 0 then DivisionByZero else Returns (a / b).

Definition _fast_cosine_similarity (vec1 vec2 : list R) : outcome :=
  match dot vec1 vec2 with
  | None => ShapeMismatch
  | Some dot_product =>
      let norm1 := norm vec1 in
      let norm2 := norm vec2 in
      if Req_dec_T norm1 0 then Returns 0
      else if Req_dec_T norm2 0 then Returns 0
      else divide dot_product (norm1 * norm2)
  end.

Definition _cosine_similarity (vec1 vec2 : list R) : outcome :=
  match dot vec1 vec2 with
  | None => ShapeMismatch
  | Some dot_product =>
      let norm1 := norm vec1 in
      let norm2 := norm vec2 in
      if Req_dec_T norm1 0 then Returns 0
      else if Req_dec_T norm2 0 then Returns 0
      else
        let similarity := divide dot_product (norm1 * norm2) in
        similarity
  end.

(** A row of [chunks JOIN embeddings]. *)
Record embedded := {
  chunk : BM25Searcher.ChunkRow;
  vector : list R
}.

(** A result of the vector searcher: the fields of its row, the similarity
    as [vector_score], and its [source]. *)
Record hit := {
  hit_row : BM25Searcher.ChunkRow;
  hit_vector_score : R;
  hit_source : string
}.

(** What a search does: it returns results or raises. *)
Inductive found :=
| Results (results : list hit)
| ValueError
| NumpyError.

Definition Rleb (a b : R) : bool := if Rle_dec a b then true else false.

(** The loop over the rows: [None] when a similarity cannot be computed,
    which ends the loop with the exception. *)
Fixpoint scan_rows (query_vec : list R) (similarity_threshold : R)
         (rows : list embedded) : option (list hit) :=
  match rows with
  | [] => Some []
  | row :: rest =>
      match _fast_cosine_similarity query_vec (vector row) with
      | Returns similarity =>
          match scan_rows query_vec similarity_threshold rest with
          | Some candidates =>
              Some (if Rleb similarity_threshold similarity
                    then {| hit_row := chunk row;
                            hit_vector_score := similarity;
                            hit_source := "vector" |} :: candidates
                    else candidates)
          | None => None
          end
      | _ => None
      end
  end.

(** [_search_with_numpy]: [embedding_generator] is [None] when it was not
    given, and otherwise maps the query to its embedding; [rows] is the
    joined table. *)
Definition _search_with_numpy
           (embedding_generator : option (string -> list R))
           (rows : list embedded) (query : string) (limit : Z)
           (chunk_types : option (list string)) (similarity_threshold : R)
  : found :=
  match embedding_generator with
  | None => ValueError
  | Some generate =>
      let query_vec := generate query in
      let selected :=
        filter (fun row => BM25Searcher.type_allowed chunk_types (chunk row))
               rows in
      match scan_rows query_vec similarity_threshold selected with
      | None => NumpyError
      | Some candidates =>
          Results (Py.take limit
                     (Py.sort_desc Rltb hit_vector_score candidates))
      end
  end.

(** [search]: [pgvector] is what [search_with_pgvector] does, [None] when
    it raises; any exception there leads to the NumPy path. *)
Definition search (pgvector : option (list hit))
           (embedding_generator : option (string -> list R))
           (rows : list embedded) (query : string) (limit : Z)
           (chunk_types : option (list string)) (similarity_threshold : R)
  : found :=
  match pgvector with
  | Some results => Results results
  | None =>
      _search_with_numpy embedding_generator rows query limit chunk_types
                         similarity_threshold
  end.

End VectorSearcher.

(* ------------------------------------------------------------------ *)
(** * hybrid_search.py                                                 *)
(* ------------------------------------------------------------------ *)

Module HybridSearchEngine.

Record engine := {
  use_reranker : bool;
  reranker : option Reranker.t
}.

(** [__init__]: [constructed] is what [Reranker(model_type=reranker_model)]
    does, [None] when it raises.  The exception is caught and the flag
    cleared. *)
Definition init (use_reranker : bool) (constructed : option Reranker.t)
  : engine :=
  if use_reranker then
    match constructed with
    | Some r => {| use_reranker := true; reranker := Some r |}
    | None => {| use_reranker := false; reranker := None |}
    end
  else {| use_reranker := false; reranker := None |}.

(** A value of the [filters] dictionary: a year or [None], a flag, a text
    or [None]. *)
Inductive filter_value :=
| year_filter (year : option Z)
| flag_filter (flag : bool)
| text_filter (text : option string).

(** The response: [total_results], [returned_results], [citations], and
    [reranked] and [filters_applied] of its [search_metadata]. *)
Record response := {
  total_results : nat;
  returned_results : nat;
  citations : list CitationFormatter.formatted;
  reranked_flag : bool;
  filters_applied : Py.dict filter_value
}.

(** [filters or {}] *)
Definition or_empty (filters : option (Py.dict filter_value))
  : Py.dict filter_value :=
  match filters with
  | Some (first :: rest) => first :: rest
  | _ => []
  end.

(** The boost weights [search] passes to the reranker. *)
Definition search_boosts : Py.dict R :=
  [("citations_count"%string, (1 / 10)%R);
   ("is_open_access"%string, (5 / 100)%R);
   ("publication_year"%string, (5 / 100)%R)].

Section Search.
(** The two searchers as [search] calls them: query, limit, chunk types;
    [None] when the call raises. *)
Variable bm25_search : string -> nat -> option (list string)
                       -> option (list Doc).
Variable vector_search : string -> nat -> option (list string)
                         -> option (list Doc).

Definition search (self : engine) (query : string) (top_k : Z)
           (chunk_types : option (list string))
           (filters : option (Py.dict filter_value)) : option response :=
  match bm25_search query 50%nat chunk_types with
  | None => None
  | Some bm25_results =>
  match vector_search query 50%nat chunk_types with
  | None => None
  | Some vector_results =>
  match HybridFusion.reciprocal_rank_fusion
          [bm25_results; vector_results] 60 with
  | None => None
  | Some fused_results =>
      let candidate_results := Py.take 80 fused_results in
      let reranked :=
        if use_reranker self then
          match reranker self with
          | Some r =>
              Reranker.rerank_with_metadata r query candidate_results top_k
                (Some search_boosts)
          | None => None
          end
        else Some (Py.take top_k candidate_results) in
      match reranked with
      | None => None
      | Some final_results =>
          let formatted_response :=
            CitationFormatter.create_answer_with_citations
              final_results top_k in
          Some {| total_results := List.length fused_results;
                  returned_results := List.length final_results;
                  citations :=
                    CitationFormatter.answer_citations formatted_response;
                  reranked_flag := use_reranker self;
                  filters_applied := or_empty filters |}
      end
  end end end.
End Search.

Section Variants.
Variable bm25_search : string -> nat -> option (list string)
                       -> option (list Doc).
Variable vector_search : string -> nat -> option (list string)
                         -> option (list Doc).

(** [search_publications_only] and [search_researchers_only]: the year,
    abstract and school arguments go into the [filters] dictionary. *)
Definition search_publications_only (self : engine) (query : string)
           (top_k : Z) (year_from year_to : option Z) (has_abstract : bool)
  : option response :=
  search bm25_search vector_search self query top_k
         (Some ["publication_abstract"%string; "publication_title"%string])
         (Some [("year_from"%string, year_filter year_from);
                ("year_to"%string, year_filter year_to);
                ("has_abstract"%string, flag_filter has_abstract)]).

Definition search_researchers_only (self : engine) (query : string)
           (top_k : Z) (school : option string) : option response :=
  search bm25_search vector_search self query top_k
         (Some ["person_biography"%string; "person_basic"%string])
         (Some [("school"%string, text_filter school)]).
End Variants.

(** The three statistics [_get_score_breakdown] adds for a list of
    scores: [sum(scores) / len(scores)], [max(scores)], [min(scores)], all
    [0] for an empty list.  The average is the exact quotient; the float
    the code computes is this value up to the rounding of the sum and of
    the division. *)
Record statistics := {
  average : Q;
  highest : Q;
  lowest : Q
}.

Definition statistics_of (scores : list Q) : statistics :=
  match scores with
  | [] => {| average := 0; highest := 0; lowest := 0 |}
  | first :: others =>
      {| average := fold_left Qplus scores 0
                    / inject_Z (Z.of_nat (List.length scores));
         highest := Py.max_from first others;
         lowest := Py.min_from first others |}
  end.

(** The retrieval part of the breakdown: the three score lists with
    their statistics ([rerank_scores], added when a reranker is in use, is
    left out).  The empty dictionary returned for no results is [None]. *)
Record breakdown := {
  bm25_scores : list Q;
  vector_scores : list Q;
  rrf_scores : list Q;
  bm25_statistics : statistics;
  vector_statistics : statistics;
  rrf_statistics : statistics
}.

Definition _get_score_breakdown (results : list Doc) : option breakdown :=
  match results with
  | [] => None
  | _ =>
      let bm25 := map (fun r => CitationFormatter.or_zero (bm25_score r))
                      results in
      let vector := map (fun r => CitationFormatter.or_zero (vector_score r))
                        results in
      let rrf := map (fun r => CitationFormatter.or_zero (rrf_score r))
                     results in
      Some {| bm25_scores := bm25;
              vector_scores := vector;
              rrf_scores := rrf;
              bm25_statistics := statistics_of bm25;
              vector_statistics := statistics_of vector;
              rrf_statistics := statistics_of rrf |}
  end.

End HybridSearchEngine.

(* ------------------------------------------------------------------ *)
(** * Sample data                                                      *)
(* ------------------------------------------------------------------ *)

Module Samples.

Definition no_metadata : Metadata :=
  {| citations_count := None; is_open_access := None; pub_year := None |}.

(** A row as [BM25Searcher.search] returns it. *)
Definition bm25_hit (id : string) (score : Q) : Doc :=
  {| chunk_id := id;
     chunk_type := "publication_abstract";
     content := id;
     metadata := no_metadata;
     staff_profile_url := None;
     publication_id := None;
     source := "bm25";
     bm25_score := Some score;
     vector_score := None;
     rrf_score := None;
     rerank_score := None;
     final_score := None |}.

(** A row as [VectorSearcher.search] returns it. *)
Definition vector_hit (id : string) (score : Q) : Doc :=
  {| chunk_id := id;
     chunk_type := "publication_abstract";
     content := id;
     metadata := no_metadata;
     staff_profile_url := None;
     publication_id := None;
     source := "vector";
     bm25_score := None;
     vector_score := Some score;
     rrf_score := None;
     rerank_score := None;
     final_score := None |}.

Definition lexical_list : list Doc :=
  [bm25_hit "p1" (9 # 10); bm25_hit "p2" (5 # 10); bm25_hit "p3" (2 # 10)].

Definition vector_list : list Doc :=
  [vector_hit "p3" (8 # 10); vector_hit "p4" (7 # 10)].

(** A stand-in for the text index: a query is its text, the empty text
    matches nothing, any other text matches the rows whose content starts
    with it; every match ranks [1]. *)
Definition toy_to_tsquery (text : string) : option string := Some text.

Definition toy_ts_match (r : BM25Searcher.ChunkRow) (q : string) : bool :=
  negb (Str.is_empty q) && String.prefix q (BM25Searcher.row_content r).

Definition toy_ts_rank_cd (r : BM25Searcher.ChunkRow) (q : string) : Q := 1.

Definition toy_chunks : list BM25Searcher.ChunkRow :=
  [{| BM25Searcher.row_chunk_id := "p1";
      BM25Searcher.row_chunk_type := "publication_abstract";
      BM25Searcher.row_content := "digital twin technology";
      BM25Searcher.row_chunk_metadata := no_metadata;
      BM25Searcher.row_staff_profile_url := None;
      BM25Searcher.row_publication_id := Some 7%Z |}].

(** Two candidates the scorer cannot tell apart, and a boost that applies
    to neither. *)
Definition tied_pair : list Doc := [bm25_hit "b" 1; bm25_hit "a" 1].

Definition open_access_only : Py.dict R :=
  [("is_open_access"%string, (5 / 100)%R)].

(** Three candidates the scorer grades 3, 2 and 1 by their content; the
    last one is the only open-access one. *)
Definition graded (id : string) (open_access : bool) : Doc :=
  {| chunk_id := id;
     chunk_type := "publication_abstract";
     content := id;
     metadata := {| citations_count := None;
                    is_open_access := Some open_access;
                    pub_year := None |};
     staff_profile_url := None;
     publication_id := None;
     source := "bm25";
     bm25_score := None;
     vector_score := None;
     rrf_score := None;
     rerank_score := None;
     final_score := None |}.

Definition graded_trio : list Doc :=
  [graded "a" false; graded "b" false; graded "c" true].

Definition grade (query content : string) : R :=
  if String.eqb content "a" then 3%R
  else if String.eqb content "b" then 2%R else 1%R.

Definition open_access_heavy : Py.dict R :=
  [("is_open_access"%string, 100%R)].

(** A scored publication chunk of the given year, cited once. *)
Definition published (y : Z) : Doc :=
  with_rerank_score
    {| chunk_id := "p";
       chunk_type := "publication_abstract";
       content := "p";
       metadata := {| citations_count := Some 1%nat;
                      is_open_access := None;
                      pub_year := Some y |};
       staff_profile_url := None;
       publication_id := None;
       source := "bm25";
       bm25_score := None;
       vector_score := None;
       rrf_score := None;
       rerank_score := None;
       final_score := None |}
    0%R.

Definition alice_and_bob : CitationFormatter.citation :=
  {| CitationFormatter.authors := Some ["Alice"%string; "Bob"%string];
     CitationFormatter.title := CitationFormatter.present "Twins"%string;
     CitationFormatter.year := CitationFormatter.present 2020%Z;
     CitationFormatter.venue := CitationFormatter.present "Nature"%string;
     CitationFormatter.doi := CitationFormatter.null |}.

(** Searchers that answer every query with the sample lists. *)
Definition sample_bm25 (_ : string) (_ : nat) (_ : option (list string))
  : option (list Doc) := Some lexical_list.

Definition sample_vector (_ : string) (_ : nat) (_ : option (list string))
  : option (list Doc) := Some vector_list.

End Samples.

Unset Implicit Arguments.

(* ------------------------------------------------------------------ *)
(** * Specification vocabulary                                         *)
(* ------------------------------------------------------------------ *)

(** The 1-based position of the first document of [l] whose id is [c],
    counting the head of [l] as position [rank]. *)
Fixpoint rank_from (rank : Z) (c : string) (l : list Doc) : option Z :=
  match l with
  | [] => None
  | d :: rest =>
      if String.eqb (chunk_id d) c then Some rank
      else rank_from (rank + 1) c rest
  end.

Definition rank_of (c : string) (l : list Doc) : option Z := rank_from 1 c l.

(** What one source list contributes to the fusion score of [c]. *)
Definition contribution (k : Z) (c : string) (l : list Doc) : Q :=
  match rank_of c l with
  | Some r => 1 / inject_Z (k + r)
  | None => 0
  end.

Definition fusion_score (k : Z) (c : string) (lists : list (list Doc)) : Q :=
  fold_right (fun l s => contribution k c l + s) 0 lists.

(** The same sum taken over every occurrence of [c], for lists that repeat
    an id. *)
Fixpoint occurrence_sum (k rank : Z) (c : string) (l : list Doc) : Q :=
  match l with
  | [] => 0
  | d :: rest =>
      (if String.eqb (chunk_id d) c then 1 / inject_Z (k + rank) else 0)
      + occurrence_sum k (rank + 1) c rest
  end.

(** The author summary as the specification words it: one author is the
    full name, two are joined by an ampersand, three or more are the first
    followed by "et al.". *)
Definition truncation_rule (authors : list string) : string :=
  match authors with
  | [] => EmptyString
  | [a] => a
  | [a; b] => a ++ " & " ++ b
  | a :: _ => a ++ " et al."
  end.

(** The first document of [l] with the id [c], and the first over several
    lists: the one [doc_info] ends up holding for [c]. *)
Definition first_with_id (c : string) (l : list Doc) : option Doc :=
  find (fun d => String.eqb (chunk_id d) c) l.

Definition first_in_lists (c : string) (lists : list (list Doc))
  : option Doc :=
  fold_right (fun l later =>
                match first_with_id c l with
                | Some d => Some d
                | None => later
                end) None lists.

(** The sum over all lists, counting every occurrence. *)
Definition total_occurrence (k : Z) (c : string) (lists : list (list Doc))
  : Q :=
  fold_right (fun l s => occurrence_sum k 1 c l + s) 0 lists.

(** The state of the fusion loop, and what holds of it throughout. *)
Module FusionLoop.

Import HybridFusion.

(** The keys after seeing the id [c] once more. *)
Definition note (ks : list string) (c : string) : list string :=
  if in_dec string_dec c ks then ks else ks ++ [c].

Definition score (t : Py.dict Q) (c : string) : Q :=
  match Py.get t c with Some v => v | None => 0 end.

Record inv (st : acc) : Prop := {
  inv_keys : Py.keys (rrf_scores st) = Py.keys (doc_info st);
  inv_nodup : NoDup (Py.keys (rrf_scores st));
  inv_ids : forall c d, Py.get (doc_info st) c = Some d -> chunk_id d = c
}.

Definition step (st : acc) (doc : Doc) (s : Q) : acc :=
  {| rrf_scores := bump (rrf_scores st) (chunk_id doc) s;
     doc_info := remember (doc_info st) (chunk_id doc) doc |}.

End FusionLoop.

(** The complete ranking of the candidates by raw [rerank_score], before
    [_rerank_local] cuts it. *)
Definition ranking (predict : string -> string -> R) (query : string)
           (documents : list Doc) : list Doc :=
  Py.sort_desc Rltb Reranker.rerank_key
    (map (fun doc => with_rerank_score doc (predict query (content doc)))
         documents).

(** The author list a citation dictionary holds. *)
Definition authors_of (c : CitationFormatter.citation) : list string :=
  match CitationFormatter.authors c with Some l => l | None => [] end.

(** Descending order of the [rrf] score two citations report. *)
Definition by_rrf (c1 c2 : CitationFormatter.formatted) : Prop :=
  CitationFormatter.rrf (CitationFormatter.scores c2)
  <= CitationFormatter.rrf (CitationFormatter.scores c1).

(** [a] does not come after [b] in a descending order of [key]. *)
Definition desc_Q (key : Doc -> Q) (a b : Doc) : Prop := key b <= key a.
Definition desc_R (key : Doc -> R) (a b : Doc) : Prop := (key b <= key a)%R.

(** [p] is an initial segment of [l]. *)
Definition prefix_of {A : Type} (p l : list A) : Prop :=
  exists rest, l = p ++ rest.

(* ------------------------------------------------------------------ *)
(** * Facts about the Python primitives                                *)
(* ------------------------------------------------------------------ *)

Module PyFacts.

Lemma take_prefix {A : Type} (n : Z) (l : list A) : prefix_of (Py.take n l) l.
Proof.
  unfold Py.take, prefix_of.
  destruct (0 <=? n)%Z; eexists; symmetry; apply firstn_skipn.
Qed.

Lemma take_nonneg {A : Type} (n : Z) (l : list A) :
  (0 <= n)%Z -> Py.take n l = firstn (Z.to_nat n) l.
Proof.
  intros H. unfold Py.take.
  destruct (Z.leb_spec 0 n); [reflexivity | lia].
Qed.

Lemma prefix_incl {A : Type} (p l : list A) : prefix_of p l -> incl p l.
Proof. intros [r ->] x Hx. apply in_or_app. now left. Qed.

Lemma prefix_trans {A : Type} (p q l : list A) :
  prefix_of p q -> prefix_of q l -> prefix_of p l.
Proof.
  intros [r1 ->] [r2 ->]. exists (r1 ++ r2). now rewrite app_assoc.
Qed.

Lemma prefix_map {A B : Type} (f : A -> B) (p l : list A) :
  prefix_of p l -> prefix_of (map f p) (map f l).
Proof. intros [r ->]. exists (map f r). apply map_app. Qed.

Lemma prefix_filter {A : Type} (f : A -> bool) (p l : list A) :
  prefix_of p l -> prefix_of (filter f p) (filter f l).
Proof. intros [r ->]. exists (filter f r). apply filter_app. Qed.

Lemma prefix_sorted {A : Type} (R : A -> A -> Prop) (p l : list A) :
  prefix_of p l -> StronglySorted R l -> StronglySorted R p.
Proof.
  intros [r ->]. induction p as [|x p IH]; intros H.
  - constructor.
  - simpl in H. inversion H; subst. constructor.
    + now apply IH.
    + rewrite Forall_forall in *. intros y Hy.
      match goal with H : forall _, In _ (p ++ r) -> _ |- _ => apply H end.
      apply in_or_app. now left.
Qed.

Section SortFacts.
Variables (A K : Type).
Variable ltb : K -> K -> bool.
Variable key : A -> K.

Abbreviation insert := (Py.insert_desc ltb key).
Abbreviation sort := (Py.sort_desc ltb key).

Lemma insert_perm (x : A) (l : list A) : Permutation (insert x l) (x :: l).
Proof.
  induction l as [|y l IH]; simpl.
  - apply Permutation_refl.
  - destruct (ltb (key x) (key y)).
    + eapply perm_trans; [apply perm_skip, IH | apply perm_swap].
    + apply Permutation_refl.
Qed.

Lemma sort_perm (l : list A) : Permutation (sort l) l.
Proof.
  induction l as [|x l IH]; simpl.
  - constructor.
  - eapply perm_trans; [apply insert_perm | now apply perm_skip].
Qed.

Lemma sort_In (l : list A) (x : A) : In x (sort l) <-> In x l.
Proof.
  split; apply Permutation_in;
    [apply sort_perm | apply Permutation_sym, sort_perm].
Qed.

Lemma sort_length (l : list A) : List.length (sort l) = List.length l.
Proof. apply Permutation_length, sort_perm. Qed.

(** The order laws of a strict comparison on floats. *)
Hypothesis ltb_asym : forall a b, ltb a b = true -> ltb b a = false.
Hypothesis geb_trans :
  forall a b c, ltb a b = false -> ltb b c = false -> ltb a c = false.

Definition not_below (a b : A) : Prop := ltb (key a) (key b) = false.

Lemma insert_sorted (x : A) (l : list A) :
  StronglySorted not_below l -> StronglySorted not_below (insert x l).
Proof.
  induction 1 as [|y l Hs IH Hall]; simpl.
  - repeat constructor.
  - destruct (ltb (key x) (key y)) eqn:E.
    + constructor; [exact IH |].
      rewrite Forall_forall in *. intros z Hz.
      apply (Permutation_in _ (insert_perm x l)) in Hz.
      destruct Hz as [<- | Hz]; [now apply ltb_asym | now apply Hall].
    + constructor; [now constructor |].
      constructor; [exact E |].
      rewrite Forall_forall in *. intros z Hz.
      unfold not_below in *. eapply geb_trans; [exact E | now apply Hall].
Qed.

Lemma sort_sorted (l : list A) : StronglySorted not_below (sort l).
Proof.
  induction l as [|x l IH]; simpl; [constructor | now apply insert_sorted].
Qed.

(** Stability: the elements whose keys tie with [v] come out in the order
    they went in. *)
Lemma insert_stable (v : K) (x : A) (l : list A) :
  filter (fun a => Py.tie ltb (key a) v) (insert x l)
  = filter (fun a => Py.tie ltb (key a) v) (x :: l).
Proof.
  induction l as [|y l IH]; [reflexivity |].
  simpl insert. destruct (ltb (key x) (key y)) eqn:E; [| reflexivity].
  simpl in *. rewrite IH.
  destruct (Py.tie ltb (key x) v) eqn:Tx; [| reflexivity].
  destruct (Py.tie ltb (key y) v) eqn:Ty; [| reflexivity].
  exfalso. unfold Py.tie in *.
  apply andb_true_iff in Tx, Ty. destruct Tx as [Tx _], Ty as [_ Ty].
  apply negb_true_iff in Tx, Ty.
  rewrite (geb_trans _ _ _ Tx Ty) in E. discriminate.
Qed.

Lemma sort_stable (v : K) (l : list A) :
  filter (fun a => Py.tie ltb (key a) v) (sort l)
  = filter (fun a => Py.tie ltb (key a) v) l.
Proof.
  induction l as [|x l IH]; [reflexivity |].
  simpl sort. rewrite insert_stable. simpl. now rewrite IH.
Qed.
End SortFacts.

(** The order laws at the two float models. *)
Lemma Qltb_true (a b : Q) : Qltb a b = true <-> a < b.
Proof.
  unfold Qltb. rewrite negb_true_iff.
  split; intros H.
  - apply Qnot_le_lt. intros L. apply Qle_bool_iff in L. congruence.
  - destruct (Qle_bool b a) eqn:E; [| reflexivity].
    apply Qle_bool_iff in E. exfalso. now apply (Qlt_not_le a b).
Qed.

Lemma Qltb_false (a b : Q) : Qltb a b = false <-> b <= a.
Proof.
  unfold Qltb. rewrite negb_false_iff. apply Qle_bool_iff.
Qed.

Lemma Qltb_asym (a b : Q) : Qltb a b = true -> Qltb b a = false.
Proof. rewrite Qltb_true, Qltb_false. apply Qlt_le_weak. Qed.

Lemma Qgeb_trans (a b c : Q) :
  Qltb a b = false -> Qltb b c = false -> Qltb a c = false.
Proof. rewrite !Qltb_false. intros H1 H2. now apply Qle_trans with b. Qed.

Lemma Rltb_true (a b : R) : Rltb a b = true <-> (a < b)%R.
Proof. unfold Rltb. destruct (Rlt_dec a b); split; intros; easy. Qed.

Lemma Rltb_false (a b : R) : Rltb a b = false <-> (b <= a)%R.
Proof.
  unfold Rltb. destruct (Rlt_dec a b); split; intros; try easy; lra.
Qed.

Lemma Rltb_asym (a b : R) : Rltb a b = true -> Rltb b a = false.
Proof. rewrite Rltb_true, Rltb_false. lra. Qed.

Lemma Rgeb_trans (a b c : R) :
  Rltb a b = false -> Rltb b c = false -> Rltb a c = false.
Proof. rewrite !Rltb_false. lra. Qed.

Lemma sorted_weaken {A : Type} (P Q : A -> A -> Prop) (l : list A) :
  (forall a b, P a b -> Q a b) -> StronglySorted P l -> StronglySorted Q l.
Proof.
  intros HPQ. induction 1; constructor; auto.
  eapply Forall_impl; [| eassumption]. auto.
Qed.

Lemma sort_desc_Q (key : Doc -> Q) (l : list Doc) :
  StronglySorted (desc_Q key) (Py.sort_desc Qltb key l).
Proof.
  eapply sorted_weaken;
    [| apply (sort_sorted _ _ Qltb key Qltb_asym Qgeb_trans)].
  intros a b H. now apply Qltb_false.
Qed.

Lemma sort_desc_R (key : Doc -> R) (l : list Doc) :
  StronglySorted (desc_R key) (Py.sort_desc Rltb key l).
Proof.
  eapply sorted_weaken;
    [| apply (sort_sorted _ _ Rltb key Rltb_asym Rgeb_trans)].
  intros a b H. now apply Rltb_false.
Qed.

End PyFacts.

(* ------------------------------------------------------------------ *)
(** * Reciprocal rank fusion: scores, order, deduplication             *)
(* ------------------------------------------------------------------ *)

Module FusionFacts.

Import HybridFusion FusionLoop.

Section Dict.
Variable V : Type.
Implicit Types (d : Py.dict V) (k : string) (v : V).

Lemma get_set d k v k' :
  Py.get (Py.set d k v) k' = if String.eqb k k' then Some v else Py.get d k'.
Proof.
  induction d as [|[k0 v0] d IH]; simpl.
  - reflexivity.
  - destruct (String.eqb_spec k0 k) as [-> | Hne]; simpl.
    + now destruct (String.eqb k k').
    + rewrite IH. destruct (String.eqb_spec k0 k') as [-> | Hne'].
      * destruct (String.eqb_spec k k'); [congruence | reflexivity].
      * reflexivity.
Qed.

Lemma contains_In d k : Py.contains d k = true <-> In k (Py.keys d).
Proof.
  unfold Py.contains. induction d as [|[k0 v0] d IH]; simpl.
  - split; [discriminate | tauto].
  - destruct (String.eqb_spec k0 k) as [-> | Hne].
    + split; auto.
    + rewrite IH. split; [auto | intros [E | H]; [congruence | exact H]].
Qed.

Lemma get_None d k : Py.get d k = None <-> ~ In k (Py.keys d).
Proof.
  rewrite <- contains_In. unfold Py.contains.
  destruct (Py.get d k); split; intros H; easy.
Qed.

Lemma keys_set d k v :
  Py.keys (Py.set d k v)
  = if Py.contains d k then Py.keys d else Py.keys d ++ [k].
Proof.
  unfold Py.contains. induction d as [|[k0 v0] d IH]; simpl.
  - reflexivity.
  - destruct (String.eqb_spec k0 k) as [-> | Hne]; simpl.
    + reflexivity.
    + rewrite IH. now destruct (Py.get d k).
Qed.

Lemma get_In_NoDup d k v :
  NoDup (Py.keys d) -> In (k, v) d -> Py.get d k = Some v.
Proof.
  induction d as [|[k0 v0] d IH]; simpl; [tauto |].
  intros Hnd [E | Hin].
  - inversion E; subst. now rewrite String.eqb_refl.
  - inversion Hnd; subst.
    destruct (String.eqb_spec k0 k) as [-> | Hne]; [| now apply IH].
    exfalso. match goal with H : ~ In _ _ |- _ => apply H end.
    now apply (in_map fst) in Hin.
Qed.
End Dict.

Lemma contains_dec {V : Type} (d : Py.dict V) (c : string) :
  (if Py.contains d c then Py.keys d else Py.keys d ++ [c])
  = note (Py.keys d) c.
Proof.
  unfold note. destruct (in_dec string_dec c (Py.keys d)) as [Hin | Hout].
  - apply contains_In in Hin. now rewrite Hin.
  - destruct (Py.contains d c) eqn:E; [| reflexivity].
    apply contains_In in E. contradiction.
Qed.

Lemma note_In (ks : list string) (c x : string) :
  In x (note ks c) <-> In x ks \/ x = c.
Proof.
  unfold note. destruct (in_dec string_dec c ks).
  - split; [auto | intros [H | ->]; assumption].
  - rewrite in_app_iff. simpl. intuition.
Qed.

Lemma note_NoDup (ks : list string) (c : string) :
  NoDup ks -> NoDup (note ks c).
Proof.
  intros H. unfold note. destruct (in_dec string_dec c ks); [exact H |].
  apply NoDup_rev in H. rewrite <- (rev_involutive (ks ++ [c])).
  apply NoDup_rev. rewrite rev_app_distr. simpl. constructor; [| exact H].
  now rewrite <- in_rev.
Qed.

Lemma score_bump (t : Py.dict Q) (c c' : string) (s : Q) :
  score (bump t c s) c' == score t c' + (if String.eqb c c' then s else 0).
Proof.
  unfold score, bump. rewrite get_set.
  destruct (String.eqb_spec c c') as [-> | Hne]; [reflexivity | ring].
Qed.

Lemma keys_bump (t : Py.dict Q) (c : string) (s : Q) :
  Py.keys (bump t c s) = note (Py.keys t) c.
Proof. unfold bump. rewrite keys_set. apply contains_dec. Qed.

Lemma keys_remember (i : Py.dict Doc) (c : string) (d : Doc) :
  Py.keys (remember i c d) = note (Py.keys i) c.
Proof.
  unfold remember. rewrite <- contains_dec.
  destruct (Py.contains i c) eqn:E; [reflexivity | ].
  rewrite keys_set. now rewrite E.
Qed.

(** The first document stored for an id is the one that stays. *)
Lemma get_remember (i : Py.dict Doc) (c c' : string) (d : Doc) :
  Py.get (remember i c d) c'
  = match Py.get i c' with
    | Some d' => Some d'
    | None => if String.eqb c c' then Some d else None
    end.
Proof.
  unfold remember, Py.contains.
  destruct (Py.get i c) eqn:E.
  - destruct (Py.get i c') eqn:E'; [reflexivity |].
    destruct (String.eqb_spec c c'); [congruence | reflexivity].
  - rewrite get_set. destruct (String.eqb_spec c c') as [-> | Hne].
    + now rewrite E.
    + now destruct (Py.get i c').
Qed.

Lemma inv_empty : inv empty_acc.
Proof. split; simpl; [reflexivity | constructor | discriminate]. Qed.

Lemma step_inv (st : acc) (doc : Doc) (s : Q) : inv st -> inv (step st doc s).
Proof.
  intros [Hk Hn Hi]. split; simpl.
  - now rewrite keys_bump, keys_remember, Hk.
  - rewrite keys_bump. now apply note_NoDup.
  - intros c d. rewrite get_remember.
    destruct (Py.get (doc_info st) c) eqn:E.
    + intros [= <-]. now apply Hi.
    + destruct (String.eqb_spec (chunk_id doc) c); [| discriminate].
      now intros [= <-].
Qed.

Lemma scan_list_spec (k : Z) (l : list Doc) :
  (0 <= k)%Z ->
  forall (rank : Z) (st : acc),
    (1 <= rank)%Z -> inv st ->
    exists st',
      scan_list k rank l st = Some st' /\ inv st' /\
      (forall c, score (rrf_scores st') c
                 == score (rrf_scores st) c + occurrence_sum k rank c l) /\
      (forall c, In c (Py.keys (rrf_scores st'))
                 <-> In c (Py.keys (rrf_scores st)) \/ In c (ids l)) /\
      (forall c, Py.get (doc_info st') c
                 = match Py.get (doc_info st) c with
                   | Some d => Some d
                   | None => first_with_id c l
                   end).
Proof.
  intros Hk. induction l as [|doc l IH]; intros rank st Hr Hinv; simpl.
  - exists st. split; [reflexivity |]. split; [exact Hinv |].
    split; [| split]; intros c.
    + ring.
    + tauto.
    + now destruct (Py.get (doc_info st) c).
  - destruct (Z.eqb_spec (k + rank) 0) as [E | _]; [lia |].
    destruct (IH (rank + 1)%Z (step st doc (1 / inject_Z (k + rank))))
      as (st' & Hrun & Hinv' & Hscore & Hkeys & Hinfo);
      [lia | now apply step_inv |].
    exists st'. split; [exact Hrun |]. split; [exact Hinv' |].
    split; [| split].
    + intros c. rewrite Hscore. simpl. rewrite score_bump. ring.
    + intros c. rewrite Hkeys. simpl. rewrite keys_bump, note_In.
      intuition.
    + intros c. rewrite Hinfo. simpl. rewrite get_remember.
      destruct (Py.get (doc_info st) c); [reflexivity |].
      now destruct (String.eqb (chunk_id doc) c).
Qed.

Lemma scan_lists_spec (k : Z) (lists : list (list Doc)) :
  (0 <= k)%Z ->
  forall st : acc,
    inv st ->
    exists st',
      scan_lists k lists st = Some st' /\ inv st' /\
      (forall c, score (rrf_scores st') c
                 == score (rrf_scores st) c + total_occurrence k c lists) /\
      (forall c, In c (Py.keys (rrf_scores st'))
                 <-> In c (Py.keys (rrf_scores st))
                     \/ exists l, In l lists /\ In c (ids l)) /\
      (forall c, Py.get (doc_info st') c
                 = match Py.get (doc_info st) c with
                   | Some d => Some d
                   | None => first_in_lists c lists
                   end).
Proof.
  intros Hk. induction lists as [|l lists IH]; intros st Hinv; simpl.
  - exists st. split; [reflexivity |]. split; [exact Hinv |].
    split; [| split]; intros c.
    + ring.
    + split; [auto | intros [H | (l & [] & _)]; exact H].
    + now destruct (Py.get (doc_info st) c).
  - destruct (scan_list_spec k l Hk 1%Z st)
      as (st1 & Hrun1 & Hinv1 & Hscore1 & Hkeys1 & Hinfo1);
      [lia | exact Hinv |].
    rewrite Hrun1.
    destruct (IH st1 Hinv1) as (st' & Hrun & Hinv' & Hscore & Hkeys & Hinfo).
    exists st'. split; [exact Hrun |]. split; [exact Hinv' |].
    split; [| split].
    + intros c. rewrite Hscore, Hscore1. ring.
    + intros c. rewrite Hkeys, Hkeys1. split.
      * intros [[H | H] | (l' & Hl' & H)]; eauto.
      * intros [H | (l' & [<- | Hl'] & H)]; eauto.
    + intros c. rewrite Hinfo, Hinfo1.
      destruct (Py.get (doc_info st) c); [reflexivity |].
      now destruct (first_with_id c l).
Qed.

End FusionFacts.

Module FusionCorrect.

Import HybridFusion FusionLoop FusionFacts.

Lemma collect_spec (i : Py.dict Doc) (t : Py.dict Q) :
  (forall c, In c (Py.keys t) -> exists d, Py.get i c = Some d) ->
  exists out,
    collect i t = Some out /\
    Forall2 (fun item o =>
               exists d, Py.get i (fst item) = Some d
                         /\ o = fused_doc d (snd item)) t out.
Proof.
  induction t as [|[c s] t IH]; intros Hall; simpl.
  - exists []. split; [reflexivity | constructor].
  - destruct (Hall c) as [d Hd]; [now left |].
    destruct IH as (out & Hout & Hrel).
    { intros c' Hc'. apply Hall. now right. }
    rewrite Hd, Hout. exists (fused_doc d s :: out).
    split; [reflexivity |]. constructor; [| exact Hrel].
    exists d. now split.
Qed.

Lemma Forall2_In_right {A B : Type} (P : A -> B -> Prop) (l : list A)
      (m : list B) (y : B) :
  Forall2 P l m -> In y m -> exists x, In x l /\ P x y.
Proof.
  induction 1 as [|x y' l m Hxy _ IH]; simpl; [tauto |].
  intros [<- | Hin].
  - exists x. auto.
  - destruct (IH Hin) as (x' & Hx' & HP). exists x'. auto.
Qed.

Lemma collected_ids (i : Py.dict Doc) (t : Py.dict Q) (out : list Doc) :
  (forall c d, Py.get i c = Some d -> chunk_id d = c) ->
  Forall2 (fun item o =>
             exists d, Py.get i (fst item) = Some d
                       /\ o = fused_doc d (snd item)) t out ->
  ids out = Py.keys t.
Proof.
  intros Hid. induction 1 as [|[c s] o t out (d & Hd & ->) _ IH]; simpl.
  - reflexivity.
  - f_equal; [| exact IH]. now apply Hid.
Qed.

Lemma occurrence_absent (k : Z) (c : string) (l : list Doc) :
  ~ In c (ids l) -> forall rank, occurrence_sum k rank c l == 0.
Proof.
  induction l as [|d l IH]; intros Hout rank; simpl; [reflexivity |].
  destruct (String.eqb_spec (chunk_id d) c) as [E | _].
  - elim Hout. now left.
  - rewrite IH; [ring |]. intros H. apply Hout. now right.
Qed.

Lemma occurrence_rank (k : Z) (c : string) (l : list Doc) :
  NoDup (ids l) ->
  forall rank,
    occurrence_sum k rank c l
    == match rank_from rank c l with
       | Some r => 1 / inject_Z (k + r)
       | None => 0
       end.
Proof.
  induction l as [|d l IH]; intros Hnd rank; simpl; [reflexivity |].
  inversion Hnd as [|? ? Hout Hnd']; subst.
  destruct (String.eqb_spec (chunk_id d) c) as [<- | _].
  - rewrite occurrence_absent by exact Hout. ring.
  - rewrite IH by exact Hnd'. ring.
Qed.

Lemma total_is_fusion_score (k : Z) (c : string) (lists : list (list Doc)) :
  Forall (fun l => NoDup (ids l)) lists ->
  total_occurrence k c lists == fusion_score k c lists.
Proof.
  induction 1 as [|l lists Hl _ IH]; simpl; [reflexivity |].
  rewrite IH. unfold contribution, rank_of.
  now rewrite (occurrence_rank k c l Hl 1).
Qed.

(** Every run with a non-negative constant succeeds; the output holds each
    input id once, scored with the sum over all its occurrences, in
    descending order of score. *)
Lemma fusion_run (lists : list (list Doc)) (k : Z) :
  (0 <= k)%Z ->
  exists fused,
    reciprocal_rank_fusion lists k = Some fused /\
    NoDup (ids fused) /\
    (forall c, In c (ids fused) <-> exists l, In l lists /\ In c (ids l)) /\
    (forall d, In d fused ->
               exists s, rrf_score d = Some s
                         /\ s == total_occurrence k (chunk_id d) lists) /\
    StronglySorted (desc_Q rrf_key) fused /\
    (forall d, In d fused ->
               exists first s,
                 first_in_lists (chunk_id d) lists = Some first
                 /\ d = fused_doc first s).
Proof.
  intros Hk. unfold reciprocal_rank_fusion.
  destruct (scan_lists_spec k lists Hk empty_acc inv_empty)
    as (st & Hrun & [Hkeys Hnd Hid] & Hscore & Hmem & Hinfo).
  rewrite Hrun.
  destruct (collect_spec (doc_info st) (rrf_scores st))
    as (out & Hout & Hrel).
  { intros c Hc. rewrite Hkeys in Hc. apply contains_In in Hc.
    unfold Py.contains in Hc.
    destruct (Py.get (doc_info st) c) as [d|]; [now exists d | discriminate]. }
  rewrite Hout. eexists. split; [reflexivity |].
  pose proof (collected_ids _ _ _ Hid Hrel) as Hids.
  assert (Hperm : Permutation (ids (Py.sort_desc Qltb rrf_key out))
                              (Py.keys (rrf_scores st))).
  { rewrite <- Hids. apply Permutation_map, PyFacts.sort_perm. }
  split; [| split; [| split; [| split]]].
  - eapply Permutation_NoDup; [apply Permutation_sym, Hperm | exact Hnd].
  - intros c. split.
    + intros H. apply (Permutation_in _ Hperm), Hmem in H.
      destruct H as [[] | H]. exact H.
    + intros H.
      apply (Permutation_in _ (Permutation_sym Hperm)), Hmem. now right.
  - intros d Hd. apply PyFacts.sort_In in Hd.
    destruct (Forall2_In_right _ _ _ _ Hrel Hd) as ([c s] & Hin & dd & Hdd & ->).
    simpl in *. exists s. split; [reflexivity |].
    rewrite (Hid _ _ Hdd).
    specialize (Hscore c). unfold score in Hscore.
    rewrite (get_In_NoDup _ _ _ _ Hnd Hin) in Hscore. simpl in Hscore.
    rewrite Hscore. ring.
  - apply PyFacts.sort_desc_Q.
  - intros d Hd. apply PyFacts.sort_In in Hd.
    destruct (Forall2_In_right _ _ _ _ Hrel Hd)
      as ([c s] & Hin & dd & Hdd & ->).
    simpl in *. exists dd, s. split; [| reflexivity].
    rewrite (Hid _ _ Hdd). now rewrite Hinfo in Hdd.
Qed.

(** C1: for a constant [k >= 0] and source lists that each rank a chunk id
    at most once, [reciprocal_rank_fusion] returns a list that holds every
    chunk id of the inputs, gives each the sum over the source lists of
    [1 / (k + rank)] (rank its 1-based position, nothing for a list it is
    absent from), and is ordered by that score, descending.  With two lists
    and [k = 60], a chunk at rank 3 in the first and rank 1 in the second
    scores [1/63 + 1/61]. *)
Theorem rrf_score_and_order (lists : list (list Doc)) (k : Z) :
  (0 <= k)%Z ->
  Forall (fun l => NoDup (ids l)) lists ->
  exists fused,
    reciprocal_rank_fusion lists k = Some fused /\
    (forall c, (exists l, In l lists /\ In c (ids l)) -> In c (ids fused)) /\
    (forall d, In d fused ->
               exists s, rrf_score d = Some s
                         /\ s == fusion_score k (chunk_id d) lists) /\
    StronglySorted (desc_Q rrf_key) fused /\
    (forall A B d,
        lists = [A; B] -> k = 60%Z -> In d fused ->
        rank_of (chunk_id d) A = Some 3%Z ->
        rank_of (chunk_id d) B = Some 1%Z ->
        rrf_key d == 1 / 63 + 1 / 61).
Proof.
  intros Hk Hnd.
  destruct (fusion_run lists k Hk)
    as (fused & Hrun & _ & Hmem & Hscore & Hs & _).
  assert (Hsc : forall d, In d fused ->
                  exists s, rrf_score d = Some s
                            /\ s == fusion_score k (chunk_id d) lists).
  { intros d Hd. destruct (Hscore d Hd) as (s & Hs1 & Hs2).
    exists s. split; [exact Hs1 |].
    now rewrite Hs2, total_is_fusion_score. }
  exists fused. repeat split; try assumption.
  - intros c Hc. now apply Hmem.
  - intros A B d -> -> Hd HA HB.
    destruct (Hsc d Hd) as (s & Hs1 & Hs2).
    unfold rrf_key. rewrite Hs1, Hs2. simpl.
    unfold contribution. rewrite HA, HB. reflexivity.
Qed.

End FusionCorrect.

Module FusionExamples.

Import HybridFusion Samples.

Ltac distinct_ids :=
  repeat constructor; simpl; intuition discriminate.

Example rrf_sample_run :
  option_map (map (fun d => (chunk_id d, Qred (rrf_key d))))
             (reciprocal_rank_fusion [lexical_list; vector_list] 60)
  = Some [("p3"%string, 124 # 3843); ("p1"%string, 1 # 61);
          ("p2"%string, 1 # 62); ("p4"%string, 1 # 62)].
Proof. vm_compute. reflexivity. Qed.

Example rrf_zero_division :
  reciprocal_rank_fusion [lexical_list] (-1) = None.
Proof. reflexivity. Qed.

Lemma rrf_score_and_order_witness :
  exists fused,
    reciprocal_rank_fusion [lexical_list; vector_list] 60 = Some fused /\
    (forall c, (exists l, In l [lexical_list; vector_list] /\ In c (ids l))
               -> In c (ids fused)) /\
    (forall d, In d fused ->
               exists s, rrf_score d = Some s
                         /\ s == fusion_score 60 (chunk_id d)
                                              [lexical_list; vector_list]) /\
    StronglySorted (desc_Q rrf_key) fused /\
    (forall A B d,
        [lexical_list; vector_list] = [A; B] -> 60%Z = 60%Z -> In d fused ->
        rank_of (chunk_id d) A = Some 3%Z ->
        rank_of (chunk_id d) B = Some 1%Z ->
        rrf_key d == 1 / 63 + 1 / 61).
Proof.
  apply (FusionCorrect.rrf_score_and_order [lexical_list; vector_list] 60).
  - lia.
  - distinct_ids.
Defined.

End FusionExamples.

Module FusionDedup.

Import HybridFusion FusionLoop FusionFacts.

(** X1: for [k >= 0] the fused output holds every chunk id of the source
    lists and no other, each exactly once, however often the inputs repeat
    it. *)
Lemma rrf_ids_are_union (lists : list (list Doc)) (k : Z) :
  (0 <= k)%Z ->
  exists fused,
    reciprocal_rank_fusion lists k = Some fused /\
    NoDup (ids fused) /\
    (forall c, In c (ids fused) <-> exists l, In l lists /\ In c (ids l)).
Proof.
  intros Hk.
  destruct (FusionCorrect.fusion_run lists k Hk) as (fused & H1 & H2 & H3 & _).
  now exists fused.
Qed.

Lemma remove_one_length (c : string) (l : list string) :
  NoDup l -> In c l ->
  S (List.length (remove string_dec c l)) = List.length l.
Proof.
  induction 1 as [|x l Hout Hnd IH]; simpl; [tauto |].
  intros [-> | Hin].
  - destruct (string_dec c c) as [_ | N]; [| now elim N].
    now rewrite notin_remove.
  - destruct (string_dec c x) as [-> | _]; [contradiction |].
    simpl. now rewrite IH.
Qed.

Lemma remove_NoDup (c : string) (l : list string) :
  NoDup l -> NoDup (remove string_dec c l).
Proof.
  induction 1 as [|x l Hout Hnd IH]; simpl; [constructor |].
  destruct (string_dec c x); [exact IH |].
  constructor; [| exact IH].
  intros H. apply in_remove in H. tauto.
Qed.

(** X2: two duplicate-free lists that share exactly one chunk id fuse to
    [|A| + |B| - 1] entries. *)
Lemma rrf_one_shared_length (A B : list Doc) (k : Z) (c : string) :
  (0 <= k)%Z -> NoDup (ids A) -> NoDup (ids B) ->
  (forall x, In x (ids A) /\ In x (ids B) <-> x = c) ->
  exists fused,
    reciprocal_rank_fusion [A; B] k = Some fused /\
    List.length fused = (List.length A + List.length B - 1)%nat.
Proof.
  intros Hk HA HB Hshare.
  destruct (FusionCorrect.fusion_run [A; B] k Hk)
    as (fused & Hrun & Hnd & Hmem & _).
  exists fused. split; [exact Hrun |].
  destruct (proj2 (Hshare c) eq_refl) as [HcA HcB].
  assert (Hperm : Permutation (ids fused)
                              (ids A ++ remove string_dec c (ids B))).
  { apply NoDup_Permutation; [exact Hnd | |].
    - apply NoDup_app; [exact HA | now apply remove_NoDup |].
      intros x Hx Hx'. apply in_remove in Hx'. destruct Hx' as [Hx' Hne].
      apply Hne, Hshare. now split.
    - intros x. rewrite Hmem, in_app_iff. split.
      + intros (l & [<- | [<- | []]] & Hx); [now left |].
        destruct (string_dec x c) as [-> | Hne]; [now left |].
        right. now apply in_in_remove.
      + intros [Hx | Hx].
        * exists A. split; [now left | exact Hx].
        * apply in_remove in Hx. exists B. split; [right; now left | tauto]. }
  apply Permutation_length in Hperm.
  unfold ids in Hperm. rewrite length_map, length_app, length_map in Hperm.
  pose proof (remove_one_length c (map chunk_id B) HB HcB) as Hlen.
  rewrite length_map in Hlen. lia.
Qed.

(** X3: the fused record of a chunk is a copy of the first record met for
    its id.  When the first list holds the id with a [bm25_score] and no
    [vector_score], the fused record keeps that [bm25_score] and gets
    [vector_score = 0.0], whatever the second list says. *)
Lemma rrf_keeps_first_record (A B : list Doc) (k : Z) :
  (0 <= k)%Z ->
  exists fused,
    reciprocal_rank_fusion [A; B] k = Some fused /\
    forall d a,
      In d fused ->
      first_with_id (chunk_id d) A = Some a ->
      bm25_score a <> None -> vector_score a = None ->
      bm25_score d = bm25_score a /\ vector_score d = Some 0.
Proof.
  intros Hk.
  destruct (FusionCorrect.fusion_run [A; B] k Hk)
    as (fused & Hrun & _ & _ & _ & _ & Horigin).
  exists fused. split; [exact Hrun |].
  intros d a Hd Ha Hb Hv.
  destruct (Horigin d Hd) as (first & s & Hfirst & ->).
  simpl in *. rewrite Ha in Hfirst. injection Hfirst as <-.
  rewrite Hv. split; [| reflexivity].
  destruct (bm25_score a); [reflexivity | now elim Hb].
Qed.

(** C2 (the code departs from the claim): a chunk found by both searchers
    is fused into one record, which keeps the lexical record's [bm25_score]
    and carries [vector_score = 0.0], the default, not the 0.9 the vector
    list gave it. *)
Theorem rrf_shared_candidate_vector_score_defaulted :
  option_map (map (fun d => (chunk_id d, bm25_score d, vector_score d)))
    (reciprocal_rank_fusion
       [[Samples.bm25_hit "c1" (8 # 10)]; [Samples.vector_hit "c1" (9 # 10)]]
       60)
  = Some [("c1"%string, Some (8 # 10), Some 0)].
Proof. vm_compute. reflexivity. Qed.

End FusionDedup.

(* ------------------------------------------------------------------ *)
(** * Lexical search on a query with no usable token                   *)
(* ------------------------------------------------------------------ *)

Module BM25Facts.

Import BM25Searcher.

Example build_tsquery_two_terms :
  _build_tsquery "  digital   twin! "%string = "digital & twin"%string.
Proof. reflexivity. Qed.

Example build_tsquery_keeps_hyphen :
  _build_tsquery "state-of-the-art (2020)"%string
  = "state-of-the-art & 2020"%string.
Proof. reflexivity. Qed.

Example build_tsquery_punctuation :
  _build_tsquery "?! ... ()"%string = EmptyString.
Proof. reflexivity. Qed.

Lemma cleaned_terms_empty (query : string) :
  (forall term, In term (Str.split (Str.strip query)) ->
                clean_term term = EmptyString) ->
  cleaned_terms query = [].
Proof.
  unfold cleaned_terms. generalize (Str.split (Str.strip query)).
  induction l as [|term l IH]; intros Hall; simpl; [reflexivity |].
  rewrite (Hall term) by now left. simpl.
  apply IH. intros t Ht. apply Hall. now right.
Qed.

Lemma build_tsquery_empty (query : string) :
  (forall term, In term (Str.split (Str.strip query)) ->
                clean_term term = EmptyString) ->
  _build_tsquery query = EmptyString.
Proof.
  intros H. unfold _build_tsquery. now rewrite cleaned_terms_empty.
Qed.

Lemma filter_none {A : Type} (f : A -> bool) (l : list A) :
  (forall x, f x = false) -> filter f l = [].
Proof.
  intros H. induction l as [|x l IH]; simpl; [reflexivity |].
  now rewrite H.
Qed.

Section EmptyQuery.
Variable tsquery : Type.
Variable to_tsquery : string -> option tsquery.
Variable ts_match : ChunkRow -> tsquery -> bool.
Variable ts_rank_cd : ChunkRow -> tsquery -> Q.
Variable chunks : list ChunkRow.

(** PostgreSQL accepts the empty text (it answers with a NOTICE that the
    query contains no lexemes) and the query it yields matches no row. *)
Definition empty_text_matches_nothing : Prop :=
  exists q, to_tsquery EmptyString = Some q
            /\ forall r, ts_match r q = false.

(** C3: when every whitespace-separated token of the query is empty after
    the characters other than alphanumerics, hyphen and underscore are
    removed, [search] returns the empty list and raises nothing. *)
Theorem search_query_without_tokens (query : string) (limit : nat)
        (chunk_types : option (list string)) :
  empty_text_matches_nothing ->
  (forall term, In term (Str.split (Str.strip query)) ->
                clean_term term = EmptyString) ->
  search to_tsquery ts_match ts_rank_cd chunks query limit chunk_types
  = Some [].
Proof.
  intros (q & Hq & Hnone) Hclean. unfold search.
  rewrite (build_tsquery_empty query Hclean), Hq.
  rewrite filter_none.
  - simpl. now rewrite firstn_nil.
  - intros r. now rewrite Hnone.
Qed.
End EmptyQuery.

Lemma search_query_without_tokens_witness :
  search Samples.toy_to_tsquery Samples.toy_ts_match Samples.toy_ts_rank_cd
         Samples.toy_chunks "?! ... ()"%string 50 None
  = Some [].
Proof.
  apply (search_query_without_tokens
           string Samples.toy_to_tsquery Samples.toy_ts_match
           Samples.toy_ts_rank_cd Samples.toy_chunks
           "?! ... ()"%string 50%nat None).
  - exists EmptyString. split; reflexivity.
  - simpl. intros term [<- | [<- | [<- | []]]]; reflexivity.
Defined.

Example toy_search_finds_row :
  option_map ids
    (search Samples.toy_to_tsquery Samples.toy_ts_match
            Samples.toy_ts_rank_cd Samples.toy_chunks
            "digital"%string 50 None)
  = Some ["p1"%string].
Proof. reflexivity. Qed.

End BM25Facts.

(* ------------------------------------------------------------------ *)
(** * Reranking: boosts, order and the candidate window                *)
(* ------------------------------------------------------------------ *)

Module RerankFacts.

Import Reranker.
Local Open Scope R_scope.

Lemma rerank_local (predict : string -> string -> R) (query : string)
      (documents : list Doc) (n : Z) :
  rerank (local predict) query documents n
  = Some (Py.take n (ranking predict query documents)).
Proof.
  destruct documents; [| reflexivity].
  simpl. unfold Py.take, ranking. simpl.
  destruct (0 <=? n)%Z; try rewrite firstn_nil; reflexivity.
Qed.

Lemma ranking_ids (predict : string -> string -> R) (query : string)
      (documents : list Doc) :
  Permutation (ids (ranking predict query documents)) (ids documents).
Proof.
  unfold ranking, ids.
  eapply perm_trans; [apply Permutation_map, PyFacts.sort_perm |].
  rewrite map_map. apply Permutation_refl.
Qed.

Lemma apply_boost_final (fields : Py.dict R) (doc : Doc) :
  final_key (apply_boost fields doc)
  = rerank_key doc
    + (0 + citation_boost fields (metadata doc)
       + open_access_boost fields (metadata doc)
       + year_boost fields (metadata doc)).
Proof. reflexivity. Qed.

Lemma apply_boost_id (fields : Py.dict R) (doc : Doc) :
  chunk_id (apply_boost fields doc) = chunk_id doc.
Proof. reflexivity. Qed.

(** With a non-empty [boost_fields] the local backend returns the first
    [top_k] of the boosted window, sorted by [final_score]. *)
Lemma rerank_with_metadata_local (predict : string -> string -> R)
      (query : string) (documents : list Doc) (top_k : Z)
      (field : string * R) (fields : Py.dict R) :
  rerank_with_metadata (local predict) query documents top_k
                       (Some (field :: fields))
  = Some (Py.take top_k
            (Py.sort_desc Rltb final_key
               (map (apply_boost (field :: fields))
                    (Py.take (top_k * 2)
                             (ranking predict query documents))))).
Proof. unfold rerank_with_metadata. now rewrite rerank_local. Qed.

Lemma rerank_with_metadata_local_plain (predict : string -> string -> R)
      (query : string) (documents : list Doc) (top_k : Z)
      (boost_fields : option (Py.dict R)) :
  boost_fields = None \/ boost_fields = Some [] ->
  rerank_with_metadata (local predict) query documents top_k boost_fields
  = Some (Py.take top_k
            (Py.take (top_k * 2) (ranking predict query documents))).
Proof.
  unfold rerank_with_metadata. rewrite rerank_local. now intros [-> | ->].
Qed.

(** Whatever the backend, what [rerank_with_metadata] returns was returned
    by [rerank] for [2 * top_k]. *)
Lemma rerank_with_metadata_subset (self : t) (query : string)
      (documents : list Doc) (top_k : Z) (boost_fields : option (Py.dict R))
      (out : list Doc) :
  rerank_with_metadata self query documents top_k boost_fields = Some out ->
  exists reranked,
    rerank self query documents (top_k * 2) = Some reranked /\
    forall d, In d out ->
              exists r, In r reranked
                        /\ (d = r \/ exists fields, d = apply_boost fields r).
Proof.
  unfold rerank_with_metadata.
  destruct (rerank self query documents (top_k * 2)) as [reranked|];
    [| discriminate].
  intros H. exists reranked. split; [reflexivity |].
  assert (Hplain : out = Py.take top_k reranked ->
                   forall d, In d out ->
                     exists r, In r reranked
                       /\ (d = r \/ exists fields, d = apply_boost fields r)).
  { intros -> d Hd. exists d. split; [| now left].
    eapply PyFacts.prefix_incl; [apply PyFacts.take_prefix | exact Hd]. }
  destruct boost_fields as [[|field fields]|];
    try (injection H as <-; now apply Hplain).
  injection H as <-. intros d Hd.
  apply (PyFacts.prefix_incl _ _ (PyFacts.take_prefix _ _)) in Hd.
  apply PyFacts.sort_In, in_map_iff in Hd.
  destruct Hd as (r & <- & Hr). exists r. split; [exact Hr |].
  right. now exists (field :: fields).
Qed.

(** An element past the cut of a duplicate-free list is not before it. *)
Lemma firstn_excludes_later {A B : Type} (f : A -> B) (l : list A)
      (n i : nat) (x : A) :
  NoDup (map f l) -> nth_error l i = Some x -> (n <= i)%nat ->
  ~ In (f x) (map f (firstn n l)).
Proof.
  intros Hnd Hi Hle Hin.
  rewrite <- (firstn_skipn n l) in Hnd, Hi.
  rewrite map_app in Hnd.
  assert (Hlen : (List.length (firstn n l) <= i)%nat).
  { rewrite length_firstn. lia. }
  rewrite nth_error_app2 in Hi by exact Hlen.
  apply nth_error_In, (in_map f) in Hi.
  revert Hnd. generalize (map f (firstn n l)) (map f (skipn n l)) Hin Hi.
  clear. intros l1 l2 H1 H2 Hnd.
  induction l1 as [|y l1 IH]; [contradiction |].
  simpl in Hnd. inversion Hnd; subst.
  destruct H1 as [-> | H1]; [| now apply IH].
  match goal with H : ~ In _ (l1 ++ l2) |- _ => apply H end.
  apply in_or_app. now right.
Qed.

(** C10: with the cross-encoder backend, every document that
    [rerank_with_metadata] returns is one of the first [2 * top_k] of the
    ranking by raw [rerank_score] (as it stands there, or with its
    [final_score] added); a candidate that the ranking places after
    position [2 * top_k] is not in the output, whatever its boost. *)
Theorem rerank_with_metadata_window (predict : string -> string -> R)
        (query : string) (documents : list Doc) (top_k : Z)
        (boost_fields : option (Py.dict R)) :
  exists out,
    rerank_with_metadata (local predict) query documents top_k boost_fields
    = Some out /\
    (forall d, In d out ->
               exists r,
                 In r (Py.take (top_k * 2) (ranking predict query documents))
                 /\ (d = r \/ exists fields, d = apply_boost fields r)) /\
    ((0 <= top_k)%Z -> NoDup (ids documents) ->
     forall (i : nat) (r : Doc),
       nth_error (ranking predict query documents) i = Some r ->
       (2 * top_k <= Z.of_nat i)%Z ->
       ~ In (chunk_id r) (ids out)).
Proof.
  destruct (rerank_with_metadata (local predict) query documents top_k
                                 boost_fields) as [out|] eqn:Hrun.
  2:{ exfalso. unfold rerank_with_metadata in Hrun.
      rewrite rerank_local in Hrun.
      destruct boost_fields as [[|? ?]|]; discriminate. }
  exists out. split; [reflexivity |].
  destruct (rerank_with_metadata_subset _ _ _ _ _ _ Hrun)
    as (reranked & Hre & Hsub).
  rewrite rerank_local in Hre. injection Hre as <-.
  split; [exact Hsub |].
  intros Hk Hnd i r Hi Hpos Hin.
  apply in_map_iff in Hin. destruct Hin as (d & Hid & Hd).
  destruct (Hsub d Hd) as (r' & Hr' & Hrel).
  assert (Hsame : chunk_id r' = chunk_id r).
  { rewrite <- Hid. destruct Hrel as [-> | [fields ->]]; reflexivity. }
  rewrite PyFacts.take_nonneg in Hr' by lia.
  apply (firstn_excludes_later chunk_id (ranking predict query documents)
                               (Z.to_nat (top_k * 2)) i r).
  - eapply Permutation_NoDup;
      [apply Permutation_sym, ranking_ids | exact Hnd].
  - exact Hi.
  - lia.
  - rewrite <- Hsame. now apply in_map.
Qed.

End RerankFacts.

Module BoostFacts.

Import Reranker RerankFacts Samples.
Local Open Scope R_scope.

Lemma tie_R (a b : R) : Py.tie Rltb a b = true <-> a = b.
Proof.
  unfold Py.tie. rewrite andb_true_iff, !negb_true_iff, !PyFacts.Rltb_false.
  lra.
Qed.

(** Evaluating a sort on concrete reals: each comparison is decided by
    arithmetic. *)
Ltac settle_comparisons :=
  repeat
    (match goal with
     | |- context [Rltb ?a ?b] =>
         first
           [ rewrite (proj2 (PyFacts.Rltb_false a b)) by (cbn; lra)
           | rewrite (proj2 (PyFacts.Rltb_true a b)) by (cbn; lra) ]
     end; cbn; simpl).

(** C5 (as the code has it): the cross-encoder backend ranks the
    candidates by [rerank_score], descending, candidates with equal scores
    staying in the order they were passed in.  With boosts the output is in
    descending order of [final_score], and candidates whose [final_score]
    is equal keep the order that ranking gave them; without boosts the
    output is an initial segment of the ranking.  The chunk id takes no
    part in either order. *)
Theorem reranked_order_descending_stable
        (predict : string -> string -> R) (query : string)
        (documents : list Doc) (top_k : Z)
        (boost_fields : option (Py.dict R)) :
  exists out,
    rerank_with_metadata (local predict) query documents top_k boost_fields
    = Some out /\
    StronglySorted (desc_R rerank_key) (ranking predict query documents) /\
    (forall v : R,
        filter (fun d => Py.tie Rltb (rerank_key d) v)
               (ranking predict query documents)
        = filter (fun d => Py.tie Rltb (rerank_key d) v)
                 (map (fun doc =>
                         with_rerank_score doc (predict query (content doc)))
                      documents)) /\
    (boost_fields = None \/ boost_fields = Some [] ->
     prefix_of out (ranking predict query documents)
     /\ StronglySorted (desc_R rerank_key) out) /\
    (forall field fields,
        boost_fields = Some (field :: fields) ->
        StronglySorted (desc_R final_key) out /\
        forall v : R,
          prefix_of
            (filter (fun d => Py.tie Rltb (final_key d) v) out)
            (filter (fun d => Py.tie Rltb (final_key d) v)
                    (map (apply_boost (field :: fields))
                         (Py.take (top_k * 2)
                                  (ranking predict query documents))))).
Proof.
  assert (Hrank : StronglySorted (desc_R rerank_key)
                                 (ranking predict query documents))
    by apply PyFacts.sort_desc_R.
  destruct boost_fields as [[|field fields]|].
  2:{ rewrite rerank_with_metadata_local. eexists.
      split; [reflexivity |]. split; [exact Hrank |].
      split; [intros v; apply PyFacts.sort_stable, PyFacts.Rgeb_trans |].
      split; [intros [H | H]; discriminate |].
      intros f fs [= <- <-]. split.
      - eapply PyFacts.prefix_sorted;
          [apply PyFacts.take_prefix | apply PyFacts.sort_desc_R].
      - intros v.
        rewrite <- (PyFacts.sort_stable _ _ Rltb final_key
                      PyFacts.Rgeb_trans v
                      (map (apply_boost (field :: fields)) _)).
        apply PyFacts.prefix_filter, PyFacts.take_prefix. }
  all: rewrite rerank_with_metadata_local_plain by tauto.
  all: eexists; split; [reflexivity |]; split; [exact Hrank |].
  all: split; [intros v; apply PyFacts.sort_stable, PyFacts.Rgeb_trans |].
  all: split; [| intros f fs H; discriminate].
  all: intros _;
    assert (Hpre : prefix_of
                     (Py.take top_k
                        (Py.take (top_k * 2)
                                 (ranking predict query documents)))
                     (ranking predict query documents))
      by (eapply PyFacts.prefix_trans; apply PyFacts.take_prefix).
  all: split; [exact Hpre |].
  all: now apply (PyFacts.prefix_sorted _ _ _ Hpre).
Qed.

Lemma tied_pair_run :
  rerank_with_metadata (local (fun _ _ => 1)) "q" tied_pair 2
                       (Some open_access_only)
  = Some (map (fun d => apply_boost open_access_only (with_rerank_score d 1))
              tied_pair).
Proof.
  unfold open_access_only. rewrite rerank_with_metadata_local.
  unfold ranking. cbn. simpl. settle_comparisons. reflexivity.
Qed.

(** Two candidates with the same score, handed over as "b" then "a", come
    back as "b" then "a". *)
Lemma equal_final_scores_keep_arrival_order :
  exists d1 d2,
    rerank_with_metadata (local (fun _ _ => 1)) "q" tied_pair 2
                         (Some open_access_only)
    = Some [d1; d2] /\
    final_score d1 = final_score d2 /\
    chunk_id d1 = "b"%string /\ chunk_id d2 = "a"%string /\
    String.ltb (chunk_id d2) (chunk_id d1) = true.
Proof.
  rewrite tied_pair_run. simpl.
  do 2 eexists. split; [reflexivity |]. repeat split.
Qed.

(** With [top_k = 1] the window holds "a" and "b"; "c", whose boost of 100
    would put it first, is not looked at. *)
Example heavy_boost_outside_window :
  exists out,
    rerank_with_metadata (local grade) "q" graded_trio 1
                         (Some open_access_heavy) = Some out
    /\ ids out = ["a"%string].
Proof.
  unfold open_access_heavy. rewrite rerank_with_metadata_local.
  unfold ranking. cbn. simpl. settle_comparisons.
  eexists. split; reflexivity.
Qed.

(** C6 (as the code has it): the recency term is
    [w * (year - 2000) / 25], a missing year counting as 2000; nothing
    clamps it.  It lies between 0 and [w] when [w >= 0] and the year is in
    2000..2025.  For [w > 0] these are the only years for which it does:
    it is negative for every earlier year and exceeds [w] for every later
    one.  It is the last term added to [rerank_score]. *)
Theorem year_boost_linear_unclamped (fields : Py.dict R) (w : R)
        (doc : Doc) :
  Py.get fields "publication_year" = Some w ->
  let year :=
    match pub_year (metadata doc) with Some y => y | None => 2000%Z end in
  year_boost fields (metadata doc) = w * ((IZR year - 2000) / 25) /\
  (0 <= w -> (2000 <= year <= 2025)%Z ->
   0 <= year_boost fields (metadata doc) <= w) /\
  (0 < w ->
   (0 <= year_boost fields (metadata doc) <= w
    <-> (2000 <= year <= 2025)%Z)
   /\ ((year < 2000)%Z -> year_boost fields (metadata doc) < 0)
   /\ ((2025 < year)%Z -> w < year_boost fields (metadata doc))) /\
  final_key (apply_boost fields doc)
  = rerank_key doc
    + (0 + citation_boost fields (metadata doc)
       + open_access_boost fields (metadata doc)
       + year_boost fields (metadata doc)).
Proof.
  intros Hw year.
  assert (E : year_boost fields (metadata doc)
              = w * ((IZR year - 2000) / 25)).
  { unfold year_boost, year_score. now rewrite Hw. }
  assert (Hin : 0 <= w -> (2000 <= year <= 2025)%Z ->
                0 <= year_boost fields (metadata doc) <= w).
  { rewrite E. intros Hpos [Hlo Hhi]. apply IZR_le in Hlo, Hhi.
    split.
    - apply Rmult_le_pos; [exact Hpos | lra].
    - rewrite <- (Rmult_1_r w) at 2.
      apply Rmult_le_compat_l; [exact Hpos | lra]. }
  split; [exact E |]. split; [exact Hin |].
  split; [| apply apply_boost_final].
  intros Hpos. split; [split |].
  - rewrite E. intros [Hlo Hhi].
    split; apply le_IZR; nra.
  - apply Hin. lra.
  - rewrite E. split; intros Hy; apply IZR_lt in Hy; nra.
Qed.

Lemma year_boost_linear_unclamped_witness :
  year_boost HybridSearchEngine.search_boosts (metadata (published 2010))
  = 5 / 100 * ((IZR 2010 - 2000) / 25) /\
  (0 <= 5 / 100 -> (2000 <= 2010 <= 2025)%Z ->
   0 <= year_boost HybridSearchEngine.search_boosts
                   (metadata (published 2010)) <= 5 / 100) /\
  (0 < 5 / 100 ->
   (0 <= year_boost HybridSearchEngine.search_boosts
                    (metadata (published 2010)) <= 5 / 100
    <-> (2000 <= 2010 <= 2025)%Z)
   /\ ((2010 < 2000)%Z ->
       year_boost HybridSearchEngine.search_boosts
                  (metadata (published 2010)) < 0)
   /\ ((2025 < 2010)%Z ->
       5 / 100 < year_boost HybridSearchEngine.search_boosts
                            (metadata (published 2010)))) /\
  final_key (apply_boost HybridSearchEngine.search_boosts (published 2010))
  = rerank_key (published 2010)
    + (0 + citation_boost HybridSearchEngine.search_boosts
                          (metadata (published 2010))
       + open_access_boost HybridSearchEngine.search_boosts
                           (metadata (published 2010))
       + year_boost HybridSearchEngine.search_boosts
                    (metadata (published 2010))).
Proof.
  apply (year_boost_linear_unclamped HybridSearchEngine.search_boosts
                                     (5 / 100) (published 2010)).
  reflexivity.
Defined.

(** A 1990 paper gets a negative recency term, a 2030 paper more than the
    weight. *)
Lemma year_boost_leaves_unit_interval :
  year_boost HybridSearchEngine.search_boosts (metadata (published 1990))
  = - (2 / 100) /\
  year_boost HybridSearchEngine.search_boosts (metadata (published 2030))
  = 6 / 100 /\
  - (2 / 100) < 0 /\ 5 / 100 < 6 / 100.
Proof.
  unfold year_boost, year_score. simpl. repeat split; lra.
Qed.

(** C7 (as the code has it): the citation term added to [rerank_score] is
    [w * log(1 + c) / 10]. *)
Theorem citation_boost_log_over_ten (fields : Py.dict R) (w : R) (c : nat)
        (doc : Doc) :
  Py.get fields "citations_count" = Some w ->
  citations_count (metadata doc) = Some c ->
  citation_boost fields (metadata doc) = w * ln (1 + INR c) / 10 /\
  final_key (apply_boost fields doc)
  = rerank_key doc
    + (0 + w * ln (1 + INR c) / 10
       + open_access_boost fields (metadata doc)
       + year_boost fields (metadata doc)).
Proof.
  intros Hw Hc.
  assert (E : citation_boost fields (metadata doc) = w * ln (1 + INR c) / 10).
  { unfold citation_boost, log1p. now rewrite Hw, Hc. }
  split; [exact E |]. rewrite apply_boost_final. now rewrite E.
Qed.

Lemma citation_boost_log_over_ten_witness :
  citation_boost HybridSearchEngine.search_boosts (metadata (published 2010))
  = 1 / 10 * ln (1 + INR 1) / 10 /\
  final_key (apply_boost HybridSearchEngine.search_boosts (published 2010))
  = rerank_key (published 2010)
    + (0 + 1 / 10 * ln (1 + INR 1) / 10
       + open_access_boost HybridSearchEngine.search_boosts
                           (metadata (published 2010))
       + year_boost HybridSearchEngine.search_boosts
                    (metadata (published 2010))).
Proof.
  apply (citation_boost_log_over_ten HybridSearchEngine.search_boosts
                                     (1 / 10) 1%nat (published 2010));
    reflexivity.
Defined.

Lemma ln_2_pos : 0 < ln (1 + 1).
Proof. rewrite <- ln_1. apply ln_increasing; lra. Qed.

(** With weight 1 and one citation the term is [ln 2 / 10], not [ln 2]. *)
Lemma citation_boost_is_not_plain_log :
  citation_boost [("citations_count"%string, 1)] (metadata (published 2010))
  = 1 * ln (1 + 1) / 10 /\
  1 * ln (1 + 1) / 10 <> 1 * ln (1 + 1).
Proof.
  split; [reflexivity |]. pose proof ln_2_pos. lra.
Qed.

End BoostFacts.

(* ------------------------------------------------------------------ *)
(** * Citation strings: the author summary of each style               *)
(* ------------------------------------------------------------------ *)

Module CitationFacts.

Import CitationFormatter Samples.
Local Open Scope string_scope.

Example apa_two_authors :
  _format_citation_string alice_and_bob "apa"
  = "Alice & Bob (2020). Twins. Nature.".
Proof. reflexivity. Qed.

Example apa_three_authors_with_doi :
  _format_citation_string
    {| authors := Some ["Alice"; "Bob"; "Carol"];
       title := present "Twins";
       year := null;
       venue := missing;
       doi := present "10.1/x" |} "apa"
  = "Alice et al. (None). Twins. . https://doi.org/10.1/x".
Proof. reflexivity. Qed.

Example unknown_style :
  _format_citation_string alice_and_bob "chicago" = "Twins (2020)".
Proof. reflexivity. Qed.

(** C8 (as the code has it): each supported style opens its string with an
    author summary of its own.  APA follows the truncation rule (one
    author: the name; two: joined by an ampersand; three or more: the first
    and "et al.").  IEEE departs from it for two authors, which it renders
    as the first and "et al.".  MLA always renders the first author
    alone. *)
Theorem author_summary_per_style (c : citation) (a b third : string)
        (more : list string) :
  (exists rest,
      _format_citation_string c "apa" = author_str_apa (authors_of c) ++ rest)
  /\ (exists rest,
         _format_citation_string c "ieee"
         = author_str_ieee (authors_of c) ++ rest)
  /\ (exists rest,
         _format_citation_string c "mla"
         = author_str_mla (authors_of c) ++ rest)
  /\ author_str_apa (a :: more) = truncation_rule (a :: more)
  /\ author_str_ieee [a] = truncation_rule [a]
  /\ author_str_ieee [a; b] = a ++ " et al."
  /\ author_str_ieee (a :: b :: third :: more)
     = truncation_rule (a :: b :: third :: more)
  /\ author_str_mla (a :: more) = a.
Proof.
  unfold _format_citation_string, authors_of. simpl.
  repeat split; eexists; reflexivity.
Qed.

(** The two-author citation opens with "Alice & Bob" in APA, with
    "Alice et al." in IEEE and with "Alice." in MLA. *)
Lemma two_authors_differ_by_style :
  String.prefix "Alice & Bob" (_format_citation_string alice_and_bob "apa")
  = true
  /\ _format_citation_string alice_and_bob "ieee"
     = "Alice et al., " ++ dquote ++ "Twins," ++ dquote ++ " Nature, 2020."
  /\ String.prefix "Alice & Bob"
                   (_format_citation_string alice_and_bob "ieee") = false
  /\ _format_citation_string alice_and_bob "mla"
     = "Alice. " ++ dquote ++ "Twins." ++ dquote ++ " Nature, 2020."
  /\ String.prefix "Alice & Bob"
                   (_format_citation_string alice_and_bob "mla") = false.
Proof. repeat split. Qed.

End CitationFacts.

(* ------------------------------------------------------------------ *)
(** * Cosine similarity: the zero-norm guard                           *)
(* ------------------------------------------------------------------ *)

Module CosineFacts.

Import VectorSearcher.
Local Open Scope R_scope.

Lemma dot_defined (vec1 vec2 : list R) :
  List.length vec1 = List.length vec2 -> exists s, dot vec1 vec2 = Some s.
Proof.
  revert vec2. induction vec1 as [|x v1 IH]; intros [|y v2] H;
    try discriminate.
  - now exists 0.
  - simpl in *. injection H as H. destruct (IH v2 H) as [s ->]. eauto.
Qed.

Lemma divide_nonzero (a b : R) : b <> 0 -> divide a b = Returns (a / b).
Proof.
  intros H. unfold divide. now destruct (Req_dec_T b 0).
Qed.

(** With the shapes agreeing, the helper returns: [0] when a norm is zero,
    the quotient otherwise, whose divisor is then non-zero. *)
Lemma fast_cosine_value (vec1 vec2 : list R) (s : R) :
  dot vec1 vec2 = Some s ->
  _fast_cosine_similarity vec1 vec2
  = Returns (if Req_dec_T (norm vec1) 0 then 0
             else if Req_dec_T (norm vec2) 0 then 0
                  else s / (norm vec1 * norm vec2)).
Proof.
  intros H. unfold _fast_cosine_similarity. rewrite H.
  destruct (Req_dec_T (norm vec1) 0) as [|N1]; [reflexivity |].
  destruct (Req_dec_T (norm vec2) 0) as [|N2]; [reflexivity |].
  apply divide_nonzero. now apply Rmult_integral_contrapositive.
Qed.

Lemma cosine_same (vec1 vec2 : list R) :
  _cosine_similarity vec1 vec2 = _fast_cosine_similarity vec1 vec2.
Proof. reflexivity. Qed.

(** C9: neither cosine helper ever executes a division by zero; on two
    vectors of the same length each returns a value, and that value is
    [0.0] whenever one of the norms is zero. *)
Theorem cosine_similarity_division_safe (vec1 vec2 : list R) :
  _fast_cosine_similarity vec1 vec2 <> DivisionByZero
  /\ _cosine_similarity vec1 vec2 <> DivisionByZero
  /\ (List.length vec1 = List.length vec2 ->
      exists r, _fast_cosine_similarity vec1 vec2 = Returns r
                /\ _cosine_similarity vec1 vec2 = Returns r)
  /\ (List.length vec1 = List.length vec2 ->
      norm vec1 = 0 \/ norm vec2 = 0 ->
      _fast_cosine_similarity vec1 vec2 = Returns 0
      /\ _cosine_similarity vec1 vec2 = Returns 0).
Proof.
  change (_cosine_similarity vec1 vec2)
    with (_fast_cosine_similarity vec1 vec2).
  assert (Hsafe : _fast_cosine_similarity vec1 vec2 <> DivisionByZero).
  { destruct (dot vec1 vec2) as [s|] eqn:E.
    - now rewrite (fast_cosine_value _ _ _ E).
    - unfold _fast_cosine_similarity. now rewrite E. }
  repeat split; try exact Hsafe.
  - intros Hlen. destruct (dot_defined _ _ Hlen) as [s Hs].
    rewrite (fast_cosine_value _ _ _ Hs). eauto.
  - destruct (dot_defined _ _ H) as [s Hs].
    rewrite (fast_cosine_value _ _ _ Hs).
    destruct (Req_dec_T (norm vec1) 0); [reflexivity |].
    destruct (Req_dec_T (norm vec2) 0); [reflexivity | tauto].
  - destruct (dot_defined _ _ H) as [s Hs].
    rewrite (fast_cosine_value _ _ _ Hs).
    destruct (Req_dec_T (norm vec1) 0); [reflexivity |].
    destruct (Req_dec_T (norm vec2) 0); [reflexivity | tauto].
Qed.

Example cosine_zero_vector :
  _fast_cosine_similarity [0; 0] [3; 4] = Returns 0.
Proof.
  rewrite (fast_cosine_value _ _ (0 * 3 + (0 * 4 + 0))) by reflexivity.
  destruct (Req_dec_T (norm [0; 0]) 0) as [|N]; [reflexivity |].
  elim N. unfold norm. simpl.
  replace (0 * 0 + (0 * 0 + 0)) with 0 by lra. apply sqrt_0.
Qed.

Example cosine_shape_mismatch :
  _fast_cosine_similarity [1] [1; 2] = ShapeMismatch.
Proof. reflexivity. Qed.

End CosineFacts.

(* ------------------------------------------------------------------ *)
(** * The engine without a reranker                                    *)
(* ------------------------------------------------------------------ *)

Module EngineFacts.

Import HybridSearchEngine CitationFormatter Samples.

Lemma init_without_reranker (flag : bool) :
  use_reranker (init flag None) = false.
Proof. now destruct flag. Qed.

Lemma format_from_ids (idx : nat) (results : list Doc) :
  map cited_chunk_id (format_from idx results) = ids results.
Proof.
  revert idx. induction results as [|r l IH]; intros idx; simpl;
    [reflexivity | now rewrite IH].
Qed.

Lemma format_from_length (idx : nat) (results : list Doc) :
  List.length (format_from idx results) = List.length results.
Proof.
  revert idx. induction results as [|r l IH]; intros idx; simpl;
    [reflexivity | now rewrite IH].
Qed.

Lemma format_from_In (idx : nat) (results : list Doc) (c : formatted) :
  In c (format_from idx results) ->
  exists r, In r results /\ scores c = scores_of r.
Proof.
  revert idx. induction results as [|r l IH]; intros idx; simpl; [tauto |].
  intros [<- | H].
  - exists r. split; [now left | reflexivity].
  - destruct (IH _ H) as (r' & Hr' & E). exists r'. split; [now right | exact E].
Qed.

Lemma format_from_sorted (idx : nat) (results : list Doc) :
  StronglySorted (desc_Q HybridFusion.rrf_key) results ->
  StronglySorted by_rrf (format_from idx results).
Proof.
  intros H. revert idx. induction H as [|r l Hs IH Hall]; intros idx; simpl.
  - constructor.
  - constructor; [apply IH |].
    rewrite Forall_forall in *. intros c Hc.
    destruct (format_from_In _ _ _ Hc) as (r' & Hr' & E).
    unfold by_rrf. rewrite E. simpl. apply (Hall r' Hr').
Qed.

Lemma first_in_lists_In (c : string) (lists : list (list Doc)) (d : Doc) :
  first_in_lists c lists = Some d ->
  exists l, In l lists /\ In d l.
Proof.
  induction lists as [|l lists IH]; simpl; [discriminate |].
  unfold first_with_id.
  destruct (find _ l) as [d'|] eqn:E.
  - intros [= <-]. apply find_some in E. exists l. split; [now left | tauto].
  - intros H. destruct (IH H) as (l' & Hl' & Hd). exists l'.
    split; [now right | exact Hd].
Qed.

Section Degraded.
Variable bm25_search : string -> nat -> option (list string)
                       -> option (list Doc).
Variable vector_search : string -> nat -> option (list string)
                         -> option (list Doc).

(** C4 (as the code has it): when the reranker is switched off or could
    not be constructed, [search] still answers, provided both searchers do
    and [top_k >= 0].  The citations are those of the first [top_k] of the
    80 best fused candidates, in fusion order (so in descending order of
    RRF score), at most [top_k] of them; as the searchers attach no
    [rerank_score], each citation reports a rerank score of zero, and the
    response says it was not reranked.  A reranker that was constructed is
    not skipped when it fails at query time: with the Cohere backend and
    at least one fused candidate, a [rerank] call that raises makes
    [search] raise. *)
Theorem search_degrades_to_fusion_order
        (flag : bool) (query : string) (top_k : Z)
        (chunk_types : option (list string))
        (filters : option (Py.dict filter_value)) (A B : list Doc) :
  bm25_search query 50%nat chunk_types = Some A ->
  vector_search query 50%nat chunk_types = Some B ->
  Forall (fun d => rerank_score d = None) (A ++ B) ->
  (0 <= top_k)%Z ->
  exists fused resp,
    HybridFusion.reciprocal_rank_fusion [A; B] 60 = Some fused /\
    search bm25_search vector_search (init flag None) query top_k
           chunk_types filters = Some resp /\
    map cited_chunk_id (citations resp)
    = ids (firstn (Z.to_nat top_k) (firstn 80 fused)) /\
    (Z.of_nat (List.length (citations resp)) <= top_k)%Z /\
    StronglySorted by_rrf (citations resp) /\
    Forall (fun c => rerank (scores c) = 0%R) (citations resp) /\
    reranked_flag resp = false /\
    (forall client,
        fused <> [] ->
        client query (map content (Py.take 80 fused)) (top_k * 2)%Z = None ->
        search bm25_search vector_search
               (init true (Some (Reranker.cohere client))) query top_k
               chunk_types filters = None).
Proof.
  intros HA HB Hplain Hk.
  destruct (FusionCorrect.fusion_run [A; B] 60 ltac:(lia))
    as (fused & Hrun & _ & _ & _ & Hsorted & Horigin).
  unfold search. rewrite HA, HB, Hrun, init_without_reranker.
  exists fused. eexists. split; [reflexivity |]. split; [reflexivity |].
  simpl. unfold format_results.
  rewrite !(PyFacts.take_nonneg top_k) by exact Hk.
  change (Py.take 80 fused) with (firstn 80 fused).
  rewrite firstn_firstn, Nat.min_id.
  set (shown := firstn (Z.to_nat top_k) (firstn 80 fused)).
  assert (Hpre : prefix_of shown fused).
  { eapply PyFacts.prefix_trans; eexists; symmetry; apply firstn_skipn. }
  split; [apply format_from_ids |]. split; [| split; [| split; [| split]]].
  - rewrite format_from_length. unfold shown.
    rewrite length_firstn. lia.
  - apply format_from_sorted.
    now apply (PyFacts.prefix_sorted _ _ _ Hpre).
  - apply Forall_forall. intros c Hc.
    destruct (format_from_In _ _ _ Hc) as (r & Hr & ->).
    apply (PyFacts.prefix_incl _ _ Hpre) in Hr.
    destruct (Horigin r Hr) as (first & s & Hfirst & ->).
    destruct (first_in_lists_In _ _ _ Hfirst) as (l & Hl & Hin).
    rewrite Forall_forall in Hplain. simpl.
    rewrite (Hplain first); [reflexivity |].
    apply in_or_app. destruct Hl as [<- | [<- | []]]; auto.
  - reflexivity.
  - intros client Hne Hfail.
    unfold Reranker.rerank_with_metadata, Reranker.rerank,
      Reranker._rerank_cohere.
    destruct fused as [|d fused']; [now elim Hne |].
    change (Py.take 80 (d :: fused')) with (d :: firstn 79 fused') in *.
    now rewrite Hfail.
Qed.
End Degraded.

Example degraded_search_sample :
  option_map (fun resp => map cited_chunk_id (citations resp))
    (search sample_bm25 sample_vector (init true None) "twin" 3 None None)
  = Some ["p3"%string; "p1"%string; "p2"%string].
Proof. vm_compute. reflexivity. Qed.

Lemma search_degrades_to_fusion_order_witness :
  exists fused resp,
    HybridFusion.reciprocal_rank_fusion
      [Samples.lexical_list; Samples.vector_list] 60 = Some fused /\
    search sample_bm25 sample_vector (init true None) "twin" 3 None None
    = Some resp /\
    map cited_chunk_id (citations resp)
    = ids (firstn (Z.to_nat 3) (firstn 80 fused)) /\
    (Z.of_nat (List.length (citations resp)) <= 3)%Z /\
    StronglySorted by_rrf (citations resp) /\
    Forall (fun c => rerank (scores c) = 0%R) (citations resp) /\
    reranked_flag resp = false /\
    (forall client,
        fused <> [] ->
        client "twin"%string (map content (Py.take 80 fused)) (3 * 2)%Z
        = None ->
        search sample_bm25 sample_vector
               (init true (Some (Reranker.cohere client))) "twin" 3
               None None = None).
Proof.
  apply (search_degrades_to_fusion_order
           sample_bm25 sample_vector true "twin" 3 None None
           Samples.lexical_list Samples.vector_list).
  - reflexivity.
  - reflexivity.
  - repeat constructor.
  - lia.
Defined.

(** The Cohere service cannot be reached: the client is constructed, the
    call at query time raises. *)
Definition unreachable_service (query : string) (texts : list string)
           (top_n : Z) : option (list (nat * R)) := None.

(** With such a reranker the query that the engine without a reranker
    answers with three citations fails as a whole. *)
Lemma failing_scorer_fails_query :
  search sample_bm25 sample_vector
         (init true (Some (Reranker.cohere unreachable_service)))
         "twin" 3 None None = None
  /\ use_reranker (init true (Some (Reranker.cohere unreachable_service)))
     = true
  /\ option_map (fun resp => List.length (citations resp))
       (search sample_bm25 sample_vector (init true None) "twin" 3 None None)
     = Some 3%nat.
Proof. repeat split; vm_compute; reflexivity. Qed.

End EngineFacts.

(* ------------------------------------------------------------------ *)
(** * Reciprocal rank fusion: failure and score range                  *)
(* ------------------------------------------------------------------ *)

Module FusionRange.

Import HybridFusion FusionLoop FusionFacts.

Lemma scan_list_inv (k : Z) (l : list Doc) :
  forall (rank : Z) (st st' : acc),
    scan_list k rank l st = Some st' -> inv st -> inv st'.
Proof.
  induction l as [|doc l IH]; intros rank st st'; simpl.
  - now intros [= <-].
  - destruct (k + rank =? 0)%Z; [discriminate |].
    intros Hrun Hinv. eapply IH; [exact Hrun |].
    now apply (step_inv st doc).
Qed.

Lemma scan_lists_inv (k : Z) (lists : list (list Doc)) :
  forall st st' : acc,
    scan_lists k lists st = Some st' -> inv st -> inv st'.
Proof.
  induction lists as [|l lists IH]; intros st st'; simpl.
  - now intros [= <-].
  - destruct (scan_list k 1 l st) as [st1|] eqn:E; [| discriminate].
    intros Hrun Hinv. eapply IH; [exact Hrun |].
    eapply scan_list_inv; eassumption.
Qed.

(** The divisor [k + rank] is zero at some position of [l], counted from
    [rank]. *)
Definition divisor_vanishes (k rank : Z) (l : list Doc) : Prop :=
  exists i : nat, (i < List.length l)%nat /\ (k + rank + Z.of_nat i = 0)%Z.

Lemma scan_list_fails (k : Z) (l : list Doc) :
  forall (rank : Z) (st : acc),
    scan_list k rank l st = None <-> divisor_vanishes k rank l.
Proof.
  unfold divisor_vanishes.
  induction l as [|doc l IH]; intros rank st; simpl.
  - split; [discriminate | intros (i & Hi & _); lia].
  - destruct (Z.eqb_spec (k + rank) 0) as [E | N].
    + split; [intros _ | reflexivity]. exists 0%nat. split; lia.
    + rewrite IH. split.
      * intros (i & Hi & Hz). exists (S i). split; lia.
      * intros ([|i] & Hi & Hz); [lia |]. exists i. split; lia.
Qed.

Lemma scan_lists_fails (k : Z) (lists : list (list Doc)) :
  forall st : acc,
    scan_lists k lists st = None
    <-> exists l, In l lists /\ divisor_vanishes k 1 l.
Proof.
  induction lists as [|l lists IH]; intros st; simpl.
  - split; [discriminate | intros (l & [] & _)].
  - destruct (scan_list k 1 l st) as [st1|] eqn:E.
    + rewrite IH. split.
      * intros (l' & Hl' & Hz). exists l'. auto.
      * intros (l' & [<- | Hl'] & Hz); [| exists l'; auto].
        apply (scan_list_fails k l 1 st) in Hz. congruence.
    + split; [intros _ | reflexivity].
      exists l. split; [now left |]. now apply (scan_list_fails k l 1 st).
Qed.

Lemma collect_total (st : acc) :
  inv st -> exists out, collect (doc_info st) (rrf_scores st) = Some out.
Proof.
  intros [Hkeys _ _].
  destruct (FusionCorrect.collect_spec (doc_info st) (rrf_scores st))
    as (out & Hout & _); [| now exists out].
  intros c Hc. rewrite Hkeys in Hc. apply contains_In in Hc.
  unfold Py.contains in Hc.
  destruct (Py.get (doc_info st) c) as [d|]; [now exists d | discriminate].
Qed.

(** X4: [reciprocal_rank_fusion] fails (the division raises
    [ZeroDivisionError]) exactly when [k] is negative and some source list
    has at least [-k] documents; in every other case it returns.  The
    lookup [doc_info[chunk_id]] never fails. *)
Theorem rrf_fails_iff_divisor_zero (lists : list (list Doc)) (k : Z) :
  reciprocal_rank_fusion lists k = None
  <-> exists l, In l lists /\ (1 <= - k <= Z.of_nat (List.length l))%Z.
Proof.
  unfold reciprocal_rank_fusion.
  destruct (scan_lists k lists empty_acc) as [st|] eqn:E.
  - destruct (collect_total st) as [out Hout].
    { eapply scan_lists_inv; [exact E | apply inv_empty]. }
    rewrite Hout. split; [discriminate |].
    intros (l & Hl & Hk).
    assert (Hnone : scan_lists k lists empty_acc = None).
    { apply scan_lists_fails. exists l. split; [exact Hl |].
      exists (Z.to_nat (- k - 1)). split; lia. }
    congruence.
  - split; [intros _ | reflexivity].
    apply scan_lists_fails in E. destruct E as (l & Hl & i & Hi & Hz).
    exists l. split; [exact Hl | lia].
Qed.

Lemma rank_from_ge (c : string) (l : list Doc) :
  forall rank r, rank_from rank c l = Some r -> (rank <= r)%Z.
Proof.
  induction l as [|d l IH]; intros rank r; simpl; [discriminate |].
  destruct (String.eqb (chunk_id d) c).
  - intros [= <-]. lia.
  - intros H. apply IH in H. lia.
Qed.

Lemma rank_from_present (c : string) (l : list Doc) :
  In c (ids l) -> forall rank, exists r, rank_from rank c l = Some r.
Proof.
  induction l as [|d l IH]; simpl; [tauto |].
  intros Hin rank. destruct (String.eqb_spec (chunk_id d) c) as [E | N].
  - now exists rank.
  - destruct Hin as [E | Hin]; [contradiction | now apply IH].
Qed.

Lemma reciprocal_pos (z : Z) : (0 < z)%Z -> 0 < 1 / inject_Z z.
Proof.
  intros H. apply Qlt_shift_div_l; [now rewrite Zlt_Qlt in H | lra].
Qed.

Lemma reciprocal_antitone (a b : Z) :
  (0 < a <= b)%Z -> 1 / inject_Z b <= 1 / inject_Z a.
Proof.
  intros [Ha Hab].
  assert (Ha' : 0 < inject_Z a) by now rewrite Zlt_Qlt in Ha.
  assert (Hab' : inject_Z a <= inject_Z b) by now rewrite Zle_Qle in Hab.
  apply Qle_shift_div_l; [exact Ha' |].
  setoid_replace (1 / inject_Z b * inject_Z a) with (inject_Z a / inject_Z b)
    by (field; lra).
  apply Qle_shift_div_r; lra.
Qed.

Lemma contribution_range (k : Z) (c : string) (l : list Doc) :
  (0 <= k)%Z ->
  0 <= contribution k c l <= 1 / inject_Z (k + 1)
  /\ (In c (ids l) -> 0 < contribution k c l).
Proof.
  intros Hk. unfold contribution, rank_of.
  pose proof (reciprocal_pos (k + 1) ltac:(lia)) as Hone.
  destruct (rank_from 1 c l) as [r|] eqn:E.
  - apply rank_from_ge in E.
    pose proof (reciprocal_pos (k + r) ltac:(lia)).
    pose proof (reciprocal_antitone (k + 1) (k + r) ltac:(lia)).
    split; [split; lra | auto].
  - split; [split; lra |].
    intros Hin. destruct (rank_from_present c l Hin 1) as [r Hr]. congruence.
Qed.

Lemma fusion_score_range (k : Z) (c : string) (lists : list (list Doc)) :
  (0 <= k)%Z ->
  0 <= fusion_score k c lists
  /\ fusion_score k c lists
     <= inject_Z (Z.of_nat (List.length lists)) / inject_Z (k + 1)
  /\ ((exists l, In l lists /\ In c (ids l)) -> 0 < fusion_score k c lists).
Proof.
  intros Hk.
  assert (Hden : 0 < inject_Z (k + 1)).
  { assert (0 < k + 1)%Z as H by lia. now rewrite Zlt_Qlt in H. }
  induction lists as [|l lists (IH0 & IH1 & IH2)].
  - simpl. split; [lra |]. split.
    + unfold Qdiv. rewrite Qmult_0_l. lra.
    + intros (l & [] & _).
  - destruct (contribution_range k c l Hk) as ((C0 & C1) & C2).
    cbn [fusion_score fold_right List.length].
    fold (fusion_score k c lists).
    split; [lra |]. split.
    + rewrite Nat2Z.inj_succ, <- Z.add_1_r, inject_Z_plus.
      setoid_replace ((inject_Z (Z.of_nat (List.length lists)) + inject_Z 1)
                      / inject_Z (k + 1))
        with (inject_Z (Z.of_nat (List.length lists)) / inject_Z (k + 1)
              + 1 / inject_Z (k + 1))
        by (field; lra).
      lra.
    + intros (l' & [<- | Hl'] & Hc).
      * specialize (C2 Hc). lra.
      * assert (0 < fusion_score k c lists) by (apply IH2; eauto). lra.
Qed.

(** X5: for [k >= 0] and source lists that rank each chunk id once, every
    fusion score is positive and, in exact arithmetic, at most
    [n / (k + 1)], [n] being the number of source lists; the bound is the
    score of a chunk ranked first in every list.  (The float sum the code
    computes can exceed the bound by a rounding error, as for [k = 9] and
    three lists.) *)
Theorem rrf_score_range (lists : list (list Doc)) (k : Z) :
  (0 <= k)%Z ->
  Forall (fun l => NoDup (ids l)) lists ->
  exists fused,
    reciprocal_rank_fusion lists k = Some fused /\
    forall d, In d fused ->
      0 < rrf_key d
      /\ rrf_key d
         <= inject_Z (Z.of_nat (List.length lists)) / inject_Z (k + 1).
Proof.
  intros Hk Hnd.
  destruct (FusionCorrect.fusion_run lists k Hk)
    as (fused & Hrun & _ & Hmem & Hscore & _).
  exists fused. split; [exact Hrun |]. intros d Hd.
  destruct (Hscore d Hd) as (s & Hs & Hsum).
  rewrite (FusionCorrect.total_is_fusion_score k _ lists Hnd) in Hsum.
  destruct (fusion_score_range k (chunk_id d) lists Hk) as (_ & Hhi & Hpos).
  unfold rrf_key. rewrite Hs, Hsum. split; [| exact Hhi].
  apply Hpos, Hmem. now apply in_map.
Qed.

Lemma rrf_score_range_witness :
  exists fused,
    reciprocal_rank_fusion [Samples.lexical_list; Samples.vector_list] 60
    = Some fused /\
    forall d, In d fused ->
      0 < rrf_key d
      /\ rrf_key d
         <= inject_Z
              (Z.of_nat
                 (List.length [Samples.lexical_list; Samples.vector_list]))
            / inject_Z (60 + 1).
Proof.
  apply (rrf_score_range [Samples.lexical_list; Samples.vector_list] 60).
  - lia.
  - FusionExamples.distinct_ids.
Defined.

End FusionRange.

Module FusionDedupExamples.

Import HybridFusion Samples.

Lemma rrf_ids_are_union_witness :
  exists fused,
    reciprocal_rank_fusion [lexical_list; vector_list] 60 = Some fused /\
    NoDup (ids fused) /\
    (forall c, In c (ids fused)
               <-> exists l, In l [lexical_list; vector_list] /\ In c (ids l)).
Proof.
  apply (FusionDedup.rrf_ids_are_union [lexical_list; vector_list] 60). lia.
Defined.

Lemma rrf_one_shared_length_witness :
  exists fused,
    reciprocal_rank_fusion [lexical_list; vector_list] 60 = Some fused /\
    List.length fused
    = (List.length lexical_list + List.length vector_list - 1)%nat.
Proof.
  apply (FusionDedup.rrf_one_shared_length lexical_list vector_list 60
                                          "p3"%string).
  - lia.
  - FusionExamples.distinct_ids.
  - FusionExamples.distinct_ids.
  - intros x. simpl. split.
    + intros [[H | [H | [H | []]]] [H' | [H' | []]]]; congruence.
    + intros ->. auto.
Defined.

Lemma rrf_keeps_first_record_witness :
  exists fused,
    reciprocal_rank_fusion [lexical_list; vector_list] 60 = Some fused /\
    forall d a,
      In d fused ->
      first_with_id (chunk_id d) lexical_list = Some a ->
      bm25_score a <> None -> vector_score a = None ->
      bm25_score d = bm25_score a /\ vector_score d = Some 0.
Proof.
  apply (FusionDedup.rrf_keeps_first_record lexical_list vector_list 60).
  lia.
Defined.

End FusionDedupExamples.

(* ------------------------------------------------------------------ *)
(** * The other fusion helpers                                         *)
(* ------------------------------------------------------------------ *)

Module DictFacts.

Import FusionLoop FusionFacts.

Lemma keys_after_set {V : Type} (d : Py.dict V) (k : string) (v : V) :
  Py.keys (Py.set d k v) = note (Py.keys d) k.
Proof. rewrite keys_set. apply contains_dec. Qed.

Lemma get_Some_In {V : Type} (d : Py.dict V) (k : string) (v : V) :
  Py.get d k = Some v -> In (k, v) d.
Proof.
  induction d as [|[k0 v0] d IH]; simpl; [discriminate |].
  destruct (String.eqb_spec k0 k) as [-> | _].
  - intros [= ->]. now left.
  - intros H. right. now apply IH.
Qed.

Lemma get_Some_key {V : Type} (d : Py.dict V) (k : string) (v : V) :
  Py.get d k = Some v -> In k (Py.keys d).
Proof. intros H. apply get_Some_In in H. now apply (in_map fst) in H. Qed.

(** When every value is filed under its own name, the names of the values
    are the keys. *)
Lemma values_named {V : Type} (name : V -> string) (d : Py.dict V) :
  NoDup (Py.keys d) ->
  (forall k v, Py.get d k = Some v -> name v = k) ->
  map name (map snd d) = Py.keys d.
Proof.
  induction d as [|[k0 v0] d IH]; intros Hnd Hname; [reflexivity |].
  simpl in *. inversion Hnd as [|? ? Hout Hnd']; subst. f_equal.
  - apply Hname. now rewrite String.eqb_refl.
  - apply IH; [exact Hnd' |]. intros k v Hget. apply Hname.
    destruct (String.eqb_spec k0 k) as [-> | _]; [| exact Hget].
    elim Hout. now apply (get_Some_key d k v).
Qed.

Lemma value_has_key {V : Type} (d : Py.dict V) (v : V) :
  NoDup (Py.keys d) -> In v (map snd d) -> exists k, Py.get d k = Some v.
Proof.
  intros Hnd Hin. apply in_map_iff in Hin. destruct Hin as ([k v'] & <- & Hin).
  exists k. now apply get_In_NoDup.
Qed.

End DictFacts.

Module DeduplicateFacts.

Import HybridFusion FusionLoop FusionFacts DictFacts.

(** What holds of [seen] once the documents [processed] have gone by. *)
Record seen_ok (f : score_field) (seen : Py.dict Doc) (processed : list Doc)
  : Prop := {
  seen_nodup : NoDup (Py.keys seen);
  seen_from : forall c d, Py.get seen c = Some d ->
                          chunk_id d = c /\ In d processed;
  seen_best : forall p, In p processed ->
                        exists d, Py.get seen (chunk_id p) = Some d
                                  /\ score_or_zero f p <= score_or_zero f d
}.

Lemma seen_ok_replace (f : score_field) (seen : Py.dict Doc)
      (processed : list Doc) (doc : Doc) :
  seen_ok f seen processed ->
  (forall kept, Py.get seen (chunk_id doc) = Some kept ->
                score_or_zero f kept <= score_or_zero f doc) ->
  seen_ok f (Py.set seen (chunk_id doc) doc) (processed ++ [doc]).
Proof.
  intros [Hnd Hfrom Hbest] Hle. split.
  - rewrite keys_after_set. now apply note_NoDup.
  - intros c d. rewrite get_set.
    destruct (String.eqb_spec (chunk_id doc) c) as [<- | _].
    + intros [= <-]. split; [reflexivity |].
      apply in_or_app. right. now left.
    + intros H. destruct (Hfrom c d H). split; [assumption |].
      apply in_or_app. now left.
  - intros p Hp. rewrite get_set. apply in_app_or in Hp.
    destruct (String.eqb_spec (chunk_id doc) (chunk_id p)) as [Eq | N].
    + exists doc. split; [reflexivity |].
      destruct Hp as [Hp | [<- | []]]; [| apply Qle_refl].
      destruct (Hbest p Hp) as (d & Hd & Hpd). rewrite <- Eq in Hd.
      apply Qle_trans with (score_or_zero f d); [exact Hpd | now apply Hle].
    + destruct Hp as [Hp | [<- | []]]; [now apply Hbest | now elim N].
Qed.

Lemma seen_ok_keep (f : score_field) (seen : Py.dict Doc)
      (processed : list Doc) (doc kept : Doc) :
  seen_ok f seen processed ->
  Py.get seen (chunk_id doc) = Some kept ->
  score_or_zero f doc <= score_or_zero f kept ->
  seen_ok f seen (processed ++ [doc]).
Proof.
  intros [Hnd Hfrom Hbest] Hkept Hle. split; [exact Hnd | |].
  - intros c d H. destruct (Hfrom c d H). split; [assumption |].
    apply in_or_app. now left.
  - intros p Hp. apply in_app_or in Hp.
    destruct Hp as [Hp | [<- | []]]; [now apply Hbest |].
    exists kept. now split.
Qed.

Lemma dedup_scan_ok (f : score_field) (results : list Doc) :
  forall seen processed,
    seen_ok f seen processed ->
    seen_ok f (dedup_scan f results seen) (processed ++ results).
Proof.
  induction results as [|doc rest IH]; intros seen processed Hok; simpl.
  - now rewrite app_nil_r.
  - replace (processed ++ doc :: rest) with ((processed ++ [doc]) ++ rest)
      by now rewrite <- app_assoc.
    apply IH. destruct (Py.get seen (chunk_id doc)) as [kept|] eqn:E.
    + destruct (Qltb (score_or_zero f kept) (score_or_zero f doc)) eqn:L.
      * apply seen_ok_replace; [exact Hok |].
        intros kept' H. rewrite E in H. injection H as <-.
        now apply Qlt_le_weak, PyFacts.Qltb_true.
      * apply (seen_ok_keep f seen processed doc kept Hok E).
        now apply PyFacts.Qltb_false.
    + apply seen_ok_replace; [exact Hok |].
      intros kept H. congruence.
Qed.

(** X6: [deduplicate] returns each chunk id of its input exactly once;
    every document it returns is one of the input, and no input document
    with the same id has a higher score than the one returned. *)
Theorem deduplicate_keeps_best (results : list Doc) (f : score_field) :
  NoDup (ids (deduplicate results f))
  /\ (forall c, In c (ids (deduplicate results f)) <-> In c (ids results))
  /\ (forall o, In o (deduplicate results f) -> In o results)
  /\ (forall d, In d results ->
                exists o, In o (deduplicate results f)
                          /\ chunk_id o = chunk_id d
                          /\ score_or_zero f d <= score_or_zero f o).
Proof.
  unfold deduplicate.
  assert (Hok : seen_ok f (dedup_scan f results []) results).
  { apply (dedup_scan_ok f results [] []).
    split; simpl; [constructor | discriminate | tauto]. }
  destruct Hok as [Hnd Hfrom Hbest].
  assert (Hids : ids (map snd (dedup_scan f results []))
                 = Py.keys (dedup_scan f results [])).
  { apply values_named; [exact Hnd |]. intros k v H. now apply Hfrom. }
  split; [now rewrite Hids |]. split; [| split].
  - intros c. rewrite Hids. split.
    + intros Hc. apply contains_In in Hc. unfold Py.contains in Hc.
      destruct (Py.get (dedup_scan f results []) c) as [d|] eqn:E;
        [| discriminate].
      destruct (Hfrom c d E) as [<- Hin]. now apply in_map.
    + intros Hc. apply in_map_iff in Hc. destruct Hc as (p & <- & Hp).
      destruct (Hbest p Hp) as (d & Hd & _).
      now apply (get_Some_key _ _ d).
  - intros o Ho. destruct (value_has_key _ o Hnd Ho) as [k Hk].
    now apply (Hfrom k o).
  - intros d Hd. destruct (Hbest d Hd) as (o & Ho & Hle).
    exists o. split; [| split; [now apply (Hfrom _ o) | exact Hle]].
    apply get_Some_In in Ho. now apply (in_map snd) in Ho.
Qed.

Example deduplicate_sample :
  map (fun d => (chunk_id d, bm25_score d))
      (deduplicate [Samples.bm25_hit "a" (1 # 2); Samples.bm25_hit "b" 1;
                    Samples.bm25_hit "a" (3 # 4); Samples.bm25_hit "b" 1]
                   bm25_field)
  = [("a"%string, Some (3 # 4)); ("b"%string, Some 1)].
Proof. reflexivity. Qed.

End DeduplicateFacts.

Module NormalizeFacts.

Import HybridFusion.

Lemma min_from_spec (l : list Q) :
  forall x, Py.min_from x l <= x
            /\ Forall (fun y => Py.min_from x l <= y) l
            /\ In (Py.min_from x l) (x :: l).
Proof.
  induction l as [|y l IH]; intros x; simpl.
  - split; [apply Qle_refl |]. split; [constructor | now left].
  - set (m := if negb (Qle_bool x y) then y else x).
    assert (Hm : m <= x /\ m <= y /\ (m = x \/ m = y)).
    { unfold m. destruct (Qle_bool x y) eqn:E; simpl.
      - apply Qle_bool_iff in E. split; [apply Qle_refl | auto].
      - assert (y < x).
        { apply Qnot_le_lt. intros H. apply Qle_bool_iff in H. congruence. }
        split; [now apply Qlt_le_weak |]. split; [apply Qle_refl | auto]. }
    destruct Hm as (Hx & Hy & Hin). destruct (IH m) as (H1 & H2 & H3).
    split; [now apply Qle_trans with m |]. split.
    + constructor; [now apply Qle_trans with m | exact H2].
    + destruct H3 as [H3 | H3]; [| auto].
      rewrite <- H3. destruct Hin as [-> | ->]; auto.
Qed.

Lemma max_from_spec (l : list Q) :
  forall x, x <= Py.max_from x l
            /\ Forall (fun y => y <= Py.max_from x l) l
            /\ In (Py.max_from x l) (x :: l).
Proof.
  induction l as [|y l IH]; intros x; simpl.
  - split; [apply Qle_refl |]. split; [constructor | now left].
  - set (m := if negb (Qle_bool y x) then y else x).
    assert (Hm : x <= m /\ y <= m /\ (m = x \/ m = y)).
    { unfold m. destruct (Qle_bool y x) eqn:E; simpl.
      - apply Qle_bool_iff in E. split; [apply Qle_refl | auto].
      - assert (x < y).
        { apply Qnot_le_lt. intros H. apply Qle_bool_iff in H. congruence. }
        split; [now apply Qlt_le_weak |]. split; [apply Qle_refl | auto]. }
    destruct Hm as (Hx & Hy & Hin). destruct (IH m) as (H1 & H2 & H3).
    split; [now apply Qle_trans with m |]. split.
    + constructor; [now apply Qle_trans with m | exact H2].
    + destruct H3 as [H3 | H3]; [| auto].
      rewrite <- H3. destruct Hin as [-> | ->]; auto.
Qed.

(** The rescaling [_normalize_scores] applies, given the extremes. *)
Definition rescale (min_score max_score : Q) (x : Q) : Q :=
  if Qeq_bool max_score min_score then 1
  else (x - min_score) / (max_score - min_score).

Lemma rescale_range (lo hi x : Q) :
  lo <= x <= hi -> 0 <= rescale lo hi x <= 1.
Proof.
  intros [Hlo Hhi]. unfold rescale.
  destruct (Qeq_bool hi lo) eqn:E; [split; lra |].
  apply Qeq_bool_neq in E.
  assert (Hden : 0 < hi - lo).
  { destruct (Qlt_le_dec lo hi) as [H | H]; [lra |].
    elim E. apply Qle_antisym; lra. }
  split.
  - apply Qle_shift_div_l; [exact Hden | lra].
  - apply Qle_shift_div_r; [exact Hden | lra].
Qed.

Lemma rescale_monotone (lo hi a b : Q) :
  lo <= hi -> a <= b -> rescale lo hi a <= rescale lo hi b.
Proof.
  intros Hlh Hab. unfold rescale.
  destruct (Qeq_bool hi lo) eqn:E; [apply Qle_refl |].
  apply Qeq_bool_neq in E.
  assert (Hden : 0 < hi - lo).
  { destruct (Qlt_le_dec lo hi) as [H | H]; [lra |].
    elim E. apply Qle_antisym; lra. }
  unfold Qdiv. apply Qmult_le_compat_r; [lra |].
  apply Qlt_le_weak, Qinv_lt_0_compat, Hden.
Qed.

Lemma rescale_top (lo hi : Q) : lo <= hi -> rescale lo hi hi == 1.
Proof.
  intros Hlh. unfold rescale.
  destruct (Qeq_bool hi lo) eqn:E; [reflexivity |].
  apply Qeq_bool_neq in E. field. intros H. apply E. lra.
Qed.

(** X7: [_normalize_scores] leaves an empty list alone; otherwise it
    rewrites the score of every document through one non-decreasing map
    into [0, 1] (the constant 1 when all scores are equal, a single
    document included), keeps the documents and their order, and gives
    the score 1 to a document that had the highest score. *)
Theorem normalize_scores_rescales (results : list Doc) (f : score_field) :
  exists g : Q -> Q,
    _normalize_scores results f
    = match results with
      | [] => []
      | _ => map (fun doc => set_score f doc (g (score_or_zero f doc)))
                 results
      end
    /\ (forall a b, a <= b -> g a <= g b)
    /\ (forall doc, In doc results -> 0 <= g (score_or_zero f doc) <= 1)
    /\ (results <> [] ->
        exists doc, In doc results
                    /\ g (score_or_zero f doc) == 1
                    /\ forall other, In other results ->
                         score_or_zero f other <= score_or_zero f doc).
Proof.
  unfold _normalize_scores.
  destruct results as [|d0 rest].
  { exists (fun x => x). simpl. repeat split; tauto. }
  cbn [map].
  set (first := score_or_zero f d0).
  set (others := map (score_or_zero f) rest).
  set (lo := Py.min_from first others).
  set (hi := Py.max_from first others).
  destruct (min_from_spec others first) as (Hlo0 & Hlo & _).
  destruct (max_from_spec others first) as (Hhi0 & Hhi & Hin).
  fold lo in Hlo0, Hlo. fold hi in Hhi0, Hhi, Hin.
  assert (Hlh : lo <= hi) by now apply Qle_trans with first.
  assert (Hbounds : forall doc, In doc (d0 :: rest) ->
                                lo <= score_or_zero f doc <= hi).
  { intros doc [<- | Hd]; [now split |].
    rewrite Forall_forall in Hlo, Hhi.
    assert (In (score_or_zero f doc) others) by now apply in_map.
    split; [now apply Hlo | now apply Hhi]. }
  exists (rescale lo hi). split; [| split; [| split]].
  - unfold rescale. destruct (Qeq_bool hi lo); reflexivity.
  - intros a b. now apply rescale_monotone.
  - intros doc Hd. now apply rescale_range, Hbounds.
  - intros _.
    assert (Hmax : exists doc, In doc (d0 :: rest)
                               /\ score_or_zero f doc = hi).
    { destruct Hin as [<- | Hin]; [exists d0; split; [now left | reflexivity] |].
      apply in_map_iff in Hin. destruct Hin as (doc & E & Hd).
      exists doc. split; [now right | exact E]. }
    destruct Hmax as (doc & Hd & E). exists doc.
    split; [exact Hd |]. rewrite E. split; [now apply rescale_top |].
    intros other Ho. now apply Hbounds.
Qed.

Example normalize_sample :
  map (fun d => option_map Qred (bm25_score d))
      (_normalize_scores Samples.lexical_list bm25_field)
  = [Some 1; Some (3 # 7); Some 0].
Proof. reflexivity. Qed.

Example normalize_single :
  map bm25_score (_normalize_scores [Samples.bm25_hit "a" (1 # 5)] bm25_field)
  = [Some 1].
Proof. reflexivity. Qed.

End NormalizeFacts.

Module WeightedFacts.

Import HybridFusion FusionLoop FusionFacts DictFacts.

(** The keys after seeing the ids [cs] in turn. *)
Definition note_all (ks cs : list string) : list string :=
  fold_left note cs ks.

Lemma note_all_In (cs : list string) :
  forall ks x, In x (note_all ks cs) <-> In x ks \/ In x cs.
Proof.
  unfold note_all. induction cs as [|c cs IH]; intros ks x; simpl.
  - tauto.
  - rewrite IH, note_In. intuition.
Qed.

Lemma note_all_NoDup (cs : list string) :
  forall ks, NoDup ks -> NoDup (note_all ks cs).
Proof.
  unfold note_all. induction cs as [|c cs IH]; intros ks H; simpl.
  - exact H.
  - now apply IH, note_NoDup.
Qed.

Lemma first_with_id_absent (c : string) (l : list Doc) :
  ~ In c (ids l) -> first_with_id c l = None.
Proof.
  intros Hout. unfold first_with_id.
  destruct (find _ l) as [d|] eqn:E; [| reflexivity].
  apply find_some in E. destruct E as [Hd E].
  apply String.eqb_eq in E. elim Hout. rewrite <- E. now apply in_map.
Qed.

Lemma first_with_id_named (c : string) (l : list Doc) (d : Doc) :
  first_with_id c l = Some d -> In d l /\ chunk_id d = c.
Proof.
  intros H. apply find_some in H. destruct H as [Hd E].
  now apply String.eqb_eq in E.
Qed.

Lemma add_bm25_keys (w : Q) (l : list Doc) :
  forall combined,
    Py.keys (add_bm25 w l combined) = note_all (Py.keys combined) (ids l).
Proof.
  induction l as [|d l IH]; intros combined; simpl; [reflexivity |].
  now rewrite IH, keys_after_set.
Qed.

Lemma merge_vector_keys (w : Q) (d : Doc) (combined : Py.dict weighted_doc) :
  Py.keys (merge_vector w d combined) = note (Py.keys combined) (chunk_id d).
Proof.
  unfold merge_vector.
  destruct (Py.get combined (chunk_id d)); apply keys_after_set.
Qed.

Lemma add_vector_keys (w : Q) (l : list Doc) :
  forall combined,
    Py.keys (add_vector w l combined) = note_all (Py.keys combined) (ids l).
Proof.
  induction l as [|d l IH]; intros combined; simpl; [reflexivity |].
  now rewrite IH, merge_vector_keys.
Qed.

Lemma add_bm25_get (w : Q) (l : list Doc) (c : string) :
  NoDup (ids l) ->
  forall combined,
    Py.get (add_bm25 w l combined) c
    = match first_with_id c l with
      | Some d => Some (from_bm25 w d)
      | None => Py.get combined c
      end.
Proof.
  induction l as [|d l IH]; intros Hnd combined; simpl; [reflexivity |].
  inversion Hnd as [|? ? Hout Hnd']; subst.
  rewrite (IH Hnd'), get_set. unfold first_with_id. simpl.
  destruct (String.eqb_spec (chunk_id d) c) as [<- | _]; [| reflexivity].
  fold (first_with_id (chunk_id d) l).
  now rewrite (first_with_id_absent _ _ Hout).
Qed.

(** The entry the second loop leaves for a vector document, given what
    the first loop stored under its id. *)
Definition merged_entry (w : Q) (stored : option weighted_doc) (d : Doc)
  : weighted_doc :=
  let v := score_or_zero vector_field d in
  match stored with
  | Some entry =>
      {| merged := set_score vector_field (merged entry) v;
         weighted_score := weighted_score entry + w * v |}
  | None =>
      {| merged := set_score vector_field (set_score bm25_field d 0) v;
         weighted_score := w * v |}
  end.

Lemma merge_vector_get (w : Q) (d : Doc) (combined : Py.dict weighted_doc)
      (c : string) :
  Py.get (merge_vector w d combined) c
  = if String.eqb (chunk_id d) c
    then Some (merged_entry w (Py.get combined (chunk_id d)) d)
    else Py.get combined c.
Proof.
  unfold merge_vector, merged_entry.
  destruct (Py.get combined (chunk_id d)); now rewrite get_set.
Qed.

Lemma add_vector_get (w : Q) (l : list Doc) (c : string) :
  NoDup (ids l) ->
  forall combined,
    Py.get (add_vector w l combined) c
    = match first_with_id c l with
      | Some d => Some (merged_entry w (Py.get combined c) d)
      | None => Py.get combined c
      end.
Proof.
  induction l as [|d l IH]; intros Hnd combined; simpl; [reflexivity |].
  inversion Hnd as [|? ? Hout Hnd']; subst.
  rewrite (IH Hnd'), merge_vector_get. unfold first_with_id. simpl.
  destruct (String.eqb_spec (chunk_id d) c) as [<- | _]; [| reflexivity].
  fold (first_with_id (chunk_id d) l).
  now rewrite (first_with_id_absent _ _ Hout).
Qed.

Lemma normalize_ids (l : list Doc) (f : score_field) :
  ids (_normalize_scores l f) = ids l.
Proof.
  unfold _normalize_scores, ids.
  destruct (map (score_or_zero f) l); [reflexivity |].
  destruct (Qeq_bool _ _); rewrite map_map; reflexivity.
Qed.

(** The score a list holds for a chunk id, [0] when it does not hold the
    id. *)
Definition listed_score (f : score_field) (c : string) (l : list Doc) : Q :=
  match first_with_id c l with
  | Some d => score_or_zero f d
  | None => 0
  end.

(** X8: on two duplicate-free lists [weighted_fusion] returns one entry
    per chunk id of either list.  Each entry carries both scores, the
    (normalised, when asked) [bm25_score] of the lexical list and
    [vector_score] of the vector list, [0.0] for a list that does not hold
    the chunk, and its [weighted_score] is
    [bm25_weight * bm25_score + vector_weight * vector_score]; the
    entries are in descending order of [weighted_score]. *)
Theorem weighted_fusion_combines (A B : list Doc) (bw vw : Q)
        (normalize : bool) :
  NoDup (ids A) -> NoDup (ids B) ->
  let A' := if normalize then _normalize_scores A bm25_field else A in
  let B' := if normalize then _normalize_scores B vector_field else B in
  let out := weighted_fusion A B bw vw normalize in
  NoDup (map (fun e => chunk_id (merged e)) out)
  /\ (forall c, In c (map (fun e => chunk_id (merged e)) out)
                <-> In c (ids A) \/ In c (ids B))
  /\ (forall e, In e out ->
        bm25_score (merged e)
        = Some (listed_score bm25_field (chunk_id (merged e)) A')
        /\ vector_score (merged e)
           = Some (listed_score vector_field (chunk_id (merged e)) B')
        /\ weighted_score e
           == bw * listed_score bm25_field (chunk_id (merged e)) A'
              + vw * listed_score vector_field (chunk_id (merged e)) B')
  /\ StronglySorted (fun x y => weighted_score y <= weighted_score x) out.
Proof.
  intros HA HB A' B' out.
  assert (HA' : NoDup (ids A')).
  { unfold A'. destruct normalize; [now rewrite normalize_ids | exact HA]. }
  assert (HB' : NoDup (ids B')).
  { unfold B'. destruct normalize; [now rewrite normalize_ids | exact HB]. }
  assert (HidA : ids A' = ids A).
  { unfold A'. destruct normalize; [apply normalize_ids | reflexivity]. }
  assert (HidB : ids B' = ids B).
  { unfold B'. destruct normalize; [apply normalize_ids | reflexivity]. }
  set (combined := add_vector vw B' (add_bm25 bw A' [])).
  assert (Hout : out = Py.sort_desc Qltb weighted_score (map snd combined))
    by reflexivity.
  assert (Hkeys : Py.keys combined = note_all (note_all [] (ids A')) (ids B')).
  { unfold combined. now rewrite add_vector_keys, add_bm25_keys. }
  assert (Hnd : NoDup (Py.keys combined)).
  { rewrite Hkeys. apply note_all_NoDup, note_all_NoDup. constructor. }
  assert (Hentry : forall k e, Py.get combined k = Some e ->
            chunk_id (merged e) = k
            /\ bm25_score (merged e) = Some (listed_score bm25_field k A')
            /\ vector_score (merged e)
               = Some (listed_score vector_field k B')
            /\ weighted_score e
               == bw * listed_score bm25_field k A'
                  + vw * listed_score vector_field k B').
  { intros k e. unfold combined, listed_score.
    rewrite (add_vector_get vw B' k HB'), (add_bm25_get bw A' k HA').
    destruct (first_with_id k B') as [d|] eqn:Ed;
      destruct (first_with_id k A') as [a|] eqn:Ea; simpl;
      try discriminate; intros [= <-]; simpl.
    - destruct (first_with_id_named _ _ _ Ea) as [_ <-].
      repeat split; reflexivity.
    - destruct (first_with_id_named _ _ _ Ed) as [_ <-].
      repeat split; try reflexivity. ring.
    - destruct (first_with_id_named _ _ _ Ea) as [_ <-].
      repeat split; try reflexivity. ring. }
  assert (Hnames : map (fun e => chunk_id (merged e)) (map snd combined)
                   = Py.keys combined).
  { apply values_named; [exact Hnd |]. intros k e H. now apply Hentry. }
  assert (Hperm : Permutation (map (fun e => chunk_id (merged e)) out)
                              (Py.keys combined)).
  { rewrite Hout, <- Hnames. apply Permutation_map, PyFacts.sort_perm. }
  split; [| split; [| split]].
  - eapply Permutation_NoDup; [apply Permutation_sym, Hperm | exact Hnd].
  - intros c. rewrite <- HidA, <- HidB. split.
    + intros H. apply (Permutation_in _ Hperm) in H.
      rewrite Hkeys, !note_all_In in H. simpl in H. tauto.
    + intros H. apply (Permutation_in _ (Permutation_sym Hperm)).
      rewrite Hkeys, !note_all_In. tauto.
  - intros e He. rewrite Hout in He. apply PyFacts.sort_In in He.
    destruct (value_has_key combined e Hnd He) as [k Hk].
    destruct (Hentry k e Hk) as (<- & H1 & H2 & H3). auto.
  - rewrite Hout.
    eapply PyFacts.sorted_weaken;
      [| apply (PyFacts.sort_sorted _ _ Qltb weighted_score
                  PyFacts.Qltb_asym PyFacts.Qgeb_trans)].
    intros a b H. now apply PyFacts.Qltb_false.
Qed.

Lemma weighted_fusion_combines_witness :
  let A' := _normalize_scores Samples.lexical_list bm25_field in
  let B' := _normalize_scores Samples.vector_list vector_field in
  let out :=
    weighted_fusion Samples.lexical_list Samples.vector_list
                    (1 # 2) (1 # 2) true in
  NoDup (map (fun e => chunk_id (merged e)) out)
  /\ (forall c, In c (map (fun e => chunk_id (merged e)) out)
                <-> In c (ids Samples.lexical_list)
                    \/ In c (ids Samples.vector_list))
  /\ (forall e, In e out ->
        bm25_score (merged e)
        = Some (listed_score bm25_field (chunk_id (merged e)) A')
        /\ vector_score (merged e)
           = Some (listed_score vector_field (chunk_id (merged e)) B')
        /\ weighted_score e
           == (1 # 2) * listed_score bm25_field (chunk_id (merged e)) A'
              + (1 # 2) * listed_score vector_field (chunk_id (merged e)) B')
  /\ StronglySorted (fun x y => weighted_score y <= weighted_score x) out.
Proof.
  apply (weighted_fusion_combines Samples.lexical_list Samples.vector_list
                                  (1 # 2) (1 # 2) true);
    FusionExamples.distinct_ids.
Defined.

Example weighted_fusion_sample :
  map (fun e => (chunk_id (merged e),
                 option_map Qred (bm25_score (merged e)),
                 option_map Qred (vector_score (merged e)),
                 Qred (weighted_score e)))
      (weighted_fusion Samples.lexical_list Samples.vector_list
                       (1 # 2) (1 # 2) true)
  = [("p1"%string, Some 1, Some 0, 1 # 2);
     ("p3"%string, Some 0, Some 1, 1 # 2);
     ("p2"%string, Some (3 # 7), Some 0, 3 # 14);
     ("p4"%string, Some 0, Some 0, 0)].
Proof. reflexivity. Qed.

End WeightedFacts.

(* ------------------------------------------------------------------ *)
(** * Lexical search: the query text and the result list               *)
(* ------------------------------------------------------------------ *)

Module TsqueryFacts.

Import BM25Searcher.
Local Open Scope string_scope.

(** Every character of [s] satisfies [p]. *)
Fixpoint all_chars (p : ascii -> bool) (s : string) : bool :=
  match s with
  | EmptyString => true
  | String c s' => p c && all_chars p s'
  end.

Lemma all_chars_app (p : ascii -> bool) (s t : string) :
  all_chars p (s ++ t) = all_chars p s && all_chars p t.
Proof.
  induction s as [|c s IH]; simpl; [reflexivity |].
  now rewrite IH, andb_assoc.
Qed.

Lemma all_chars_weaken (p q : ascii -> bool) (s : string) :
  (forall c, p c = true -> q c = true) ->
  all_chars p s = true -> all_chars q s = true.
Proof.
  intros Hpq. induction s as [|c s IH]; simpl; [reflexivity |].
  rewrite !andb_true_iff. intros [Hc Hs]. auto.
Qed.

Lemma keep_chars_all (p : ascii -> bool) (s : string) :
  all_chars p (Str.keep_chars p s) = true.
Proof.
  induction s as [|c s IH]; simpl; [reflexivity |].
  destruct (p c) eqn:E; simpl; [now rewrite E |exact IH].
Qed.

Lemma keep_chars_fixed (p : ascii -> bool) (s : string) :
  all_chars p s = true -> Str.keep_chars p s = s.
Proof.
  induction s as [|c s IH]; simpl; [reflexivity |].
  rewrite andb_true_iff. intros [Hc Hs]. rewrite Hc. now rewrite IH.
Qed.

(** A term that survives the cleaning loop. *)
Definition clean (term : string) : Prop :=
  term <> EmptyString /\ all_chars kept term = true.

Lemma cleaned_terms_clean (query : string) :
  Forall clean (cleaned_terms query).
Proof.
  unfold cleaned_terms. generalize (Str.split (Str.strip query)).
  induction l as [|t l IH]; simpl; [constructor |].
  destruct (Str.is_empty (clean_term t)) eqn:E; simpl; [exact IH |].
  constructor; [| exact IH]. split.
  - intros H. rewrite H in E. discriminate.
  - apply keep_chars_all.
Qed.

(** The characters a tsquery text is made of. *)
Definition query_char (c : ascii) : bool :=
  kept c || Ascii.eqb c " " || Ascii.eqb c "&".

Lemma concat_chars (terms : list string) :
  Forall clean terms ->
  all_chars query_char (String.concat " & " terms) = true.
Proof.
  assert (Hk : forall t, all_chars kept t = true ->
                         all_chars query_char t = true).
  { intros t. apply all_chars_weaken. intros c H. unfold query_char.
    now rewrite H. }
  induction 1 as [|t terms [_ Ht] Hall IH]; [reflexivity |].
  simpl. destruct terms as [|t' terms]; [now apply Hk |].
  rewrite !all_chars_app, (Hk t Ht). simpl. exact IH.
Qed.

(** X9: the text [_build_tsquery] hands to [to_tsquery] is made only of
    alphanumeric characters, hyphens, underscores, spaces and ampersands,
    whatever the query holds. *)
Theorem build_tsquery_alphabet (query : string) :
  all_chars query_char (_build_tsquery query) = true.
Proof.
  unfold _build_tsquery.
  pose proof (cleaned_terms_clean query) as H.
  destruct (cleaned_terms query) as [|t terms]; [reflexivity |].
  now apply concat_chars.
Qed.

Lemma concat_nonempty (t : string) (terms : list string) :
  t <> EmptyString -> String.concat " & " (t :: terms) <> EmptyString.
Proof.
  intros Ht. simpl. destruct terms; [exact Ht |].
  destruct t; [now elim Ht | discriminate].
Qed.

(** X10: [_build_tsquery] returns the empty text exactly when no token of
    the query keeps a character. *)
Theorem build_tsquery_empty_iff (query : string) :
  _build_tsquery query = EmptyString
  <-> forall term, In term (Str.split (Str.strip query)) ->
                   clean_term term = EmptyString.
Proof.
  split; [| apply BM25Facts.build_tsquery_empty].
  unfold _build_tsquery.
  pose proof (cleaned_terms_clean query) as Hclean.
  destruct (cleaned_terms query) as [|t terms] eqn:E.
  - intros _ term Hterm.
    destruct (clean_term term) as [|c s] eqn:Et; [reflexivity |].
    assert (Hin : In (clean_term term) (cleaned_terms query)).
    { unfold cleaned_terms. apply filter_In. split.
      - now apply in_map.
      - now rewrite Et. }
    rewrite E in Hin. destruct Hin.
  - intros H. exfalso. inversion Hclean as [|? ? [Ht _] _]; subst.
    now apply (concat_nonempty t terms Ht).
Qed.

End TsqueryFacts.

Module BM25ResultFacts.

Import BM25Searcher.

Lemma sorted_app_order {A : Type} (R : A -> A -> Prop) (l1 l2 : list A) :
  StronglySorted R (l1 ++ l2) ->
  forall x y, In x l1 -> In y l2 -> R x y.
Proof.
  induction l1 as [|a l1 IH]; simpl; [tauto |].
  intros H x y [<- | Hx] Hy; inversion H; subst.
  - match goal with H : Forall _ _ |- _ => rewrite Forall_forall in H;
      apply H end.
    apply in_or_app. now right.
  - now apply IH.
Qed.

Section Results.
Variable tsquery : Type.
Variable to_tsquery : string -> option tsquery.
Variable ts_match : ChunkRow -> tsquery -> bool.
Variable ts_rank_cd : ChunkRow -> tsquery -> Q.
Variable chunks : list ChunkRow.

(** X11: [search] raises only when the server rejects the query text.
    Otherwise it returns at most [limit] results, built from rows of the
    table that match the query and pass the type filter, each tagged
    ["bm25"] with its rank as [bm25_score], in descending order of that
    score; and no matching row left out ranks above a returned one. *)
Theorem search_returns_top_matches (query : string) (limit : nat)
        (chunk_types : option (list string)) :
  match to_tsquery (_build_tsquery query) with
  | None =>
      search to_tsquery ts_match ts_rank_cd chunks query limit chunk_types
      = None
  | Some q =>
      exists rows,
        search to_tsquery ts_match ts_rank_cd chunks query limit chunk_types
        = Some (map (result_of_row ts_rank_cd q) rows)
        /\ (List.length rows <= limit)%nat
        /\ Forall (fun r => In r chunks
                            /\ ts_match r q = true
                            /\ type_allowed chunk_types r = true) rows
        /\ StronglySorted
             (fun a b => ts_rank_cd b q <= ts_rank_cd a q) rows
        /\ (forall r, In r chunks -> ts_match r q = true ->
                      type_allowed chunk_types r = true ->
                      In r rows
                      \/ forall kept, In kept rows ->
                                      ts_rank_cd r q <= ts_rank_cd kept q)
        /\ Forall (fun d => source d = "bm25"%string
                            /\ vector_score d = None
                            /\ exists s, bm25_score d = Some s)
                  (map (result_of_row ts_rank_cd q) rows)
  end.
Proof.
  unfold search. destruct (to_tsquery (_build_tsquery query)) as [q|];
    [| reflexivity].
  set (hits := filter (fun r => ts_match r q && type_allowed chunk_types r)
                      chunks).
  set (ordered := Py.sort_desc Qltb (fun r => ts_rank_cd r q) hits).
  assert (Hsorted : StronglySorted
                      (fun a b => ts_rank_cd b q <= ts_rank_cd a q) ordered).
  { eapply PyFacts.sorted_weaken;
      [| apply (PyFacts.sort_sorted _ _ Qltb (fun r => ts_rank_cd r q)
                  PyFacts.Qltb_asym PyFacts.Qgeb_trans)].
    intros a b H. now apply PyFacts.Qltb_false. }
  assert (Hhit : forall r, In r ordered
                           <-> In r chunks
                               /\ ts_match r q = true
                               /\ type_allowed chunk_types r = true).
  { intros r. unfold ordered, hits.
    rewrite PyFacts.sort_In, filter_In, andb_true_iff. tauto. }
  exists (firstn limit ordered). split; [reflexivity |].
  split; [apply firstn_le_length |]. split; [| split; [| split]].
  - apply Forall_forall. intros r Hr. apply Hhit.
    rewrite <- (firstn_skipn limit ordered). apply in_or_app. now left.
  - rewrite <- (firstn_skipn limit ordered) in Hsorted.
    eapply PyFacts.prefix_sorted; [| exact Hsorted].
    now exists (skipn limit ordered).
  - intros r Hc Hm Ht.
    assert (Hr : In r ordered) by now apply Hhit.
    rewrite <- (firstn_skipn limit ordered) in Hr, Hsorted.
    apply in_app_or in Hr. destruct Hr as [Hr | Hr]; [now left |].
    right. intros kept Hkept.
    apply (sorted_app_order _ _ _ Hsorted kept r Hkept Hr).
  - apply Forall_forall. intros d Hd. apply in_map_iff in Hd.
    destruct Hd as (r & <- & _). simpl. eauto.
Qed.
End Results.

End BM25ResultFacts.

Module TsqueryIdempotent.

Import BM25Searcher TsqueryFacts.
Local Open Scope string_scope.

Lemma kept_not_space (c : ascii) : kept c = true -> Str.isspace c = false.
Proof.
  destruct c as [[|] [|] [|] [|] [|] [|] [|] [|]];
    vm_compute; intros H; first [reflexivity | discriminate H].
Qed.

Lemma append_empty (s : string) : s ++ EmptyString = s.
Proof. induction s as [|c s IH]; simpl; [reflexivity | now rewrite IH]. Qed.

Lemma append_assoc (a b c : string) : (a ++ b) ++ c = a ++ (b ++ c).
Proof. induction a as [|x a IH]; simpl; [reflexivity | now rewrite IH]. Qed.

Lemma chars_of_append (a b : string) :
  list_ascii_of_string (a ++ b)
  = (list_ascii_of_string a ++ list_ascii_of_string b)%list.
Proof. induction a as [|x a IH]; simpl; [reflexivity | now rewrite IH]. Qed.

Lemma all_chars_In (p : ascii -> bool) (s : string) (c : ascii) :
  all_chars p s = true -> In c (list_ascii_of_string s) -> p c = true.
Proof.
  induction s as [|x s IH]; simpl; [tauto |].
  rewrite andb_true_iff. intros [Hx Hs] [<- | Hc]; auto.
Qed.

(** A text that begins and ends with a character that is not whitespace is
    its own [strip]. *)
Lemma strip_fixed (a t : string) (x : ascii) (s' : string) :
  a ++ t = String x s' -> Str.isspace x = false ->
  t <> EmptyString -> all_chars kept t = true ->
  Str.strip (a ++ t) = a ++ t.
Proof.
  intros Hhead Hx Ht Hkept. unfold Str.strip.
  rewrite Hhead. simpl Str.lstrip. rewrite Hx. rewrite <- Hhead.
  unfold Str.reverse at 2.
  rewrite chars_of_append, rev_app_distr.
  assert (Hrev : exists y M, rev (list_ascii_of_string t) = (y :: M)%list).
  { destruct t as [|c t']; [now elim Ht |]. simpl.
    destruct (rev (list_ascii_of_string t')); simpl; eauto. }
  destruct Hrev as (y & M & E). rewrite E.
  assert (Hy : Str.isspace y = false).
  { apply kept_not_space, (all_chars_In kept t y Hkept).
    apply in_rev. rewrite E. now left. }
  simpl. rewrite Hy. unfold Str.reverse.
  change (String y (string_of_list_ascii
                      (M ++ rev (list_ascii_of_string a))))
    with (string_of_list_ascii
            ((y :: M) ++ rev (list_ascii_of_string a))%list).
  rewrite list_ascii_of_string_of_list_ascii, <- E, <- rev_app_distr,
    rev_involutive, <- chars_of_append.
  apply string_of_list_ascii_of_string.
Qed.

Lemma split_from_term (t : string) :
  all_chars kept t = true ->
  forall cur rest,
    Str.split_from cur (t ++ rest) = Str.split_from (cur ++ t) rest.
Proof.
  induction t as [|c t IH]; intros Hk cur rest; simpl.
  - now rewrite append_empty.
  - simpl in Hk. apply andb_true_iff in Hk. destruct Hk as [Hc Ht].
    rewrite (kept_not_space c Hc), (IH Ht), append_assoc. reflexivity.
Qed.

(** The tokens of a built query: its terms with the ampersands between
    them. *)
Fixpoint with_ampersands (terms : list string) : list string :=
  match terms with
  | [] => []
  | [t] => [t]
  | t :: rest => t :: "&" :: with_ampersands rest
  end.

Lemma split_concat (terms : list string) :
  Forall clean terms ->
  Str.split_from EmptyString (String.concat " & " terms)
  = with_ampersands terms.
Proof.
  induction 1 as [|t terms [Hne Hk] Hall IH]; [reflexivity |].
  destruct terms as [|t2 more].
  - simpl. rewrite <- (append_empty t) at 1.
    rewrite (split_from_term t Hk). simpl.
    destruct t; [now elim Hne | reflexivity].
  - change (String.concat " & " (t :: t2 :: more))
      with (t ++ " & " ++ String.concat " & " (t2 :: more)).
    rewrite (split_from_term t Hk). simpl Str.split_from at 1.
    change (with_ampersands (t :: t2 :: more))
      with (t :: "&" :: with_ampersands (t2 :: more)).
    rewrite <- IH. destruct t; [now elim Hne | reflexivity].
Qed.

Lemma clean_with_ampersands (terms : list string) :
  Forall clean terms ->
  filter (fun term => negb (Str.is_empty term))
         (map clean_term (with_ampersands terms))
  = terms.
Proof.
  induction 1 as [|t terms [Hne Hk] Hall IH]; [reflexivity |].
  assert (Ht : clean_term t = t) by now apply keep_chars_fixed.
  assert (Hkeep : negb (Str.is_empty t) = true)
    by (destruct t; [now elim Hne | reflexivity]).
  destruct terms as [|t2 more].
  - simpl. now rewrite Ht, Hkeep.
  - change (with_ampersands (t :: t2 :: more))
      with (t :: "&" :: with_ampersands (t2 :: more)).
    cbn [map filter]. rewrite Ht, Hkeep.
    change (clean_term "&") with EmptyString. cbn [Str.is_empty negb].
    now rewrite IH.
Qed.

Lemma concat_splits (t : string) (terms : list string) :
  Forall clean (t :: terms) ->
  exists a last x s',
    String.concat " & " (t :: terms) = a ++ last
    /\ a ++ last = String x s' /\ Str.isspace x = false
    /\ last <> EmptyString /\ all_chars kept last = true.
Proof.
  revert t. induction terms as [|t2 more IH]; intros t Hall.
  - inversion Hall as [|? ? [Hne Hk] _]; subst.
    destruct t as [|x s']; [now elim Hne |].
    exists EmptyString, (String x s'), x, s'. simpl in *.
    apply andb_true_iff in Hk. destruct Hk as [Hx Hs].
    repeat split; try reflexivity; try discriminate.
    + now apply kept_not_space.
    + now rewrite Hx, Hs.
  - inversion Hall as [|? ? [Hne Hk] Hrest]; subst.
    destruct (IH t2 Hrest) as (a & last & _ & _ & Hcat & _ & _ & Hl & Hkl).
    destruct t as [|x s']; [now elim Hne |].
    exists (String x s' ++ " & " ++ a), last, x,
           (s' ++ " & " ++ a ++ last).
    simpl in Hk. apply andb_true_iff in Hk. destruct Hk as [Hx _].
    repeat split; try assumption.
    + change (String.concat " & " (String x s' :: t2 :: more))
        with (String x s' ++ " & " ++ String.concat " & " (t2 :: more)).
      rewrite Hcat. now rewrite !append_assoc.
    + now rewrite !append_assoc.
    + now apply kept_not_space.
Qed.

(** X12: [_build_tsquery] is idempotent: a text it built, given back as
    a query, comes out unchanged (the ampersands are dropped by the
    cleaning and put back by the join). *)
Theorem build_tsquery_idempotent (query : string) :
  _build_tsquery (_build_tsquery query) = _build_tsquery query.
Proof.
  unfold _build_tsquery at 2 3.
  pose proof (cleaned_terms_clean query) as Hclean.
  destruct (cleaned_terms query) as [|t terms]; [reflexivity |].
  assert (Hterms : cleaned_terms (String.concat " & " (t :: terms))
                   = t :: terms).
  { unfold cleaned_terms.
    destruct (concat_splits t terms Hclean)
      as (a & last & x & s' & Hcat & Hhead & Hx & Hl & Hk).
    rewrite Hcat, (strip_fixed a last x s' Hhead Hx Hl Hk), <- Hcat.
    unfold Str.split. rewrite (split_concat _ Hclean).
    now apply clean_with_ampersands. }
  unfold _build_tsquery. now rewrite Hterms.
Qed.

Example build_tsquery_twice :
  _build_tsquery (_build_tsquery "deep  learning (survey)")
  = "deep & learning & survey".
Proof. reflexivity. Qed.

End TsqueryIdempotent.

(* ------------------------------------------------------------------ *)
(** * Reranking: what comes back                                       *)
(* ------------------------------------------------------------------ *)

Module RerankResultFacts.

Import Reranker RerankFacts.
Local Open Scope R_scope.

Lemma take_length {A : Type} (n : Z) (l : list A) :
  (0 <= n)%Z ->
  List.length (Py.take n l) = Nat.min (Z.to_nat n) (List.length l).
Proof.
  intros H. rewrite PyFacts.take_nonneg by exact H. apply length_firstn.
Qed.

Lemma take_twice {A : Type} (n : Z) (l : list A) :
  (0 <= n)%Z -> Py.take n (Py.take (n * 2) l) = Py.take n l.
Proof.
  intros H. rewrite !PyFacts.take_nonneg by lia.
  rewrite firstn_firstn. f_equal. lia.
Qed.

Lemma ranking_length (predict : string -> string -> R) (query : string)
      (documents : list Doc) :
  List.length (ranking predict query documents) = List.length documents.
Proof. unfold ranking. now rewrite PyFacts.sort_length, length_map. Qed.

Lemma ranking_In (predict : string -> string -> R) (query : string)
      (documents : list Doc) (d : Doc) :
  In d (ranking predict query documents)
  <-> exists doc, In doc documents
                  /\ d = with_rerank_score doc (predict query (content doc)).
Proof.
  unfold ranking. rewrite PyFacts.sort_In, in_map_iff.
  split; intros (doc & H1 & H2); exists doc; auto.
Qed.

Lemma prefix_NoDup {A : Type} (p l : list A) :
  prefix_of p l -> NoDup l -> NoDup p.
Proof. intros [r ->]. apply NoDup_app_remove_r. Qed.

(** X13: for [top_k >= 0] the cross-encoder backend returns
    [min(top_k, n)] documents.  Each is an input document with the model's
    score for (query, content) as its [rerank_score]; they are in
    descending order of that score, and no input document left out scores
    above a returned one. *)
Theorem rerank_local_top_k (predict : string -> string -> R)
        (query : string) (documents : list Doc) (top_k : Z) :
  (0 <= top_k)%Z ->
  exists out,
    rerank (local predict) query documents top_k = Some out
    /\ List.length out
       = Nat.min (Z.to_nat top_k) (List.length documents)
    /\ (forall d, In d out ->
          exists doc, In doc documents
                      /\ d = with_rerank_score
                               doc (predict query (content doc)))
    /\ StronglySorted (desc_R rerank_key) out
    /\ (forall doc, In doc documents ->
          In (with_rerank_score doc (predict query (content doc))) out
          \/ forall d, In d out ->
                       predict query (content doc) <= rerank_key d).
Proof.
  intros Hk. rewrite rerank_local. eexists. split; [reflexivity |].
  pose proof (PyFacts.take_prefix top_k (ranking predict query documents))
    as Hpre.
  pose proof (PyFacts.sort_desc_R rerank_key
                (map (fun doc =>
                        with_rerank_score doc (predict query (content doc)))
                     documents)) as Hsorted.
  fold (ranking predict query documents) in Hsorted.
  split; [| split; [| split]].
  - now rewrite take_length, ranking_length.
  - intros d Hd. apply ranking_In. now apply (PyFacts.prefix_incl _ _ Hpre).
  - now apply (PyFacts.prefix_sorted _ _ _ Hpre).
  - intros doc Hdoc.
    assert (Hin : In (with_rerank_score doc (predict query (content doc)))
                     (ranking predict query documents)).
    { apply ranking_In. now exists doc. }
    destruct Hpre as [rest Hrest]. rewrite Hrest in Hin, Hsorted.
    apply in_app_or in Hin. destruct Hin as [Hin | Hin]; [now left |].
    right. intros d Hd.
    apply (BM25ResultFacts.sorted_app_order _ _ _ Hsorted d _ Hd Hin).
Qed.

Lemma rerank_local_top_k_witness :
  exists out,
    rerank (local Samples.grade) "q" Samples.graded_trio 2 = Some out
    /\ List.length out
       = Nat.min (Z.to_nat 2) (List.length Samples.graded_trio)
    /\ (forall d, In d out ->
          exists doc, In doc Samples.graded_trio
                      /\ d = with_rerank_score
                               doc (Samples.grade "q" (content doc)))
    /\ StronglySorted (desc_R rerank_key) out
    /\ (forall doc, In doc Samples.graded_trio ->
          In (with_rerank_score doc (Samples.grade "q" (content doc))) out
          \/ forall d, In d out ->
                       Samples.grade "q" (content doc) <= rerank_key d).
Proof.
  apply (rerank_local_top_k Samples.grade "q" Samples.graded_trio 2). lia.
Defined.

(** X14: without boosts ([None] or an empty mapping) and with
    [top_k >= 0], [rerank_with_metadata] returns what [rerank] returns for
    the same [top_k], for the cross-encoder backend and for the
    pass-through one: asking for [2 * top_k] first changes nothing. *)
Theorem rerank_with_metadata_without_boosts
        (predict : string -> string -> R) (query : string)
        (documents : list Doc) (top_k : Z)
        (boost_fields : option (Py.dict R)) :
  (0 <= top_k)%Z ->
  boost_fields = None \/ boost_fields = Some [] ->
  rerank_with_metadata (local predict) query documents top_k boost_fields
  = rerank (local predict) query documents top_k
  /\ rerank_with_metadata openai query documents top_k boost_fields
     = rerank openai query documents top_k.
Proof.
  intros Hk Hb. split.
  - rewrite (rerank_with_metadata_local_plain _ _ _ _ _ Hb), rerank_local.
    now rewrite take_twice.
  - unfold rerank_with_metadata, rerank, _rerank_openai.
    destruct documents as [|d l].
    + destruct Hb as [-> | ->]; unfold Py.take;
        destruct (0 <=? top_k)%Z; simpl; try rewrite firstn_nil; reflexivity.
    + destruct Hb as [-> | ->]; now rewrite take_twice.
Qed.

Lemma rerank_with_metadata_without_boosts_witness :
  rerank_with_metadata (local Samples.grade) "q" Samples.graded_trio 2 None
  = rerank (local Samples.grade) "q" Samples.graded_trio 2
  /\ rerank_with_metadata openai "q" Samples.graded_trio 2 None
     = rerank openai "q" Samples.graded_trio 2.
Proof.
  apply (rerank_with_metadata_without_boosts
           Samples.grade "q" Samples.graded_trio 2 None);
    [lia | now left].
Defined.

Lemma log1p_nonneg (c : nat) : 0 <= log1p c.
Proof.
  unfold log1p. pose proof (pos_INR c) as Hc.
  destruct (Req_dec (INR c) 0) as [-> | Hne].
  - rewrite Rplus_0_r, ln_1. lra.
  - rewrite <- ln_1. left. apply ln_increasing; lra.
Qed.

(** X15: when every boost weight is non-negative and the publication
    year, if present, is 2000 or later, no boost term is negative: the
    [final_score] of a document is at least its [rerank_score]. *)
Theorem boosts_never_lower_score (fields : Py.dict R) (doc : Doc) :
  (forall key w, Py.get fields key = Some w -> 0 <= w) ->
  (forall y, pub_year (metadata doc) = Some y -> (2000 <= y)%Z) ->
  0 <= boost_score fields (metadata doc)
  /\ rerank_key doc <= final_key (apply_boost fields doc).
Proof.
  intros Hw Hy.
  assert (Hc : 0 <= citation_boost fields (metadata doc)).
  { unfold citation_boost.
    destruct (Py.get fields "citations_count") as [w|] eqn:E; [| lra].
    specialize (Hw _ _ E).
    pose proof (log1p_nonneg
                  (match citations_count (metadata doc) with
                   | Some c => c
                   | None => 0%nat
                   end)) as Hl.
    unfold Rdiv. apply Rmult_le_pos; [now apply Rmult_le_pos | lra]. }
  assert (Ho : 0 <= open_access_boost fields (metadata doc)).
  { unfold open_access_boost.
    destruct (Py.get fields "is_open_access") as [w|] eqn:E; [| lra].
    specialize (Hw _ _ E).
    destruct (is_open_access (metadata doc)) as [[|]|]; lra. }
  assert (Hyr : 0 <= year_boost fields (metadata doc)).
  { unfold year_boost, year_score.
    destruct (Py.get fields "publication_year") as [w|] eqn:E; [| lra].
    specialize (Hw _ _ E).
    apply Rmult_le_pos; [exact Hw |].
    destruct (pub_year (metadata doc)) as [y|] eqn:Ey.
    - specialize (Hy y eq_refl). apply IZR_le in Hy. lra.
    - lra. }
  assert (Hb : 0 <= boost_score fields (metadata doc)).
  { unfold boost_score. lra. }
  split; [exact Hb |]. rewrite apply_boost_final.
  unfold boost_score in Hb. lra.
Qed.

Lemma boosts_never_lower_score_witness :
  0 <= boost_score HybridSearchEngine.search_boosts
                   (metadata (Samples.published 2010))
  /\ rerank_key (Samples.published 2010)
     <= final_key (apply_boost HybridSearchEngine.search_boosts
                               (Samples.published 2010)).
Proof.
  apply (boosts_never_lower_score HybridSearchEngine.search_boosts
                                  (Samples.published 2010)).
  - intros key w. cbv [HybridSearchEngine.search_boosts Py.get].
    repeat (match goal with
            | |- context [String.eqb ?a ?b] => destruct (String.eqb a b)
            end;
            [intros [= <-]; lra |]).
    discriminate.
  - simpl. intros y [= <-]. lia.
Defined.


(** The shape of what the cross-encoder backend returns with boosts. *)
Lemma boosted_results (predict : string -> string -> R)
      (query : string) (documents : list Doc) (top_k : Z)
      (field : string * R) (fields : Py.dict R) :
  (0 <= top_k)%Z ->
  exists out,
    rerank_with_metadata (local predict) query documents top_k
                         (Some (field :: fields)) = Some out
    /\ List.length out
       = Nat.min (Z.to_nat top_k) (List.length documents)
    /\ (forall d, In d out ->
          exists doc,
            In doc documents
            /\ d = apply_boost (field :: fields)
                     (with_rerank_score doc (predict query (content doc))))
    /\ (NoDup (ids documents) -> NoDup (ids out))
    /\ StronglySorted (desc_R final_key) out.
Proof.
  intros Hk. rewrite rerank_with_metadata_local.
  eexists. split; [reflexivity |].
  set (window := Py.take (top_k * 2) (ranking predict query documents)).
  set (boosted := map (apply_boost (field :: fields)) window).
  pose proof (PyFacts.take_prefix top_k
                (Py.sort_desc Rltb final_key boosted)) as Hpre.
  split; [| split; [| split]].
  - rewrite take_length, PyFacts.sort_length by exact Hk.
    unfold boosted, window.
    rewrite length_map, take_length, ranking_length by lia. lia.
  - intros d Hd. apply (PyFacts.prefix_incl _ _ Hpre) in Hd.
    apply PyFacts.sort_In in Hd. unfold boosted in Hd.
    apply in_map_iff in Hd. destruct Hd as (r & <- & Hr).
    apply (PyFacts.prefix_incl _ _ (PyFacts.take_prefix _ _)) in Hr.
    apply ranking_In in Hr. destruct Hr as (doc & Hdoc & ->).
    exists doc. now split.
  - intros Hnd.
    apply (prefix_NoDup _ _ (PyFacts.prefix_map chunk_id _ _ Hpre)).
    eapply Permutation_NoDup;
      [apply Permutation_sym, Permutation_map, PyFacts.sort_perm |].
    unfold boosted. rewrite map_map. simpl.
    apply (prefix_NoDup _ (ids (ranking predict query documents))).
    + apply PyFacts.prefix_map, PyFacts.take_prefix.
    + eapply Permutation_NoDup;
        [apply Permutation_sym, ranking_ids | exact Hnd].
  - apply (PyFacts.prefix_sorted _ _ _ Hpre), PyFacts.sort_desc_R.
Qed.

(** X17: with boosts and [top_k >= 0] the cross-encoder backend returns
    [min(top_k, n)] documents; each stems from an input document, carries
    the model's score as [rerank_score] and that score plus the boost of
    its metadata as [final_score]; chunk ids that were distinct in the
    input stay distinct. *)
Theorem rerank_with_metadata_results (predict : string -> string -> R)
        (query : string) (documents : list Doc) (top_k : Z)
        (field : string * R) (fields : Py.dict R) :
  (0 <= top_k)%Z ->
  exists out,
    rerank_with_metadata (local predict) query documents top_k
                         (Some (field :: fields)) = Some out
    /\ List.length out
       = Nat.min (Z.to_nat top_k) (List.length documents)
    /\ (forall d, In d out ->
          exists doc,
            In doc documents
            /\ chunk_id d = chunk_id doc
            /\ rerank_score d = Some (predict query (content doc))
            /\ final_score d
               = Some (predict query (content doc)
                       + boost_score (field :: fields) (metadata doc)))
    /\ (NoDup (ids documents) -> NoDup (ids out)).
Proof.
  intros Hk.
  destruct (boosted_results predict query documents top_k field fields Hk)
    as (out & Hrun & Hlen & Hfrom & Hnd & _).
  exists out. split; [exact Hrun |]. split; [exact Hlen |].
  split; [| exact Hnd].
  intros d Hd. destruct (Hfrom d Hd) as (doc & Hdoc & ->).
  exists doc. repeat split; auto.
Qed.

Lemma rerank_with_metadata_results_witness :
  exists out,
    rerank_with_metadata (local Samples.grade) "q" Samples.graded_trio 2
                         (Some Samples.open_access_heavy) = Some out
    /\ List.length out
       = Nat.min (Z.to_nat 2) (List.length Samples.graded_trio)
    /\ (forall d, In d out ->
          exists doc,
            In doc Samples.graded_trio
            /\ chunk_id d = chunk_id doc
            /\ rerank_score d = Some (Samples.grade "q" (content doc))
            /\ final_score d
               = Some (Samples.grade "q" (content doc)
                       + boost_score Samples.open_access_heavy
                                     (metadata doc)))
    /\ (NoDup (ids Samples.graded_trio) -> NoDup (ids out)).
Proof.
  apply (rerank_with_metadata_results
           Samples.grade "q" Samples.graded_trio 2
           ("is_open_access"%string, 100) []).
  lia.
Defined.

End RerankResultFacts.

(* ------------------------------------------------------------------ *)
(** * Formatted results: numbering, truncation, preview                *)
(* ------------------------------------------------------------------ *)

Module FormatFacts.

Import CitationFormatter.

Lemma format_from_numbers (idx : nat) (results : list Doc) :
  map citation_id (format_from idx results)
  = seq idx (List.length results).
Proof.
  revert idx. induction results as [|r l IH]; intros idx; simpl;
    [reflexivity | now rewrite IH].
Qed.

Lemma format_from_contents (idx : nat) (results : list Doc) :
  map content_full (format_from idx results) = map content results.
Proof.
  revert idx. induction results as [|r l IH]; intros idx; simpl;
    [reflexivity | now rewrite IH].
Qed.

(** X18: for [max_citations >= 0], [create_answer_with_citations] cites
    the first [max_citations] results, in order, numbered 1, 2, ...; it
    reports the number of all results as [total_results] and the number
    cited, [min(max_citations, n)], as [shown_citations]. *)
Theorem answer_cites_leading_results (results : list Doc)
        (max_citations : Z) :
  (0 <= max_citations)%Z ->
  let answer := create_answer_with_citations results max_citations in
  let shown := Nat.min (Z.to_nat max_citations) (List.length results) in
  map cited_chunk_id (answer_citations answer)
  = ids (firstn (Z.to_nat max_citations) results)
  /\ map citation_id (answer_citations answer) = seq 1 shown
  /\ map content_full (answer_citations answer)
     = map content (firstn (Z.to_nat max_citations) results)
  /\ shown_citations answer = shown
  /\ answer_total_results answer = List.length results.
Proof.
  intros Hk answer shown. unfold answer, create_answer_with_citations.
  simpl. unfold format_results.
  rewrite (PyFacts.take_nonneg max_citations results Hk).
  repeat split.
  - apply EngineFacts.format_from_ids.
  - rewrite format_from_numbers. now rewrite length_firstn.
  - apply format_from_contents.
  - apply length_firstn.
Qed.

Lemma answer_cites_leading_results_witness :
  let answer := create_answer_with_citations Samples.lexical_list 2 in
  let shown :=
    Nat.min (Z.to_nat 2) (List.length Samples.lexical_list) in
  map cited_chunk_id (answer_citations answer)
  = ids (firstn (Z.to_nat 2) Samples.lexical_list)
  /\ map citation_id (answer_citations answer) = seq 1 shown
  /\ map content_full (answer_citations answer)
     = map content (firstn (Z.to_nat 2) Samples.lexical_list)
  /\ shown_citations answer = shown
  /\ answer_total_results answer = List.length Samples.lexical_list.
Proof.
  apply (answer_cites_leading_results Samples.lexical_list 2). lia.
Defined.

Lemma str_take_length (n : nat) (s : string) :
  String.length (Str.take n s) = Nat.min n (String.length s).
Proof.
  revert s. induction n as [|n IH]; intros [|c s]; simpl; try reflexivity.
  now rewrite IH.
Qed.

Lemma take_splits (n : nat) (s : string) :
  exists rest, s = (Str.take n s ++ rest)%string.
Proof.
  revert s. induction n as [|n IH]; intros s.
  - exists s. now destruct s.
  - destruct s as [|c s]; [now exists EmptyString |].
    destruct (IH s) as [rest Hrest]. exists rest. simpl. now rewrite <- Hrest.
Qed.

Lemma length_append (a b : string) :
  String.length (a ++ b) = (String.length a + String.length b)%nat.
Proof. induction a as [|c a IH]; simpl; [reflexivity | now rewrite IH]. Qed.

(** X19: the content preview is never longer than 503 characters.  A
    content of at most 500 characters is its own preview; a longer one is
    cut to its first 500 characters, followed by three dots. *)
Theorem content_preview_bounded (content : string) :
  (String.length (content_preview content) <= 503)%nat
  /\ ((String.length content <= 500)%nat ->
      content_preview content = content)
  /\ ((500 < String.length content)%nat ->
      exists head rest,
        content = (head ++ rest)%string
        /\ String.length head = 500%nat
        /\ content_preview content = (head ++ "...")%string).
Proof.
  unfold content_preview.
  destruct (Nat.ltb_spec 500 (String.length content)) as [Hlong | Hshort].
  - split; [| split].
    + rewrite length_append, str_take_length. simpl String.length. lia.
    + lia.
    + intros _. destruct (take_splits 500 content) as [rest Hrest].
      exists (Str.take 500 content), rest.
      split; [exact Hrest |]. split; [| reflexivity].
      rewrite str_take_length. lia.
  - split; [lia |]. split; [reflexivity | lia].
Qed.

End FormatFacts.

(* ------------------------------------------------------------------ *)
(** * Cosine similarity: symmetry and range                            *)
(* ------------------------------------------------------------------ *)

Module CosineRange.

Import VectorSearcher CosineFacts.
Local Open Scope R_scope.

Definition sum_squares (vec : list R) : R :=
  fold_right (fun x s => x * x + s) 0 vec.

Lemma sum_squares_nonneg (vec : list R) : 0 <= sum_squares vec.
Proof.
  induction vec as [|x v IH]; simpl; [lra |].
  pose proof (Rle_0_sqr x) as Hx. unfold Rsqr in Hx. lra.
Qed.

Lemma norm_nonneg (vec : list R) : 0 <= norm vec.
Proof. apply sqrt_pos. Qed.

Lemma norm_squared (vec : list R) : norm vec * norm vec = sum_squares vec.
Proof. apply sqrt_sqrt, sum_squares_nonneg. Qed.

Lemma dot_comm (vec1 vec2 : list R) : dot vec1 vec2 = dot vec2 vec1.
Proof.
  revert vec2. induction vec1 as [|x v1 IH]; intros [|y v2]; simpl;
    try reflexivity.
  rewrite IH. destruct (dot v2 v1); [| reflexivity].
  f_equal. ring.
Qed.

Lemma dot_self (vec : list R) : dot vec vec = Some (sum_squares vec).
Proof.
  induction vec as [|x v IH]; simpl; [reflexivity | now rewrite IH].
Qed.

(** X20: the cosine helper is symmetric in its two arguments, whatever
    it does with them. *)
Theorem cosine_similarity_symmetric (vec1 vec2 : list R) :
  _fast_cosine_similarity vec1 vec2 = _fast_cosine_similarity vec2 vec1
  /\ _cosine_similarity vec1 vec2 = _cosine_similarity vec2 vec1.
Proof.
  change (_cosine_similarity vec1 vec2)
    with (_fast_cosine_similarity vec1 vec2).
  change (_cosine_similarity vec2 vec1)
    with (_fast_cosine_similarity vec2 vec1).
  assert (H : _fast_cosine_similarity vec1 vec2
              = _fast_cosine_similarity vec2 vec1); [| now split].
  destruct (dot vec1 vec2) as [s|] eqn:E.
  - rewrite (fast_cosine_value vec1 vec2 s E).
    rewrite dot_comm in E. rewrite (fast_cosine_value vec2 vec1 s E).
    destruct (Req_dec_T (norm vec1) 0), (Req_dec_T (norm vec2) 0);
      try reflexivity.
    now rewrite (Rmult_comm (norm vec1)).
  - unfold _fast_cosine_similarity. rewrite E.
    rewrite dot_comm in E. now rewrite E.
Qed.

(** The Cauchy-Schwarz inequality for [dot]. *)
Lemma dot_squared_bound (vec1 vec2 : list R) (s : R) :
  dot vec1 vec2 = Some s -> s * s <= sum_squares vec1 * sum_squares vec2.
Proof.
  revert vec2 s. induction vec1 as [|x v1 IH]; intros [|y v2] s; simpl;
    try discriminate.
  - intros [= <-]. lra.
  - destruct (dot v1 v2) as [t|] eqn:E; [| discriminate].
    intros [= <-]. specialize (IH v2 t E).
    pose proof (sum_squares_nonneg v1) as HA.
    pose proof (sum_squares_nonneg v2) as HB.
    fold (sum_squares v1). fold (sum_squares v2).
    set (A := sum_squares v1) in *. set (B := sum_squares v2) in *.
    assert (Hcross : 2 * (x * y * t) <= x * x * B + y * y * A).
    { destruct (Rle_lt_dec (2 * (x * y * t)) (x * x * B + y * y * A))
        as [H | H]; [exact H | exfalso].
      assert (Hu : 0 <= x * x * B + y * y * A).
      { pose proof (Rle_0_sqr x) as Hx. pose proof (Rle_0_sqr y) as Hy.
        unfold Rsqr in *. nra. }
      assert (H1 : (x * x * B + y * y * A) * (x * x * B + y * y * A)
                   < (2 * (x * y * t)) * (2 * (x * y * t))) by nra.
      assert (H2 : 0 <= (x * x * B - y * y * A) * (x * x * B - y * y * A)).
      { pose proof (Rle_0_sqr (x * x * B - y * y * A)) as Hs.
        now unfold Rsqr in Hs. }
      assert (H3 : (x * y) * (x * y) * (t * t) <= (x * y) * (x * y) * (A * B)).
      { apply Rmult_le_compat_l; [| exact IH].
        pose proof (Rle_0_sqr (x * y)) as Hs. now unfold Rsqr in Hs. }
      nra. }
    nra.
Qed.

Lemma abs_le_of_squares (s n : R) : 0 <= n -> s * s <= n * n -> - n <= s <= n.
Proof. intros Hn Hs. split; nra. Qed.

Lemma fast_cosine_range (vec1 vec2 : list R) :
  List.length vec1 = List.length vec2 ->
  exists r, _fast_cosine_similarity vec1 vec2 = Returns r /\ -1 <= r <= 1.
Proof.
  intros Hlen. destruct (dot_defined vec1 vec2 Hlen) as [s Hs].
  rewrite (fast_cosine_value vec1 vec2 s Hs). eexists.
  split; [reflexivity |].
  destruct (Req_dec_T (norm vec1) 0) as [|N1]; [lra |].
  destruct (Req_dec_T (norm vec2) 0) as [|N2]; [lra |].
  pose proof (norm_nonneg vec1) as P1. pose proof (norm_nonneg vec2) as P2.
  assert (Hpos : 0 < norm vec1 * norm vec2) by (apply Rmult_lt_0_compat; lra).
  pose proof (dot_squared_bound vec1 vec2 s Hs) as Hcs.
  rewrite <- (norm_squared vec1), <- (norm_squared vec2) in Hcs.
  destruct (abs_le_of_squares s (norm vec1 * norm vec2)) as [Hlo Hhi];
    [lra | nra |].
  split.
  - apply Rmult_le_reg_r with (norm vec1 * norm vec2); [exact Hpos |].
    unfold Rdiv. rewrite Rmult_assoc, Rinv_l by lra. lra.
  - apply Rmult_le_reg_r with (norm vec1 * norm vec2); [exact Hpos |].
    unfold Rdiv. rewrite Rmult_assoc, Rinv_l by lra. lra.
Qed.

(** X21: on two vectors of the same length the cosine helper returns a
    value between -1 and 1. *)
Theorem cosine_similarity_in_unit_range (vec1 vec2 : list R) :
  List.length vec1 = List.length vec2 ->
  exists r, _fast_cosine_similarity vec1 vec2 = Returns r
            /\ _cosine_similarity vec1 vec2 = Returns r
            /\ -1 <= r <= 1.
Proof.
  intros Hlen. destruct (fast_cosine_range vec1 vec2 Hlen) as (r & Hr & Hb).
  exists r. now repeat split.
Qed.

Lemma cosine_similarity_in_unit_range_witness :
  exists r, _fast_cosine_similarity [1; 2] [3; 4] = Returns r
            /\ _cosine_similarity [1; 2] [3; 4] = Returns r
            /\ -1 <= r <= 1.
Proof.
  apply (cosine_similarity_in_unit_range [1; 2] [3; 4]). reflexivity.
Defined.

(** X22: a vector whose norm is not zero has similarity 1 with itself. *)
Theorem cosine_similarity_of_self (vec : list R) :
  norm vec <> 0 ->
  _fast_cosine_similarity vec vec = Returns 1
  /\ _cosine_similarity vec vec = Returns 1.
Proof.
  intros Hn.
  change (_cosine_similarity vec vec) with (_fast_cosine_similarity vec vec).
  rewrite (fast_cosine_value vec vec _ (dot_self vec)).
  destruct (Req_dec_T (norm vec) 0) as [E | _]; [contradiction |].
  rewrite <- norm_squared. split; f_equal; field; exact Hn.
Qed.

Lemma cosine_similarity_of_self_witness :
  _fast_cosine_similarity [3; 4] [3; 4] = Returns 1
  /\ _cosine_similarity [3; 4] [3; 4] = Returns 1.
Proof.
  apply (cosine_similarity_of_self [3; 4]).
  unfold norm. simpl. intros H.
  apply sqrt_eq_0 in H; lra.
Defined.

End CosineRange.

(* ------------------------------------------------------------------ *)
(** * The NumPy search path                                            *)
(* ------------------------------------------------------------------ *)

Module NumpySearchFacts.

Import VectorSearcher.
Local Open Scope R_scope.

Lemma Rleb_true (a b : R) : Rleb a b = true <-> a <= b.
Proof. unfold Rleb. destruct (Rle_dec a b); split; intros; easy. Qed.

(** What holds of a candidate the loop produced from [rows]. *)
Definition scored_from (query_vec : list R) (threshold : R)
           (rows : list embedded) (h : hit) : Prop :=
  threshold <= hit_vector_score h
  /\ -1 <= hit_vector_score h <= 1
  /\ hit_source h = "vector"%string
  /\ exists row, In row rows
                 /\ chunk row = hit_row h
                 /\ _fast_cosine_similarity query_vec (vector row)
                    = Returns (hit_vector_score h).

Lemma scan_rows_scores (query_vec : list R) (threshold : R)
      (rows : list embedded) :
  (forall row, In row rows ->
               List.length (vector row) = List.length query_vec) ->
  exists candidates,
    scan_rows query_vec threshold rows = Some candidates
    /\ Forall (scored_from query_vec threshold rows) candidates.
Proof.
  induction rows as [|row rows IH]; intros Hdim; simpl.
  - exists []. split; [reflexivity | constructor].
  - destruct (CosineRange.fast_cosine_range query_vec (vector row))
      as (r & Hr & Hrange).
    { symmetry. apply Hdim. now left. }
    destruct IH as (cands & Hrun & Hall).
    { intros row' H. apply Hdim. now right. }
    rewrite Hr, Hrun. eexists. split; [reflexivity |].
    assert (Hall' : Forall (scored_from query_vec threshold (row :: rows))
                           cands).
    { eapply Forall_impl; [| exact Hall].
      intros h (H1 & H2 & H3 & row' & Hin & H4 & H5).
      split; [exact H1 |]. split; [exact H2 |]. split; [exact H3 |].
      exists row'. simpl. auto. }
    destruct (Rleb threshold r) eqn:E; [| exact Hall'].
    constructor; [| exact Hall'].
    apply Rleb_true in E.
    split; [exact E |]. split; [exact Hrange |]. split; [reflexivity |].
    exists row. simpl. auto.
Qed.

(** X23: without an embedding generator the NumPy path raises
    [ValueError].  With one, when every stored vector of the selected
    chunk types has the dimension of the query embedding and
    [limit >= 0], it returns at most [limit] results, in descending order
    of [vector_score]; each is tagged ["vector"], comes from a stored row
    of an allowed chunk type, and its score is the cosine similarity of
    that row with the query, at least the threshold; over real
    arithmetic the score lies within [-1, 1] (the float the code computes
    can exceed 1 by a rounding error). *)
Theorem numpy_search_results (generate : string -> list R)
        (rows : list embedded) (query : string) (limit : Z)
        (chunk_types : option (list string)) (threshold : R) :
  (forall row, In row rows ->
               BM25Searcher.type_allowed chunk_types (chunk row) = true ->
               List.length (vector row) = List.length (generate query)) ->
  (0 <= limit)%Z ->
  _search_with_numpy None rows query limit chunk_types threshold
  = ValueError
  /\ exists results,
       _search_with_numpy (Some generate) rows query limit chunk_types
                          threshold = Results results
       /\ (Z.of_nat (List.length results) <= limit)%Z
       /\ StronglySorted
            (fun a b => hit_vector_score b <= hit_vector_score a) results
       /\ Forall (fun h =>
                    scored_from (generate query) threshold rows h
                    /\ BM25Searcher.type_allowed chunk_types (hit_row h)
                       = true)
                 results.
Proof.
  intros Hdim Hlimit. split; [reflexivity |].
  unfold _search_with_numpy.
  set (selected := filter (fun row =>
                             BM25Searcher.type_allowed chunk_types (chunk row))
                          rows).
  destruct (scan_rows_scores (generate query) threshold selected)
    as (cands & Hrun & Hall).
  { intros row Hrow. apply filter_In in Hrow. now apply Hdim. }
  rewrite Hrun. eexists. split; [reflexivity |].
  pose proof (PyFacts.take_prefix limit
                (Py.sort_desc Rltb hit_vector_score cands)) as Hpre.
  split; [| split].
  - rewrite PyFacts.take_nonneg by exact Hlimit.
    rewrite length_firstn. lia.
  - apply (PyFacts.prefix_sorted _ _ _ Hpre).
    eapply PyFacts.sorted_weaken;
      [| apply (PyFacts.sort_sorted _ _ Rltb hit_vector_score
                  PyFacts.Rltb_asym PyFacts.Rgeb_trans)].
    intros a b H. now apply PyFacts.Rltb_false.
  - apply Forall_forall. intros h Hh.
    apply (PyFacts.prefix_incl _ _ Hpre), PyFacts.sort_In in Hh.
    rewrite Forall_forall in Hall.
    destruct (Hall h Hh) as (H1 & H2 & H3 & row & Hrow & H4 & H5).
    apply filter_In in Hrow. destruct Hrow as [Hrow Htype].
    split; [| now rewrite <- H4].
    split; [exact H1 |]. split; [exact H2 |]. split; [exact H3 |].
    now exists row.
Qed.

Definition unit_rows : list embedded :=
  map (fun r => {| chunk := r; vector := [1; 0] |}) Samples.toy_chunks.

Lemma numpy_search_results_witness :
  _search_with_numpy None unit_rows "q" 5 None 0 = ValueError
  /\ exists results,
       _search_with_numpy (Some (fun _ => [1; 1])) unit_rows "q" 5 None 0
       = Results results
       /\ (Z.of_nat (List.length results) <= 5)%Z
       /\ StronglySorted
            (fun a b => hit_vector_score b <= hit_vector_score a) results
       /\ Forall (fun h =>
                    scored_from [1; 1] 0 unit_rows h
                    /\ BM25Searcher.type_allowed None (hit_row h) = true)
                 results.
Proof.
  apply (numpy_search_results (fun _ => [1; 1]) unit_rows "q" 5 None 0).
  - intros row [<- | []] _. reflexivity.
  - lia.
Defined.

End NumpySearchFacts.

(* ------------------------------------------------------------------ *)
(** * The engine: what a response cites                                *)
(* ------------------------------------------------------------------ *)

Module EngineResultFacts.

Import HybridSearchEngine CitationFormatter Samples.

Lemma take_take_same {A : Type} (n : Z) (l : list A) :
  (0 <= n)%Z -> Py.take n (Py.take n l) = Py.take n l.
Proof.
  intros H. rewrite !PyFacts.take_nonneg by exact H.
  rewrite firstn_firstn. f_equal. lia.
Qed.

(** Descending order of the [final] score two citations report. *)
Definition by_final (c1 c2 : formatted) : Prop :=
  (final (scores c2) <= final (scores c1))%R.

Lemma format_from_by_final (idx : nat) (results : list Doc) :
  Forall (fun d => final_score d <> None) results ->
  StronglySorted (desc_R Reranker.final_key) results ->
  StronglySorted by_final (format_from idx results).
Proof.
  intros Hfinal H. revert idx.
  induction H as [|r l Hs IH Hall]; intros idx; simpl.
  - constructor.
  - inversion Hfinal as [|? ? Hr Hl]; subst.
    constructor; [now apply IH |].
    rewrite Forall_forall in *. intros c Hc.
    destruct (EngineFacts.format_from_In _ _ _ Hc) as (r' & Hr' & E).
    specialize (Hall r' Hr'). specialize (Hl r' Hr').
    unfold by_final. rewrite E. unfold desc_R, Reranker.final_key in Hall.
    simpl. destruct (final_score r'); [| now elim Hl].
    destruct (final_score r); [exact Hall | now elim Hr].
Qed.

Section Reranked.
Variable bm25_search : string -> nat -> option (list string)
                       -> option (list Doc).
Variable vector_search : string -> nat -> option (list string)
                         -> option (list Doc).

(** X24: with a cross-encoder reranker, both searchers answering and
    [top_k >= 0], [search] answers with [min(top_k, 80, n)] citations, [n]
    being the number of fused candidates, which it reports as
    [total_results].  No chunk is cited twice, every cited chunk was
    returned by one of the searchers, and the citations are in descending
    order of the [final] score they report. *)
Theorem search_with_reranker (predict : string -> string -> R)
        (query : string) (top_k : Z) (chunk_types : option (list string))
        (filters : option (Py.dict filter_value)) (A B : list Doc) :
  bm25_search query 50%nat chunk_types = Some A ->
  vector_search query 50%nat chunk_types = Some B ->
  (0 <= top_k)%Z ->
  exists fused resp,
    HybridFusion.reciprocal_rank_fusion [A; B] 60 = Some fused /\
    search bm25_search vector_search
           (init true (Some (Reranker.local predict))) query top_k
           chunk_types filters = Some resp /\
    reranked_flag resp = true /\
    total_results resp = List.length fused /\
    List.length (citations resp)
    = Nat.min (Z.to_nat top_k) (Nat.min 80 (List.length fused)) /\
    returned_results resp = List.length (citations resp) /\
    NoDup (map cited_chunk_id (citations resp)) /\
    (forall c, In c (map cited_chunk_id (citations resp)) ->
               In c (ids A) \/ In c (ids B)) /\
    StronglySorted by_final (citations resp).
Proof.
  intros HA HB Hk.
  destruct (FusionCorrect.fusion_run [A; B] 60 ltac:(lia))
    as (fused & Hrun & Hnd & Hmem & _).
  unfold search. rewrite HA, HB, Hrun. cbn [init use_reranker reranker].
  change (Py.take 80 fused) with (firstn 80 fused).
  destruct (RerankResultFacts.boosted_results
              predict query (firstn 80 fused) top_k
              ("citations_count"%string, (1 / 10)%R)
              [("is_open_access"%string, (5 / 100)%R);
               ("publication_year"%string, (5 / 100)%R)] Hk)
    as (out & Hout & Hlen & Hfrom & Hdistinct & Hsorted).
  change (Some (("citations_count"%string, (1 / 10)%R)
                :: [("is_open_access"%string, (5 / 100)%R);
                    ("publication_year"%string, (5 / 100)%R)]))
    with (Some search_boosts) in Hout.
  rewrite Hout. exists fused. eexists.
  split; [reflexivity |]. split; [reflexivity |]. cbn [citations
    create_answer_with_citations answer_citations reranked_flag
    total_results returned_results].
  assert (Htake : Py.take top_k out = out).
  { rewrite PyFacts.take_nonneg by exact Hk. apply firstn_all2.
    rewrite Hlen. lia. }
  rewrite Htake. unfold format_results.
  rewrite EngineFacts.format_from_length, EngineFacts.format_from_ids.
  assert (Hcand : NoDup (ids (firstn 80 fused))).
  { apply (RerankResultFacts.prefix_NoDup _ (ids fused)); [| exact Hnd].
    apply PyFacts.prefix_map. exists (skipn 80 fused).
    symmetry. apply firstn_skipn. }
  split; [reflexivity |]. split; [reflexivity |].
  split; [now rewrite Hlen, length_firstn |]. split; [reflexivity |].
  split; [now apply Hdistinct |]. split.
  - intros c Hc. apply in_map_iff in Hc. destruct Hc as (d & <- & Hd).
    destruct (Hfrom d Hd) as (doc & Hdoc & ->). simpl.
    assert (Hin : In (chunk_id doc) (ids fused)).
    { apply in_map. rewrite <- (firstn_skipn 80 fused).
      apply in_or_app. now left. }
    apply Hmem in Hin. destruct Hin as (l & [<- | [<- | []]] & Hl); auto.
  - apply format_from_by_final; [| exact Hsorted].
    apply Forall_forall. intros d Hd.
    destruct (Hfrom d Hd) as (doc & _ & ->). discriminate.
Qed.
End Reranked.

Lemma search_with_reranker_witness :
  exists fused resp,
    HybridFusion.reciprocal_rank_fusion [lexical_list; vector_list] 60
    = Some fused /\
    search sample_bm25 sample_vector
           (init true (Some (Reranker.local grade))) "twin" 3 None None
    = Some resp /\
    reranked_flag resp = true /\
    total_results resp = List.length fused /\
    List.length (citations resp)
    = Nat.min (Z.to_nat 3) (Nat.min 80 (List.length fused)) /\
    returned_results resp = List.length (citations resp) /\
    NoDup (map cited_chunk_id (citations resp)) /\
    (forall c, In c (map cited_chunk_id (citations resp)) ->
               In c (ids lexical_list) \/ In c (ids vector_list)) /\
    StronglySorted by_final (citations resp).
Proof.
  apply (search_with_reranker sample_bm25 sample_vector grade "twin" 3 None
                              None lexical_list vector_list).
  - reflexivity.
  - reflexivity.
  - lia.
Defined.

End EngineResultFacts.

Module EngineFilterFacts.

Import HybridSearchEngine CitationFormatter Samples.

Lemma format_from_types (idx : nat) (results : list Doc) :
  map cited_chunk_type (format_from idx results) = map chunk_type results.
Proof.
  revert idx. induction results as [|r l IH]; intros idx; simpl;
    [reflexivity | now rewrite IH].
Qed.

(** [d] is [doc] with scores added. *)
Definition same_chunk (d doc : Doc) : Prop :=
  chunk_id d = chunk_id doc /\ chunk_type d = chunk_type doc.

Lemma cohere_results_from (documents : list Doc) (results : list (nat * R)) :
  forall out,
    Reranker._rerank_cohere_results documents results = Some out ->
    forall d, In d out -> exists doc, In doc documents /\ same_chunk d doc.
Proof.
  induction results as [|[idx score] results IH]; simpl.
  - intros out [= <-] d [].
  - destruct (nth_error documents idx) as [doc|] eqn:E; [| discriminate].
    destruct (Reranker._rerank_cohere_results documents results) as [out'|];
      [| discriminate].
    intros out [= <-] d [<- | Hd].
    + exists doc. split; [now apply (nth_error_In _ idx) | now split].
    + now apply (IH out').
Qed.

Lemma rerank_from (self : Reranker.t) (query : string)
      (documents : list Doc) (n : Z) (out : list Doc) :
  Reranker.rerank self query documents n = Some out ->
  forall d, In d out -> exists doc, In doc documents /\ same_chunk d doc.
Proof.
  unfold Reranker.rerank. destruct documents as [|d0 rest].
  { intros [= <-] d []. }
  destruct self as [predict | client |].
  - intros [= <-] d Hd.
    apply (PyFacts.prefix_incl _ _ (PyFacts.take_prefix _ _)) in Hd.
    apply PyFacts.sort_In, in_map_iff in Hd.
    destruct Hd as (doc & <- & Hdoc). exists doc. split; [exact Hdoc |].
    now split.
  - unfold Reranker._rerank_cohere.
    destruct (client _ _ _) as [results|]; [| discriminate].
    apply cohere_results_from.
  - intros [= <-] d Hd.
    apply (PyFacts.prefix_incl _ _ (PyFacts.take_prefix _ _)) in Hd.
    exists d. split; [exact Hd | now split].
Qed.

Lemma rerank_with_metadata_from (self : Reranker.t) (query : string)
      (documents : list Doc) (top_k : Z)
      (boost_fields : option (Py.dict R)) (out : list Doc) :
  Reranker.rerank_with_metadata self query documents top_k boost_fields
  = Some out ->
  forall d, In d out -> exists doc, In doc documents /\ same_chunk d doc.
Proof.
  intros Hrun d Hd.
  destruct (RerankFacts.rerank_with_metadata_subset _ _ _ _ _ _ Hrun)
    as (reranked & Hre & Hsub).
  destruct (Hsub d Hd) as (r & Hr & Hrel).
  destruct (rerank_from _ _ _ _ _ Hre r Hr) as (doc & Hdoc & Hid & Hty).
  exists doc. split; [exact Hdoc |].
  destruct Hrel as [-> | [fields ->]]; now split.
Qed.

Section Filtered.
Variable bm25_search : string -> nat -> option (list string)
                       -> option (list Doc).
Variable vector_search : string -> nat -> option (list string)
                         -> option (list Doc).

(** Whatever the engine's reranker, a response cites only chunks that a
    searcher returned, under the chunk type the searcher gave them. *)
Lemma search_cites_searcher_results (self : engine) (query : string)
      (top_k : Z) (chunk_types : option (list string))
      (filters : option (Py.dict filter_value)) (A B : list Doc)
      (resp : response) :
  bm25_search query 50%nat chunk_types = Some A ->
  vector_search query 50%nat chunk_types = Some B ->
  search bm25_search vector_search self query top_k chunk_types filters
  = Some resp ->
  forall c, In c (citations resp) ->
            exists doc, In doc (A ++ B)
                        /\ cited_chunk_id c = chunk_id doc
                        /\ cited_chunk_type c = chunk_type doc.
Proof.
  intros HA HB. unfold search. rewrite HA, HB.
  destruct (FusionCorrect.fusion_run [A; B] 60 ltac:(lia))
    as (fused & Hrun & _ & _ & _ & _ & Horigin).
  rewrite Hrun.
  assert (Hfused : forall d, In d (Py.take 80 fused) ->
                             exists doc, In doc (A ++ B) /\ same_chunk d doc).
  { intros d Hd.
    apply (PyFacts.prefix_incl _ _ (PyFacts.take_prefix _ _)) in Hd.
    destruct (Horigin d Hd) as (first & s & Hfirst & ->).
    destruct (EngineFacts.first_in_lists_In _ _ _ Hfirst) as (l & Hl & Hin).
    exists first. split; [| now split].
    apply in_or_app. destruct Hl as [<- | [<- | []]]; auto. }
  set (final_results :=
         if use_reranker self
         then match reranker self with
              | Some r =>
                  Reranker.rerank_with_metadata
                    r query (Py.take 80 fused) top_k (Some search_boosts)
              | None => None
              end
         else Some (Py.take top_k (Py.take 80 fused))).
  assert (Hfinal : forall out, final_results = Some out ->
             forall d, In d out ->
                       exists doc, In doc (A ++ B) /\ same_chunk d doc).
  { unfold final_results. intros out Hout d Hd.
    destruct (use_reranker self).
    - destruct (reranker self) as [r|]; [| discriminate].
      destruct (rerank_with_metadata_from _ _ _ _ _ _ Hout d Hd)
        as (doc & Hdoc & Hid & Hty).
      destruct (Hfused doc Hdoc) as (doc' & Hdoc' & Hid' & Hty').
      exists doc'. split; [exact Hdoc' |]. split; congruence.
    - injection Hout as <-. apply Hfused.
      exact (PyFacts.prefix_incl _ _ (PyFacts.take_prefix top_k _) d Hd). }
  destruct final_results as [out|]; [| discriminate].
  intros [= <-] c Hc. cbn [citations] in Hc.
  unfold create_answer_with_citations, format_results in Hc.
  cbn [answer_citations] in Hc.
  set (shown := Py.take top_k out) in Hc.
  assert (Hid : In (cited_chunk_id c, cited_chunk_type c)
                   (map (fun d => (chunk_id d, chunk_type d)) shown)).
  { clear - Hc. revert Hc. generalize 1%nat.
    induction shown as [|r l IH]; intros idx; simpl; [tauto |].
    intros [<- | H]; [now left | right; now apply (IH (S idx))]. }
  apply in_map_iff in Hid. destruct Hid as (d & E & Hd).
  injection E as E1 E2.
  apply (PyFacts.prefix_incl _ _ (PyFacts.take_prefix _ _)) in Hd.
  destruct (Hfinal out eq_refl d Hd) as (doc & Hdoc & Hid & Hty).
  exists doc. split; [exact Hdoc |]. split; congruence.
Qed.

(** The [filters] argument is copied into the response and used for
    nothing else. *)
Lemma search_echoes_filters (self : engine) (query : string) (top_k : Z)
      (chunk_types : option (list string))
      (filters : option (Py.dict filter_value)) :
  search bm25_search vector_search self query top_k chunk_types filters
  = option_map
      (fun resp => {| total_results := total_results resp;
                      returned_results := returned_results resp;
                      citations := citations resp;
                      reranked_flag := reranked_flag resp;
                      filters_applied := or_empty filters |})
      (search bm25_search vector_search self query top_k chunk_types None).
Proof.
  unfold search.
  destruct (bm25_search query 50%nat chunk_types); [| reflexivity].
  destruct (vector_search query 50%nat chunk_types); [| reflexivity].
  destruct (HybridFusion.reciprocal_rank_fusion _ 60); [| reflexivity].
  cbv zeta.
  destruct (use_reranker self); [| reflexivity].
  destruct (reranker self) as [r|]; [| reflexivity].
  destruct (Reranker.rerank_with_metadata _ _ _ _ _); reflexivity.
Qed.

(** X25: [search_publications_only] asks both searchers for the chunk
    types [publication_abstract] and [publication_title]; when they
    return only such chunks, every citation of the response has one of
    these two types, whatever reranker the engine uses.  The year and
    abstract arguments are copied into [filters_applied] of the response
    and filter nothing: for any other values the call answers with the
    same citations, the same counts and the same [reranked] flag. *)
Theorem publications_only_cites_publications
        (self : engine) (query : string) (top_k : Z)
        (year_from year_to : option Z) (has_abstract : bool)
        (A B : list Doc) (resp : response) :
  let types := ["publication_abstract"%string; "publication_title"%string] in
  bm25_search query 50%nat (Some types) = Some A ->
  vector_search query 50%nat (Some types) = Some B ->
  Forall (fun d => In (chunk_type d) types) (A ++ B) ->
  search_publications_only bm25_search vector_search self query top_k
                           year_from year_to has_abstract = Some resp ->
  Forall (fun c => In (cited_chunk_type c) types) (citations resp)
  /\ filters_applied resp
     = [("year_from"%string, year_filter year_from);
        ("year_to"%string, year_filter year_to);
        ("has_abstract"%string, flag_filter has_abstract)]
  /\ forall year_from' year_to' has_abstract',
       exists resp',
         search_publications_only bm25_search vector_search self query
                                  top_k year_from' year_to' has_abstract'
         = Some resp'
         /\ citations resp' = citations resp
         /\ total_results resp' = total_results resp
         /\ returned_results resp' = returned_results resp
         /\ reranked_flag resp' = reranked_flag resp.
Proof.
  intros types HA HB Htypes Hrun. split; [| split].
  - apply Forall_forall. intros c Hc.
    destruct (search_cites_searcher_results
                self query top_k (Some types) _ A B resp HA HB Hrun c Hc)
      as (doc & Hdoc & _ & Hty).
    rewrite Hty. rewrite Forall_forall in Htypes. now apply Htypes.
  - unfold search_publications_only in Hrun.
    rewrite search_echoes_filters in Hrun.
    destruct (search _ _ _ _ _ _ None); [| discriminate].
    now injection Hrun as <-.
  - intros year_from' year_to' has_abstract'.
    unfold search_publications_only in *.
    rewrite search_echoes_filters in Hrun.
    rewrite search_echoes_filters.
    destruct (search _ _ _ _ _ _ None) as [plain|]; [| discriminate].
    injection Hrun as <-. eexists. split; [reflexivity |].
    repeat split.
Qed.
End Filtered.

Definition sample_response : response :=
  match search_publications_only sample_bm25 sample_vector (init true None)
                                 "twin" 3 (Some 2015%Z) None true with
  | Some resp => resp
  | None => {| total_results := 0; returned_results := 0;
               citations := []; reranked_flag := false;
               filters_applied := [] |}
  end.

Lemma publications_only_cites_publications_witness :
  Forall (fun c => In (cited_chunk_type c)
                      ["publication_abstract"%string;
                       "publication_title"%string])
         (citations sample_response)
  /\ filters_applied sample_response
     = [("year_from"%string, year_filter (Some 2015%Z));
        ("year_to"%string, year_filter None);
        ("has_abstract"%string, flag_filter true)]
  /\ forall year_from' year_to' has_abstract',
       exists resp',
         search_publications_only sample_bm25 sample_vector
                                  (init true None) "twin" 3
                                  year_from' year_to' has_abstract'
         = Some resp'
         /\ citations resp' = citations sample_response
         /\ total_results resp' = total_results sample_response
         /\ returned_results resp' = returned_results sample_response
         /\ reranked_flag resp' = reranked_flag sample_response.
Proof.
  apply (publications_only_cites_publications
           sample_bm25 sample_vector (init true None) "twin" 3
           (Some 2015%Z) None true lexical_list vector_list sample_response).
  - reflexivity.
  - reflexivity.
  - repeat constructor; simpl; auto.
  - reflexivity.
Defined.

End EngineFilterFacts.

Module BreakdownFacts.

Import HybridSearchEngine.






Example score_breakdown_sample :
  option_map (fun b => (Qred (lowest (bm25_statistics b)),
                        Qred (average (bm25_statistics b)),
                        Qred (highest (bm25_statistics b))))
             (_get_score_breakdown Samples.lexical_list)
  = Some (1 # 5, 8 # 15, 9 # 10).
Proof. reflexivity. Qed.

End BreakdownFacts.
